(** * Habit tracker: a shallow embedding of [HabitTrackerApp.py]

    The development follows the two classes of the program, [Habit] and
    [HabitTracker].  Python's [datetime.date] and [datetime.datetime] values
    are records of their calendar fields; the clock ([date.today()],
    [datetime.now()]) is an input of every operation that reads it, one
    argument per read.  Habit objects live in an object store and are
    referred to by their address, so that the name map and the periodicity
    buckets of a tracker share them the way the Python containers do. *)

From Stdlib Require Import ZArith Lia Bool List Ascii String.
From stdpp Require Import base option list gmap strings pretty.

Local Open Scope Z_scope.

(** ** Calendar: [datetime.date] and [datetime.datetime] *)

(** A [datetime.date]: proleptic Gregorian year, month, day. *)
Record date := mkdate { year : Z; month : Z; day : Z }.

(** A naive [datetime.datetime]. *)
Record datetime := mkdatetime {
  dt_year : Z; dt_month : Z; dt_day : Z;
  dt_hour : Z; dt_minute : Z; dt_second : Z; dt_microsecond : Z
}.

(** [datetime.date()] *)
Definition date_of (t : datetime) : date :=
  mkdate (dt_year t) (dt_month t) (dt_day t).

Definition is_leap (y : Z) : bool :=
  (y mod 4 =? 0) && (negb (y mod 100 =? 0) || (y mod 400 =? 0)).

Definition days_in_month (y m : Z) : Z :=
  match m with
  | 1 => 31 | 2 => if is_leap y then 29 else 28 | 3 => 31 | 4 => 30
  | 5 => 31 | 6 => 30 | 7 => 31 | 8 => 31 | 9 => 30 | 10 => 31
  | 11 => 30 | 12 => 31
  | _ => 0
  end.

(** Days of year [y] before the first day of month [m]. *)
Definition days_before_month (y m : Z) : Z :=
  (match m with
   | 1 => 0 | 2 => 31 | 3 => 59 | 4 => 90 | 5 => 120 | 6 => 151
   | 7 => 181 | 8 => 212 | 9 => 243 | 10 => 273 | 11 => 304 | 12 => 334
   | _ => 0
   end) + (if (2 <? m) && is_leap y then 1 else 0).

(** Days before January 1st of year [y]. *)
Definition days_before_year (y : Z) : Z :=
  let y1 := y - 1 in y1 * 365 + y1 / 4 - y1 / 100 + y1 / 400.

(** [date.toordinal()]: 0001-01-01 is day 1. *)
Definition toordinal (d : date) : Z :=
  days_before_year (year d) + days_before_month (year d) (month d) + day d.

(** The constructor checks of [datetime.date]. *)
Definition valid_date (d : date) : Prop :=
  1 <= year d <= 9999 /\ 1 <= month d <= 12 /\
  1 <= day d <= days_in_month (year d) (month d).

(** The constructor checks of [datetime.datetime]. *)
Definition valid_datetime (t : datetime) : Prop :=
  valid_date (date_of t) /\
  0 <= dt_hour t < 24 /\ 0 <= dt_minute t < 60 /\ 0 <= dt_second t < 60 /\
  0 <= dt_microsecond t < 1000000.

(** [(a - b).days] for two dates. *)
Definition days_between (a b : date) : Z := toordinal a - toordinal b.

(** [a < b] on dates: Python compares the (year, month, day) triples. *)
Definition date_ltb (a b : date) : bool :=
  (year a <? year b) ||
  ((year a =? year b) &&
   ((month a <? month b) || ((month a =? month b) && (day a <? day b)))).

(** The order of the (year, month, day) triples. *)
Definition date_lt (a b : date) : Prop :=
  year a < year b \/
  (year a = year b /\
   (month a < month b \/ (month a = month b /\ day a < day b))).

(** The day before [d]; [None] before 0001-01-01, where Python raises
    [OverflowError]. *)
Definition prev_day (d : date) : option date :=
  if 1 <? day d then Some (mkdate (year d) (month d) (day d - 1))
  else if 1 <? month d then
    Some (mkdate (year d) (month d - 1) (days_in_month (year d) (month d - 1)))
  else if 1 <? year d then Some (mkdate (year d - 1) 12 31)
  else None.

(** [d - datetime.timedelta(days=n)] for [n >= 0]. *)
Fixpoint date_sub_days (d : date) (n : nat) : option date :=
  match n with
  | O => Some d
  | S k => match prev_day d with
           | Some d' => date_sub_days d' k
           | None => None
           end
  end.


(** ** ISO-8601 text: [datetime.isoformat] and [datetime.fromisoformat] *)

Definition digit_char (d : Z) : ascii := ascii_of_nat (48 + Z.to_nat d).

Definition digit_val (c : ascii) : option Z :=
  let n := Z.of_nat (nat_of_ascii c) in
  if (48 <=? n) && (n <=? 57) then Some (n - 48) else None.

(** ["%0wd" % n] for [0 <= n < 10^w], the only use [isoformat] makes of it. *)
Fixpoint zfill (w : nat) (n : Z) : list ascii :=
  match w with
  | O => []
  | S w' => zfill w' (n / 10) ++ [digit_char (n mod 10)]
  end.

(** Decimal value of a run of digits, most significant first. *)
Definition parse_digits (acc : option Z) (s : list ascii) : option Z :=
  fold_left (fun a c => v ← a; k ← digit_val c; Some (v * 10 + k)) s acc.

(** Read a field of exactly [w] digits from the front of [s]. *)
Definition read_digits (w : nat) (s : list ascii) : option (Z * list ascii) :=
  if (length (take w s) =? w)%nat
  then v ← parse_digits (Some 0) (take w s); Some (v, drop w s)
  else None.

(** Read the character [c]. *)
Definition expect (c : ascii) (s : list ascii) : option (list ascii) :=
  match s with
  | x :: s' => if Ascii.eqb x c then Some s' else None
  | [] => None
  end.

Definition valid_dateb (d : date) : bool :=
  (1 <=? year d) && (year d <=? 9999) && (1 <=? month d) && (month d <=? 12)
  && (1 <=? day d) && (day d <=? days_in_month (year d) (month d)).

Definition valid_datetimeb (t : datetime) : bool :=
  valid_dateb (date_of t)
  && (0 <=? dt_hour t) && (dt_hour t <? 24)
  && (0 <=? dt_minute t) && (dt_minute t <? 60)
  && (0 <=? dt_second t) && (dt_second t <? 60)
  && (0 <=? dt_microsecond t) && (dt_microsecond t <? 1000000).

Definition isoformat_chars (t : datetime) : list ascii :=
  zfill 4 (dt_year t) ++ "-"%char :: zfill 2 (dt_month t) ++ "-"%char ::
  zfill 2 (dt_day t) ++ "T"%char ::
  zfill 2 (dt_hour t) ++ ":"%char :: zfill 2 (dt_minute t) ++ ":"%char ::
  zfill 2 (dt_second t) ++
  (if dt_microsecond t =? 0 then []
   else "."%char :: zfill 6 (dt_microsecond t)).

(** [datetime.isoformat()] of a naive datetime:
    [YYYY-MM-DDTHH:MM:SS], followed by [.ffffff] when the microsecond is
    not zero. *)
Definition isoformat (t : datetime) : string :=
  string_of_list_ascii (isoformat_chars t).

Definition fromisoformat_chars (s : list ascii) : option datetime :=
  '(y, s) ← read_digits 4 s;
  s ← expect "-"%char s;
  '(m, s) ← read_digits 2 s;
  s ← expect "-"%char s;
  '(d, s) ← read_digits 2 s;
  s ← match s with _ :: s' => Some s' | [] => None end;
  '(hh, s) ← read_digits 2 s;
  s ← expect ":"%char s;
  '(mi, s) ← read_digits 2 s;
  s ← expect ":"%char s;
  '(ss, s) ← read_digits 2 s;
  us ← match s with
       | [] => Some 0
       | c :: f =>
           if Ascii.eqb c "."%char && (length f =? 6)%nat
           then parse_digits (Some 0) f else None
       end;
  let t := mkdatetime y m d hh mi ss us in
  if valid_datetimeb t then Some t else None.

(** [datetime.fromisoformat] on the texts of the shape [isoformat] writes
    (date, one separator character, [HH:MM:SS], optional six-digit
    fraction), ending with the range checks of the [datetime] constructor.
    [None] is a [ValueError], or a text of another shape, which this
    development does not cover. *)
Definition fromisoformat (s : string) : option datetime :=
  fromisoformat_chars (list_ascii_of_string s).

(** ** Effects: mutable state, raised exceptions, printed lines *)

Inductive exn :=
| KeyError | ValueError | IndexError | OverflowError
| BadAddress. (* an address outside the object store; no Python run has one *)

(** What running a method on a state [S] gives: a value, the state it
    leaves and the lines it printed, or an exception. *)
Inductive outcome (S A : Type) :=
| Returns (a : A) (s : S) (out : list string)
| Raises (e : exn).
Arguments Returns {S A} a s out.
Arguments Raises {S A} e.

Definition M (S A : Type) : Type := S -> outcome S A.

#[global] Instance M_ret {S} : MRet (M S) :=
  fun A (a : A) s => Returns a s [].

#[global] Instance M_bind {S} : MBind (M S) :=
  fun A B (k : A -> M S B) (m : M S A) s =>
    match m s with
    | Returns a s' o =>
        match k a s' with
        | Returns b s'' o' => Returns b s'' (o ++ o')
        | Raises e => Raises e
        end
    | Raises e => Raises e
    end.

Definition gets {S A} (f : S -> A) : M S A := fun s => Returns (f s) s [].
Definition modify {S} (f : S -> S) : M S unit := fun s => Returns tt (f s) [].
Definition raise {S A} (e : exn) : M S A := fun _ => Raises e.
Definition print {S} (line : string) : M S unit := fun s => Returns tt s [line].

(** ** class Habit *)

Record Habit := mkHabit {
  name : string;
  periodicity : Z;
  created_at : datetime;
  checkoffs : list datetime;
  streak : Z;
  last_checkoff_date : option date
}.

Definition set_checkoffs (v : list datetime) (h : Habit) : Habit :=
  mkHabit (name h) (periodicity h) (created_at h) v (streak h)
    (last_checkoff_date h).
Definition set_streak (v : Z) (h : Habit) : Habit :=
  mkHabit (name h) (periodicity h) (created_at h) (checkoffs h) v
    (last_checkoff_date h).
Definition set_last_checkoff_date (v : option date) (h : Habit) : Habit :=
  mkHabit (name h) (periodicity h) (created_at h) (checkoffs h) (streak h) v.

(** [Habit.__init__]; [now] is the value of [datetime.datetime.now()], read
    only when no [created_at] is passed. *)
Definition Habit_init (nm : string) (p : Z) (created : option datetime)
    (now : datetime) : Habit :=
  mkHabit nm p (match created with Some c => c | None => now end) [] 0 None.

(** [Habit.checkoff]; [today] is what [datetime.date.today()] returns on
    the first line and [now] what [datetime.datetime.now()] returns when the
    timestamp is appended. *)
Definition checkoff (today : date) (now : datetime) : M Habit unit :=
  last ← gets last_checkoff_date;
  match last with
  | Some l =>
      let delta := days_between today l in
      p ← gets periodicity;
      if p <? delta then modify (set_streak 0) else mret tt
  | None => mret tt
  end;;
  cs ← gets checkoffs;
  modify (set_checkoffs (cs ++ [now]));;
  modify (set_last_checkoff_date (Some today));;
  s ← gets streak;
  modify (set_streak (s + 1)).

(** [Habit.current_streak] *)
Definition current_streak (today : date) : M Habit Z :=
  last ← gets last_checkoff_date;
  match last with
  | Some l =>
      let delta := days_between today l in
      p ← gets periodicity;
      if delta <=? p then gets streak else mret 0
  | None => mret 0
  end.

(** [max] of a list of integers ([ValueError] on the empty list). *)
Definition py_max {S} (l : list Z) : M S Z :=
  match l with
  | [] => raise ValueError
  | x :: r => mret (fold_left Z.max r x)
  end.

(** One round of the loop of [longest_streak] at index [i]; the state of
    the loop is the list [streaks] and the counter [current_streak]. *)
Definition longest_streak_body (cs : list datetime) (p : Z)
    (st : outcome unit (list Z * Z)) (i : nat) : outcome unit (list Z * Z) :=
  match st with
  | Returns (streaks, cur) _ _ =>
      match cs !! i, cs !! (i - 1)%nat with
      | Some a, Some b =>
          if days_between (date_of a) (date_of b) <=? p
          then Returns (streaks, cur + 1) tt []
          else Returns (streaks ++ [cur], 1) tt []
      | _, _ => Raises IndexError
      end
  | Raises e => Raises e
  end.

(** [Habit.longest_streak] *)
Definition longest_streak : M Habit Z :=
  cs ← gets checkoffs;
  p ← gets periodicity;
  match cs with
  | [] => mret 0
  | _ =>
      match fold_left (longest_streak_body cs p)
              (seq 1 (length cs - 1)) (Returns ([], 1) tt []) with
      | Returns (streaks, cur) _ _ => py_max (streaks ++ [cur])
      | Raises e => raise e
      end
  end.

(** The record [to_dict] builds: a dict with four fixed keys. *)
Record HabitDict := mkHabitDict {
  d_name : string;
  d_periodicity : Z;
  d_created_at : string;
  d_checkoffs : list string
}.

(** [Habit.to_dict] *)
Definition to_dict : M Habit HabitDict :=
  nm ← gets name;
  p ← gets periodicity;
  c ← gets created_at;
  cs ← gets checkoffs;
  mret (mkHabitDict nm p (isoformat c) (map isoformat cs)).

(** [[datetime.datetime.fromisoformat(dt) for dt in l]] *)
Fixpoint fromisoformat_all (l : list string) : option (list datetime) :=
  match l with
  | [] => Some []
  | s :: r =>
      t ← fromisoformat s;
      ts ← fromisoformat_all r;
      Some (t :: ts)
  end.

(** [Habit.from_dict]; [None] is the [ValueError] of [fromisoformat].
    [now] is passed on to [Habit.__init__]. *)
Definition from_dict (data : HabitDict) (now : datetime) : option Habit :=
  c ← fromisoformat (d_created_at data);
  let habit := Habit_init (d_name data) (d_periodicity data) (Some c) now in
  cs ← fromisoformat_all (d_checkoffs data);
  let habit := set_checkoffs cs habit in
  Some (match checkoffs habit with
        | [] => habit
        | _ => set_last_checkoff_date (date_of <$> last (checkoffs habit)) habit
        end).

(** ** Containers of the tracker *)

(** A [dict] keyed by strings keeps its entries in insertion order;
    assigning to a key that is present replaces the value in place. *)
Fixpoint dict_get {V} (k : string) (d : list (string * V)) : option V :=
  match d with
  | [] => None
  | (k', v) :: r => if String.eqb k' k then Some v else dict_get k r
  end.

Fixpoint dict_set {V} (k : string) (v : V) (d : list (string * V))
    : list (string * V) :=
  match d with
  | [] => [(k, v)]
  | (k', v') :: r =>
      if String.eqb k' k then (k, v) :: r else (k', v') :: dict_set k v r
  end.

Fixpoint dict_pop {V} (k : string) (d : list (string * V))
    : list (string * V) :=
  match d with
  | [] => []
  | (k', v) :: r => if String.eqb k' k then r else (k', v) :: dict_pop k r
  end.

Definition dict_values {V} (d : list (string * V)) : list V := map snd d.

(** [list.remove(x)]: drops the first occurrence, [None] ([ValueError])
    when there is none.  Habit has no [__eq__], so two habits are equal
    when they are the same object: addresses are compared. *)
Fixpoint list_remove (x : nat) (l : list nat) : option (list nat) :=
  match l with
  | [] => None
  | y :: r => if (y =? x)%nat then Some r
              else r' ← list_remove x r; Some (y :: r')
  end.

(** ** class HabitTracker *)

(** [objs] is the store of the Habit objects the tracker has created, a
    Habit being referred to by its index there; [habits] and
    [habits_by_periodicity] hold such references. *)
Record HabitTracker := mkHabitTracker {
  objs : list Habit;
  habits : list (string * nat);
  habits_by_periodicity : gmap Z (list nat)
}.

Definition set_objs (v : list Habit) (t : HabitTracker) : HabitTracker :=
  mkHabitTracker v (habits t) (habits_by_periodicity t).
Definition set_habits (v : list (string * nat)) (t : HabitTracker)
    : HabitTracker :=
  mkHabitTracker (objs t) v (habits_by_periodicity t).
Definition set_habits_by_periodicity (v : gmap Z (list nat))
    (t : HabitTracker) : HabitTracker :=
  mkHabitTracker (objs t) (habits t) v.

(** [HabitTracker.__init__] *)
Definition HabitTracker_init : HabitTracker := mkHabitTracker [] [] ∅.

(** Creating an object: it is stored at the next free address. *)
Definition new_object (h : Habit) : M HabitTracker nat :=
  os ← gets objs;
  modify (set_objs (os ++ [h]));;
  mret (length os).

(** Reading the object a reference points to. *)
Definition deref (l : nat) : M HabitTracker Habit :=
  os ← gets objs;
  match os !! l with
  | Some h => mret h
  | None => raise BadAddress
  end.

(** Running a method of Habit on the object at address [l]. *)
Definition on_object {A} (l : nat) (m : M Habit A) : M HabitTracker A :=
  fun t =>
    match objs t !! l with
    | Some h =>
        match m h with
        | Returns a h' o => Returns a (set_objs (<[l := h']> (objs t)) t) o
        | Raises e => Raises e
        end
    | None => Raises BadAddress
    end.

(** [self.habits_by_periodicity[p]] on the [defaultdict(list)]: a missing
    key is first given an empty list. *)
Definition bucket (p : Z) : M HabitTracker (list nat) :=
  m ← gets habits_by_periodicity;
  match m !! p with
  | Some b => mret b
  | None => modify (set_habits_by_periodicity (<[p := []]> m));; mret []
  end.

(** Storing the list of bucket [p] after it was changed in place. *)
Definition set_bucket (p : Z) (b : list nat) : M HabitTracker unit :=
  m ← gets habits_by_periodicity;
  modify (set_habits_by_periodicity (<[p := b]> m)).

(** [HabitTracker.add_habit]; [now] is the clock read by [Habit.__init__]. *)
Definition add_habit (nm : string) (p : Z) (now : datetime)
    : M HabitTracker unit :=
  habit ← new_object (Habit_init nm p None now);
  hs ← gets habits;
  modify (set_habits (dict_set nm habit hs));;
  b ← bucket p;
  set_bucket p (b ++ [habit]).

(** [HabitTracker.delete_habit] *)
Definition delete_habit (nm : string) : M HabitTracker unit :=
  hs ← gets habits;
  match dict_get nm hs with
  | Some habit =>
      modify (set_habits (dict_pop nm hs));;
      h ← deref habit;
      b ← bucket (periodicity h);
      match list_remove habit b with
      | Some b' => set_bucket (periodicity h) b'
      | None => raise ValueError
      end
  | None => mret tt
  end.

(** [HabitTracker.checkoff_habit]; [today] and [now] are the two clock
    reads of [Habit.checkoff]. *)
Definition checkoff_habit (nm : string) (today : date) (now : datetime)
    : M HabitTracker unit :=
  hs ← gets habits;
  match dict_get nm hs with
  | Some habit => on_object habit (checkoff today now)
  | None => print ("Habit '" +:+ nm +:+ "' does not exist.")
  end.

(** [HabitTracker.get_all_habits] *)
Definition get_all_habits : M HabitTracker (list nat) :=
  hs ← gets habits;
  mret (dict_values hs).

(** [HabitTracker.get_habits_by_periodicity] *)
Definition get_habits_by_periodicity (p : Z) : M HabitTracker (list nat) :=
  bucket p.

(** The test of [habits_struggled_last_month]:
    [not habit.checkoffs or habit.checkoffs[-1].date() < one_month_ago];
    [last] gives nothing exactly on the empty list. *)
Definition struggled (one_month_ago : date) (h : Habit) : bool :=
  match last (checkoffs h) with
  | None => true
  | Some c => date_ltb (date_of c) one_month_ago
  end.

(** The loop of [habits_struggled_last_month] over [self.habits.values()]. *)
Fixpoint struggled_loop (one_month_ago : date) (vs : list nat)
    (struggled_habits : list string) : M HabitTracker (list string) :=
  match vs with
  | [] => mret struggled_habits
  | habit :: r =>
      h ← deref habit;
      if struggled one_month_ago h
      then struggled_loop one_month_ago r (struggled_habits ++ [name h])
      else struggled_loop one_month_ago r struggled_habits
  end.

(** [HabitTracker.habits_struggled_last_month]; [today] is the clock. *)
Definition habits_struggled_last_month (today : date)
    : M HabitTracker (list string) :=
  match date_sub_days today 30 with
  | Some one_month_ago =>
      hs ← gets habits;
      struggled_loop one_month_ago (dict_values hs) []
  | None => raise OverflowError
  end.

(** ** Runs of a tracker *)

(** The calls a client makes on a tracker, with the clock values each one
    reads. *)
Inductive call :=
| AddHabit (nm : string) (p : Z) (now : datetime)
| DeleteHabit (nm : string)
| CheckoffHabit (nm : string) (today : date) (now : datetime)
| GetHabitsByPeriodicity (p : Z).

Definition run_call (c : call) : M HabitTracker unit :=
  match c with
  | AddHabit nm p now => add_habit nm p now
  | DeleteHabit nm => delete_habit nm
  | CheckoffHabit nm today now => checkoff_habit nm today now
  | GetHabitsByPeriodicity p => get_habits_by_periodicity p;; mret tt
  end.

Fixpoint run_calls (cs : list call) : M HabitTracker unit :=
  match cs with
  | [] => mret tt
  | c :: r => run_call c;; run_calls r
  end.

(** The trackers a client can hold: those a sequence of calls builds from
    a new tracker. *)
Definition reachable (t : HabitTracker) : Prop :=
  exists cs out, run_calls cs HabitTracker_init = Returns tt t out.

(** The Habit objects held in some bucket, and those held in the name map. *)
Definition bucket_entries (t : HabitTracker) : list nat :=
  concat (map snd (map_to_list (habits_by_periodicity t))).

Definition bucket_objects (t : HabitTracker) : gset nat :=
  list_to_set (bucket_entries t).

Definition habit_objects (t : HabitTracker) : gset nat :=
  list_to_set (dict_values (habits t)).

(** The two indexes agree: the buckets hold exactly the habits of the name
    map, each one once. *)
Definition indexes_agree (t : HabitTracker) : Prop :=
  bucket_objects t = habit_objects t /\ NoDup (bucket_entries t).

(** ** Reading results *)

(** The value a call returned, if it returned. *)
Definition value_of {S A} (o : outcome S A) : option A :=
  match o with
  | Returns a _ _ => Some a
  | Raises _ => None
  end.

(** The state a call left, if it returned. *)
Definition state_of {S A} (o : outcome S A) : option S :=
  match o with
  | Returns _ s _ => Some s
  | Raises _ => None
  end.

(** Saving a habit and loading it again: [Habit.from_dict(h.to_dict())]. *)
Definition reload (h : Habit) (now : datetime) : option Habit :=
  match to_dict h with
  | Returns data _ _ => from_dict data now
  | Raises _ => None
  end.

(** ** The streak walk as the specification words it

    Walk the dates pairwise from the first one: [cur] is the running
    counter, [results] the runs closed so far. *)
Fixpoint walk_pairs (p : Z) (prev : date) (rest : list date)
    (cur : Z) (results : list Z) : list Z * Z :=
  match rest with
  | [] => (results, cur)
  | d :: rest' =>
      if days_between d prev <=? p
      then walk_pairs p d rest' (cur + 1) results
      else walk_pairs p d rest' 1 (results ++ [cur])
  end.

Fixpoint maximum (x : Z) (l : list Z) : Z :=
  match l with
  | [] => x
  | y :: r => Z.max x (maximum y r)
  end.

(** Longest run of a checkoff history, by the pairwise walk: 0 without
    checkoffs; otherwise the final run is closed after the walk and the
    maximum run length is the result. *)
Definition longest_run (p : Z) (cs : list datetime) : Z :=
  match map date_of cs with
  | [] => 0
  | d :: ds =>
      let '(results, cur) := walk_pairs p d ds 1 [] in
      match results ++ [cur] with
      | [] => 0
      | x :: r => maximum x r
      end
  end.

(** ** Runs of a habit *)

(** A sequence of [checkoff()] calls on one habit; each call comes with its
    two clock reads, [date.today()] and then [datetime.now()]. *)
Fixpoint checkoff_run (reads : list (date * datetime)) : M Habit unit :=
  match reads with
  | [] => mret tt
  | (today, now) :: r => checkoff today now;; checkoff_run r
  end.

(** The calendar dates the clock showed, in the order it was read. *)
Fixpoint clock_dates (reads : list (date * datetime)) : list date :=
  match reads with
  | [] => []
  | (today, now) :: r => today :: date_of now :: clock_dates r
  end.

(** The clock never runs backwards over the dates [ds]. *)
Fixpoint non_decreasing (ds : list date) : bool :=
  match ds with
  | a :: (b :: _) as r => (toordinal a <=? toordinal b) && non_decreasing r
  | _ => true
  end.

(** Both clock reads of a call fall on the same calendar date. *)
Definition same_day (r : date * datetime) : Prop := date_of r.2 = r.1.

(** What the stored fields of a habit record about its history: the
    counter of the run its last checkoff closes, and the date of that
    checkoff. *)
Definition streak_tracks_history (h : Habit) : Prop :=
  match map date_of (checkoffs h) with
  | [] => streak h = 0 /\ last_checkoff_date h = None
  | d :: ds =>
      streak h = (walk_pairs (periodicity h) d ds 1 []).2 /\
      last_checkoff_date h = Some (default d (last ds)) /\
      1 <= streak h
  end.

(** ** Consistency of a tracker

    What every run keeps true of the two indexes and the store: the names
    are distinct keys, every registered habit is a stored object listed in
    the bucket of its periodicity, every bucket entry is a stored object of
    that periodicity, and two names never share an object. *)
Definition tracker_ok (t : HabitTracker) : Prop :=
  NoDup (map fst (habits t)) /\
  (forall nm l, dict_get nm (habits t) = Some l ->
     exists h b, objs t !! l = Some h /\
       habits_by_periodicity t !! periodicity h = Some b /\ l ∈ b) /\
  (forall p b l, habits_by_periodicity t !! p = Some b -> l ∈ b ->
     exists h, objs t !! l = Some h /\ periodicity h = p) /\
  (forall nm1 nm2 l, dict_get nm1 (habits t) = Some l ->
     dict_get nm2 (habits t) = Some l -> nm1 = nm2).

(** The Habit objects of the name map, in the order of [habits.values()]. *)
Definition registered_habits (t : HabitTracker) : list Habit :=
  omap (fun l => objs t !! l) (dict_values (habits t)).

(** The trackers built by runs that never call [add_habit] with a name
    that is registered at the time of the call. *)
Inductive reachable_fresh : HabitTracker -> Prop :=
| reachable_fresh_init : reachable_fresh HabitTracker_init
| reachable_fresh_call (t t' : HabitTracker) (c : call) (out : list string) :
    reachable_fresh t ->
    (forall nm p now, c = AddHabit nm p now -> dict_get nm (habits t) = None) ->
    run_call c t = Returns tt t' out ->
    reachable_fresh t'.

(** Every bucket entry is registered under some name. *)
Definition buckets_registered (t : HabitTracker) : Prop :=
  forall p b l, habits_by_periodicity t !! p = Some b -> l ∈ b ->
    exists nm, dict_get nm (habits t) = Some l.

(** ** class HabitTracker: streak queries *)

(** [max(..., default=d)] of a list of integers. *)
Definition py_max_default (l : list Z) (d : Z) : Z :=
  match l with
  | [] => d
  | x :: r => fold_left Z.max r x
  end.

(** [habit.longest_streak() for habit in self.habits.values()] *)
Fixpoint longest_streaks (vs : list nat) : M HabitTracker (list Z) :=
  match vs with
  | [] => mret []
  | habit :: r =>
      v ← on_object habit longest_streak;
      vs' ← longest_streaks r;
      mret (v :: vs')
  end.

(** [HabitTracker.longest_streak_all] *)
Definition longest_streak_all : M HabitTracker Z :=
  hs ← gets habits;
  ls ← longest_streaks (dict_values hs);
  mret (py_max_default ls 0).

(** [HabitTracker.longest_streak_for_habit] *)
Definition longest_streak_for_habit (nm : string) : M HabitTracker Z :=
  hs ← gets habits;
  match dict_get nm hs with
  | Some habit => on_object habit longest_streak
  | None => mret 0
  end.

(** ** class HabitTracker: persistence *)

(** The JSON document of a habit file: an object that maps each name to
    the record of [to_dict].  The text of the file is not modelled;
    [json.dump] and [json.load] stand for each other's inverse on such
    documents. *)
Definition document : Type := list (string * HabitDict).

(** [{name: habit.to_dict() for name, habit in self.habits.items()}] *)
Fixpoint dump_habits (items : list (string * nat)) (acc : document)
    : M HabitTracker document :=
  match items with
  | [] => mret acc
  | (nm, habit) :: r =>
      d ← on_object habit to_dict;
      dump_habits r (dict_set nm d acc)
  end.

(** [HabitTracker.save_to_file]: the result is the document written to the
    file. *)
Definition save_to_file : M HabitTracker document :=
  hs ← gets habits;
  dump_habits hs [].

(** The loop that files every habit of the name map under its
    periodicity. *)
Fixpoint index_habits (vs : list nat) : M HabitTracker unit :=
  match vs with
  | [] => mret tt
  | habit :: r =>
      h ← deref habit;
      b ← bucket (periodicity h);
      set_bucket (periodicity h) (b ++ [habit]);;
      index_habits r
  end.

Section Loading.

(** [datetime.datetime.fromisoformat], left open: [parse_iso s] is the
    datetime the library builds from the text [s], as its date and clock
    fields, [None] where it raises [ValueError].  Which texts it accepts
    differs between Python versions (a date alone, a time without seconds,
    a fraction of three digits, ...); what is proved about loading holds
    for every such function.  A UTC offset in a text, which the program
    never writes, is not kept: the program reads only the date of a
    timestamp it has loaded.  The function [fromisoformat] above is the
    instance this development computes with. *)
Variable parse_iso : string -> option datetime.

(** [[datetime.datetime.fromisoformat(dt) for dt in l]] *)
Fixpoint parse_iso_all (l : list string) : option (list datetime) :=
  match l with
  | [] => Some []
  | s :: r =>
      t ← parse_iso s;
      ts ← parse_iso_all r;
      Some (t :: ts)
  end.

(** [Habit.from_dict] over the library's parser; [None] is the
    [ValueError] of [fromisoformat].  [from_dict] above is
    [Habit_from_dict fromisoformat]. *)
Definition Habit_from_dict (data : HabitDict) (now : datetime)
    : option Habit :=
  c ← parse_iso (d_created_at data);
  let habit := Habit_init (d_name data) (d_periodicity data) (Some c) now in
  cs ← parse_iso_all (d_checkoffs data);
  let habit := set_checkoffs cs habit in
  Some (match checkoffs habit with
        | [] => habit
        | _ => set_last_checkoff_date (date_of <$> last (checkoffs habit)) habit
        end).

(** [{name: Habit.from_dict(h) for name, h in data.items()}]; each Habit
    built is a new object. *)
Fixpoint load_habits (items : document) (now : datetime)
    (acc : list (string * nat)) : M HabitTracker (list (string * nat)) :=
  match items with
  | [] => mret acc
  | (nm, h) :: r =>
      match Habit_from_dict h now with
      | Some habit =>
          l ← new_object habit;
          load_habits r now (dict_set nm l acc)
      | None => raise ValueError
      end
  end.

(** [HabitTracker.load_from_file]; [file] is the document the file holds,
    [None] when there is no file ([FileNotFoundError], which is caught). *)
Definition load_from_file (file : option document) (now : datetime)
    : M HabitTracker unit :=
  match file with
  | Some data =>
      hs ← load_habits data now [];
      modify (set_habits hs);;
      modify (set_habits_by_periodicity ∅);;
      hs' ← gets habits;
      index_habits (dict_values hs')
  | None => mret tt
  end.

(** The Habits the records [ds] describe, in order; [None] when the
    parser refuses a timestamp of some record. *)
Fixpoint from_dict_all (ds : list HabitDict) (now : datetime)
    : option (list Habit) :=
  match ds with
  | [] => Some []
  | d :: r =>
      h ← Habit_from_dict d now;
      hs ← from_dict_all r now;
      Some (h :: hs)
  end.

End Loading.

(** The parser reads back what [isoformat] writes. *)
Definition reads_isoformat (parse_iso : string -> option datetime) : Prop :=
  forall t, valid_datetime t -> parse_iso (isoformat t) = Some t.

(** ** Gaps of a history *)

(** The day differences between consecutive dates, starting after [prev]. *)
Fixpoint gaps (prev : date) (rest : list date) : list Z :=
  match rest with
  | [] => []
  | d :: r => days_between d prev :: gaps d r
  end.

(** The day differences between consecutive checkoffs of a history. *)
Definition checkoff_gaps (cs : list datetime) : list Z :=
  match map date_of cs with
  | [] => []
  | d :: ds => gaps d ds
  end.

(** The pairwise walk with the closed runs summarised by their maximum
    [best] (0 while no run is closed). *)
Fixpoint best_run (p : Z) (prev : date) (rest : list date) (cur best : Z)
    : Z :=
  match rest with
  | [] => Z.max best cur
  | d :: rest' =>
      if days_between d prev <=? p
      then best_run p d rest' (cur + 1) best
      else best_run p d rest' 1 (Z.max best cur)
  end.

(** ** Reading a saved tracker *)

(** A habit as it comes back from a file: the stored fields kept, the
    streak at 0, the last checkoff date taken from the history. *)
Definition reloaded (h : Habit) : Habit :=
  mkHabit (name h) (periodicity h) (created_at h) (checkoffs h) 0
    (date_of <$> last (checkoffs h)).

(** The addresses of [vs] whose Habit has periodicity [p]. *)
Definition with_periodicity (t : HabitTracker) (p : Z) (vs : list nat)
    : list nat :=
  List.filter
    (fun l => match objs t !! l with
              | Some h => periodicity h =? p
              | None => false
              end) vs.

(** Every timestamp of the habit is a valid datetime. *)
Definition valid_habit (h : Habit) : Prop :=
  valid_datetime (created_at h) /\ Forall valid_datetime (checkoffs h).

(** ** The console: [input] and [print], [get_user_input], the quiz of [cli] *)

(** What a dialogue gives: an answer, the lines the user has not typed yet
    and what was written to the terminal; or the end of the input, where
    [input] raises [EOFError]. *)
Inductive console (A : Type) :=
| Answered (a : A) (rest : list string) (out : list string)
| EndOfInput (out : list string).
Arguments Answered {A} a rest out.
Arguments EndOfInput {A} out.

(** Writing [pre] to the terminal before a dialogue. *)
Definition after_output {A} (pre : list string) (c : console A) : console A :=
  match c with
  | Answered a rest out => Answered a rest (pre ++ out)
  | EndOfInput out => EndOfInput (pre ++ out)
  end.

(** [sep.join(l)] *)
Fixpoint join (sep : string) (l : list string) : string :=
  match l with
  | [] => ""
  | [x] => x
  | x :: r => x +:+ sep +:+ join sep r
  end.

(** [x in l] for a list of strings. *)
Definition str_in (x : string) (l : list string) : bool :=
  existsb (String.eqb x) l.

Section Console.

(** [str.strip] and [str.lower], left open: the properties below hold
    whatever they do to a line. *)
Variable strip : string -> string.
Variable lower : string -> string.

(** [get_user_input]; the argument after [valid_responses] holds the lines
    the user types.  The terminal shows the prompt at each [input] and a
    line at each [print]. *)
Fixpoint get_user_input (prompt : string) (valid_responses : list string)
    (inputs : list string) : console string :=
  match inputs with
  | [] => EndOfInput [prompt]
  | line :: rest =>
      let response := lower (strip line) in
      if str_in response valid_responses
      then Answered response rest [prompt]
      else after_output
             [prompt;
              "Please enter one of the following: "
                +:+ join ", " valid_responses]
             (get_user_input prompt valid_responses rest)
  end.

(** The loop of [cli] over the questions; [completed] counts the answers
    "yes". *)
Fixpoint ask_questions (questions : list string) (completed : Z)
    (inputs : list string) : console Z :=
  match questions with
  | [] => Answered completed inputs []
  | question :: r =>
      match get_user_input question ["yes"; "no"]%string inputs with
      | Answered response rest out =>
          after_output out
            (ask_questions r
               (if String.eqb response "yes" then completed + 1
                else completed)
               rest)
      | EndOfInput out => EndOfInput out
      end
  end.

(** The lines [cli] prints once the questions are answered. *)
Definition quiz_report (user_name : string) (completed total : Z)
    : list string :=
  let score := pretty completed +:+ " / " +:+ pretty total in
  [String (ascii_of_nat 10) "Overall Score: " +:+ score]
  ++ (if completed <? total
      then ["Habits missed: " +:+ pretty (total - completed);
            "Don't forget why you started, you will make it happen. Work for it. You got this"
              +:+ " " +:+ user_name +:+ " " +:+ "!"]
      else [])
  ++ [if completed <=? 3 then "Keep pushing forward! You can do this."%string
      else if completed <=? 6 then "Good job! Keep working on your habits."%string
      else if completed <=? 9 then "Great work! You're doing amazing."%string
      else "Perfect score! You nailed it!"%string].

Definition questions : list string :=
  ["Did you read 10 pages today? ";
   "Did you exercise today? ";
   "Did you drink 2.5 liters of water today? ";
   "Did you meditate for 10 minutes today? ";
   "Did you review your week? "]%string.

(** The quiz of [cli]: from asking the name to the encouragement; the
    result is the number of answers "yes". *)
Definition cli_quiz (inputs : list string) : console Z :=
  match inputs with
  | [] => EndOfInput ["What's your name? "%string]
  | line :: rest =>
      let user_name := strip line in
      after_output
        ["What's your name? ";
         "Hello " +:+ user_name
           +:+ ", another brick on the wall, let's see how much we got closer to our aims."]%string
        (match ask_questions questions 0 rest with
         | Answered completed rest' out =>
             let total := Z.of_nat (length questions) in
             Answered completed rest'
               (out ++ quiz_report user_name completed total)
         | EndOfInput out => EndOfInput out
         end)
  end.

End Console.

(** ** The start of [cli]: loading the file and installing the samples *)

(** [datetime.strptime(s, "%Y-%m-%d")] of a date text: that day at 0:00. *)
Definition midnight (y m d : Z) : datetime := mkdatetime y m d 0 0 0 0.

(** [predefined_habits], each with its name, periodicity and parsed
    checkoffs. *)
Definition predefined_habits : list (string * Z * list datetime) :=
  [("Read 10 Pages"%string, 1,
    [midnight 2023 7 1; midnight 2023 7 2; midnight 2023 7 3;
     midnight 2023 7 4; midnight 2023 7 5; midnight 2023 7 6;
     midnight 2023 7 7]);
   ("Exercise"%string, 1,
    [midnight 2023 7 1; midnight 2023 7 2; midnight 2023 7 3;
     midnight 2023 7 5; midnight 2023 7 6; midnight 2023 7 7]);
   ("Drink 2.5 Liters of Water"%string, 1,
    [midnight 2023 7 1; midnight 2023 7 2; midnight 2023 7 4;
     midnight 2023 7 5; midnight 2023 7 6]);
   ("Meditate for 10 Minutes"%string, 1,
    [midnight 2023 7 1; midnight 2023 7 3; midnight 2023 7 4;
     midnight 2023 7 6]);
   ("Weekly Review"%string, 7, [midnight 2023 6 30])].

(** The Habit the loop of [cli] builds for one entry; [now] is the clock
    read by [Habit.__init__]. *)
Definition sample_habit (nm : string) (p : Z) (cs : list datetime)
    (now : datetime) : Habit :=
  let habit := Habit_init nm p None now in
  let habit := set_checkoffs cs habit in
  match checkoffs habit with
  | [] => habit
  | _ => set_last_checkoff_date (date_of <$> last (checkoffs habit)) habit
  end.

(** The loop of [cli] over [predefined_habits]: each Habit is stored
    under its name and appended to the bucket of its periodicity;
    [clock i] is the time of the [i]-th creation. *)
Fixpoint install_predefined (items : list (string * Z * list datetime))
    (clock : nat -> datetime) (i : nat) : M HabitTracker unit :=
  match items with
  | [] => mret tt
  | (nm, p, cs) :: r =>
      habit ← new_object (sample_habit nm p cs (clock i));
      hs ← gets habits;
      modify (set_habits (dict_set nm habit hs));;
      b ← bucket p;
      set_bucket p (b ++ [habit]);;
      install_predefined r clock (S i)
  end.

(** [cli] up to the greeting, on the tracker it has just created;
    [parse_iso] is the parser [load_from_file] reads the file with. *)
Definition cli_startup (parse_iso : string -> option datetime)
    (file : option document) (now : datetime) (clock : nat -> datetime)
    : M HabitTracker unit :=
  load_from_file parse_iso file now;;
  install_predefined predefined_habits clock 0.

(** The names of the entries. *)
Definition sample_names (items : list (string * Z * list datetime))
    : list string :=
  map (fun it => it.1.1) items.

(** Every registered Habit carries the name it is registered under. *)
Definition names_match (t : HabitTracker) : Prop :=
  forall nm l h, dict_get nm (habits t) = Some l -> objs t !! l = Some h ->
    name h = nm.

(** The stored streak does not run ahead of the history: it is at most
    the counter of the run the last checkoff closes, and the stored date
    is the date of that checkoff. *)
Definition streak_within_history (h : Habit) : Prop :=
  match map date_of (checkoffs h) with
  | [] => streak h = 0 /\ last_checkoff_date h = None
  | d :: ds =>
      0 <= streak h <= (walk_pairs (periodicity h) d ds 1 []).2 /\
      last_checkoff_date h = Some (default d (last ds))
  end.

(** A Habit that is listed in a bucket although no name is bound to it. *)
Definition orphan (t : HabitTracker) (l : nat) : Prop :=
  (exists p b, habits_by_periodicity t !! p = Some b /\ l ∈ b) /\
  l ∉ dict_values (habits t).

(** What the representation of a tracker always satisfies: the name map
    holds each name once and each of its values is a stored Habit object. *)
Definition well_stored (t : HabitTracker) : Prop :=
  NoDup (map fst (habits t)) /\
  forall l, l ∈ dict_values (habits t) -> is_Some (objs t !! l).
(** * Properties *)

(** ** Worked values *)

Example toordinal_2023_07_01 : toordinal (mkdate 2023 7 1) = 738702.
Proof. reflexivity. Qed.

Example isoformat_ex1 :
  isoformat (mkdatetime 2023 7 1 0 0 0 0) = "2023-07-01T00:00:00"%string.
Proof. reflexivity. Qed.

Example isoformat_ex2 :
  isoformat (mkdatetime 2023 7 1 13 5 59 1234) = "2023-07-01T13:05:59.001234"%string.
Proof. reflexivity. Qed.

Example fromisoformat_ex1 :
  fromisoformat "2023-07-01T13:05:59.001234" = Some (mkdatetime 2023 7 1 13 5 59 1234).
Proof. reflexivity. Qed.

Example fromisoformat_ex2 :
  fromisoformat "2023-02-29T13:05:59" = None.
Proof. reflexivity. Qed.


(** Linear arithmetic with division and remainder by constants. *)
Ltac divlia := Z.div_mod_to_equations; lia.

(** Running the monadic glue of a method body. *)
Ltac run :=
  cbv [mbind mret M_bind M_ret gets modify raise print
       set_checkoffs set_streak set_last_checkoff_date];
  cbn [name periodicity created_at checkoffs streak last_checkoff_date app].

(** ** ISO-8601 text round trip *)

Section IsoRoundTrip.

Lemma digit_val_char (d : Z) :
  0 <= d < 10 -> digit_val (digit_char d) = Some d.
Proof.
  intros Hd.
  assert (Hcases : d = 0 \/ d = 1 \/ d = 2 \/ d = 3 \/ d = 4 \/ d = 5 \/
                   d = 6 \/ d = 7 \/ d = 8 \/ d = 9) by lia.
  repeat (destruct Hcases as [-> | Hcases]; [reflexivity |]).
  subst d. reflexivity.
Qed.

Lemma length_zfill (w : nat) (n : Z) : length (zfill w n) = w.
Proof.
  revert n. induction w as [| w IH]; intros n; simpl; [reflexivity |].
  rewrite length_app, IH. simpl. lia.
Qed.

Lemma parse_digits_app (acc : option Z) (s1 s2 : list ascii) :
  parse_digits acc (s1 ++ s2) = parse_digits (parse_digits acc s1) s2.
Proof. unfold parse_digits. apply fold_left_app. Qed.

Lemma parse_digits_zfill (w : nat) :
  forall n a, 0 <= n < 10 ^ Z.of_nat w ->
    parse_digits (Some a) (zfill w n) = Some (a * 10 ^ Z.of_nat w + n).
Proof.
  induction w as [| w IH]; intros n a Hn.
  - simpl in *. f_equal. lia.
  - rewrite Nat2Z.inj_succ, Z.pow_succ_r in Hn |- * by lia.
    cbn [zfill]. rewrite parse_digits_app, IH by divlia.
    cbn. rewrite digit_val_char by divlia.
    cbn. f_equal. divlia.
Qed.

Lemma read_digits_zfill (w : nat) (n : Z) (rest : list ascii) :
  0 <= n < 10 ^ Z.of_nat w ->
  read_digits w (zfill w n ++ rest) = Some (n, rest).
Proof.
  intros Hn. unfold read_digits.
  rewrite take_app_length' by (symmetry; apply length_zfill).
  rewrite drop_app_length' by (symmetry; apply length_zfill).
  rewrite length_zfill, Nat.eqb_refl, parse_digits_zfill by exact Hn.
  cbn. reflexivity.
Qed.

Lemma valid_dateb_true (d : date) : valid_date d -> valid_dateb d = true.
Proof.
  unfold valid_date, valid_dateb. intros (Hy & Hm & Hd).
  repeat (apply andb_true_intro; split); lia.
Qed.

Lemma valid_datetimeb_true (t : datetime) :
  valid_datetime t -> valid_datetimeb t = true.
Proof.
  unfold valid_datetime, valid_datetimeb. intros (Hd & Hh & Hm & Hs & Hu).
  rewrite (valid_dateb_true _ Hd).
  repeat (apply andb_true_intro; split); lia.
Qed.

Lemma days_in_month_le_31 (y m : Z) : days_in_month y m <= 31.
Proof.
  unfold days_in_month.
  destruct m as [| m | m]; try lia.
  do 4 (try destruct m as [m | m |]); try lia; destruct (is_leap y); lia.
Qed.

Lemma fromisoformat_chars_isoformat (t : datetime) :
  valid_datetime t -> fromisoformat_chars (isoformat_chars t) = Some t.
Proof.
  intros Hv. pose proof (valid_datetimeb_true t Hv) as Hb.
  destruct Hv as ((Hy & Hm & Hd) & Hh & Hmi & Hs & Hu).
  pose proof (days_in_month_le_31 (year (date_of t)) (month (date_of t))).
  unfold date_of in *. cbn [year month day] in *.
  assert (Ht : mkdatetime (dt_year t) (dt_month t) (dt_day t) (dt_hour t)
                 (dt_minute t) (dt_second t) (dt_microsecond t) = t)
    by (destruct t; reflexivity).
  unfold fromisoformat_chars, isoformat_chars.
  do 6 (rewrite read_digits_zfill by (cbn; lia);
        cbn [mbind option_bind expect];
        try (rewrite Ascii.eqb_refl; cbn [mbind option_bind])).
  assert (Hus : match (if dt_microsecond t =? 0 then []
                        else "."%char :: zfill 6 (dt_microsecond t)) with
                | [] => Some 0
                | c :: f =>
                    if Ascii.eqb c "."%char && (length f =? 6)%nat
                    then parse_digits (Some 0) f else None
                end = Some (dt_microsecond t)).
  { destruct (Z.eqb_spec (dt_microsecond t) 0) as [Hz | Hne].
    - congruence.
    - rewrite Ascii.eqb_refl, length_zfill. cbn [andb Nat.eqb].
      rewrite parse_digits_zfill by (cbn; lia). reflexivity. }
  rewrite Hus. cbn [mbind option_bind]. rewrite Ht, Hb. reflexivity.
Qed.

Lemma fromisoformat_isoformat (t : datetime) :
  valid_datetime t -> fromisoformat (isoformat t) = Some t.
Proof.
  intros Hv. unfold fromisoformat, isoformat.
  rewrite list_ascii_of_string_of_list_ascii.
  apply fromisoformat_chars_isoformat, Hv.
Qed.

Lemma fromisoformat_all_isoformat (ts : list datetime) :
  Forall valid_datetime ts ->
  fromisoformat_all (map isoformat ts) = Some ts.
Proof.
  induction 1 as [| t ts Ht _ IH]; cbn [map fromisoformat_all];
    [reflexivity |].
  rewrite fromisoformat_isoformat by exact Ht. cbn [mbind option_bind].
  rewrite IH. reflexivity.
Qed.

End IsoRoundTrip.

(** ** Calendar arithmetic *)

Section Calendar.

Lemma month_cases (m : Z) :
  1 <= m <= 12 ->
  m = 1 \/ m = 2 \/ m = 3 \/ m = 4 \/ m = 5 \/ m = 6 \/
  m = 7 \/ m = 8 \/ m = 9 \/ m = 10 \/ m = 11 \/ m = 12.
Proof. lia. Qed.

Ltac each_month m H :=
  let C := fresh "C" in
  pose proof (month_cases m H) as C;
  repeat (destruct C as [-> | C]); [.. | subst m].

Lemma is_leap_year_length (y : Z) :
  days_before_year (y + 1) =
  days_before_year y + 365 + (if is_leap y then 1 else 0).
Proof.
  unfold days_before_year, is_leap. cbv zeta.
  replace (y + 1 - 1) with y by lia.
  destruct (Z.eqb_spec (y mod 4) 0), (Z.eqb_spec (y mod 100) 0),
    (Z.eqb_spec (y mod 400) 0); cbn [negb orb andb]; divlia.
Qed.

Lemma days_before_year_mono (y y' : Z) :
  y <= y' -> days_before_year y <= days_before_year y'.
Proof. unfold days_before_year. cbv zeta. intros H. divlia. Qed.

Lemma days_before_month_next (y m : Z) :
  1 <= m <= 11 ->
  days_before_month y (m + 1) = days_before_month y m + days_in_month y m.
Proof.
  intros H. assert (Hm : 1 <= m <= 12) by lia.
  each_month m Hm; try lia;
    unfold days_before_month, days_in_month; cbn;
    destruct (is_leap y); reflexivity.
Qed.

Lemma days_before_month_mono (y m m' : Z) :
  1 <= m -> m < m' <= 12 ->
  days_before_month y m + days_in_month y m <= days_before_month y m'.
Proof.
  intros H1 H2.
  assert (Hm : 1 <= m <= 12) by lia. assert (Hm' : 1 <= m' <= 12) by lia.
  each_month m Hm; each_month m' Hm'; try lia;
    unfold days_before_month, days_in_month; cbn;
    destruct (is_leap y); lia.
Qed.

Lemma day_of_year_bounds (d : date) :
  valid_date d ->
  1 <= days_before_month (year d) (month d) + day d
    <= 365 + (if is_leap (year d) then 1 else 0).
Proof.
  destruct d as [y m d]. unfold valid_date. cbn [year month day].
  intros (_ & Hm & Hd). revert Hd.
  each_month m Hm; unfold days_before_month, days_in_month; cbn;
    destruct (is_leap y); lia.
Qed.

Lemma date_ltb_lt (a b : date) : date_ltb a b = true <-> date_lt a b.
Proof.
  unfold date_ltb, date_lt.
  rewrite orb_true_iff, andb_true_iff, orb_true_iff, andb_true_iff.
  rewrite !Z.ltb_lt, !Z.eqb_eq. reflexivity.
Qed.

Lemma date_lt_toordinal (a b : date) :
  valid_date a -> valid_date b -> date_lt a b -> toordinal a < toordinal b.
Proof.
  intros Ha Hb Hlt.
  pose proof (day_of_year_bounds a Ha) as Ba.
  pose proof (day_of_year_bounds b Hb) as Bb.
  unfold toordinal.
  destruct Hlt as [Hy | (Hy & [Hm | (Hm & Hd)])].
  - pose proof (is_leap_year_length (year a)) as Hn.
    pose proof (days_before_year_mono (year a + 1) (year b)) as Hmono.
    lia.
  - destruct Ha as (_ & Hma & Hda), Hb as (_ & Hmb & Hdb).
    pose proof (days_before_month_mono (year b) (month a) (month b)) as Hmono.
    rewrite Hy in *. lia.
  - rewrite Hy, Hm. lia.
Qed.

Lemma date_eq_fields (a b : date) :
  year a = year b -> month a = month b -> day a = day b -> a = b.
Proof. destruct a, b; cbn; congruence. Qed.

(** Comparing dates is comparing their ordinals. *)
Lemma date_ltb_toordinal (a b : date) :
  valid_date a -> valid_date b ->
  date_ltb a b = (toordinal a <? toordinal b).
Proof.
  intros Ha Hb.
  destruct (Z.ltb_spec (toordinal a) (toordinal b)) as [Hlt | Hge].
  - apply date_ltb_lt.
    destruct (decide (date_lt a b)) as [| Hn]; [assumption | exfalso].
    assert (Hor : date_lt b a \/ a = b).
    { unfold date_lt in *.
      destruct (Z.lt_trichotomy (year a) (year b)) as [? | [? | ?]];
      destruct (Z.lt_trichotomy (month a) (month b)) as [? | [? | ?]];
      destruct (Z.lt_trichotomy (day a) (day b)) as [? | [? | ?]];
      try (left; lia); try (exfalso; apply Hn; lia);
      right; apply date_eq_fields; lia. }
    destruct Hor as [Hba | ->]; [| lia].
    pose proof (date_lt_toordinal b a Hb Ha Hba). lia.
  - destruct (date_ltb a b) eqn:E; [| reflexivity].
    apply date_ltb_lt in E.
    pose proof (date_lt_toordinal a b Ha Hb E). lia.
Qed.

Lemma toordinal_pos (d : date) : valid_date d -> 1 <= toordinal d.
Proof.
  intros Hv. pose proof (day_of_year_bounds d Hv) as B.
  destruct Hv as (Hy & _).
  pose proof (days_before_year_mono 1 (year d)) as Hmono.
  unfold toordinal. change (days_before_year 1) with 0 in Hmono. lia.
Qed.

(** The day before a valid date, when there is one, is valid and has the
    preceding ordinal. *)
Lemma prev_day_spec (d : date) :
  valid_date d -> 1 < toordinal d ->
  exists d', prev_day d = Some d' /\ valid_date d' /\
             toordinal d' = toordinal d - 1.
Proof.
  intros Hv Hord. destruct d as [y m d]. unfold prev_day, toordinal in *.
  destruct Hv as (Hy & Hm & Hd). cbn [year month day] in *.
  destruct (Z.ltb_spec 1 d) as [H1 | H1].
  { eexists. split; [reflexivity |]. split; [| cbn; lia].
    repeat split; cbn; lia. }
  destruct (Z.ltb_spec 1 m) as [H2 | H2].
  { eexists. split; [reflexivity |].
    pose proof (days_before_month_next y (m - 1)) as Hn.
    replace (m - 1 + 1) with m in Hn by lia.
    assert (Hpos : 28 <= days_in_month y (m - 1)).
    { assert (Hm1 : 1 <= m - 1 <= 12) by lia. revert Hm1.
      generalize (m - 1). intros k Hk. each_month k Hk;
        unfold days_in_month; cbn; destruct (is_leap y); lia. }
    split; [repeat split; cbn; lia | cbn; lia]. }
  destruct (Z.ltb_spec 1 y) as [H3 | H3].
  { eexists. split; [reflexivity |].
    assert (m = 1) by lia. assert (d = 1) by lia. subst m d.
    pose proof (is_leap_year_length (y - 1)) as Hn.
    replace (y - 1 + 1) with y in Hn by lia.
    split; [repeat split; cbn; lia |].
    cbn [year month day]. unfold days_before_month. cbn.
    destruct (is_leap (y - 1)); lia. }
  exfalso. assert (y = 1) by lia. assert (m = 1) by lia.
  assert (d = 1) by lia. subst. vm_compute in Hord. discriminate Hord.
Qed.

(** [d - timedelta(days=n)] is the valid date [n] ordinals below [d],
    provided the ordinal stays positive. *)
Lemma date_sub_days_spec (n : nat) :
  forall d, valid_date d -> Z.of_nat n < toordinal d ->
    exists d', date_sub_days d n = Some d' /\ valid_date d' /\
               toordinal d' = toordinal d - Z.of_nat n.
Proof.
  induction n as [| n IH]; intros d Hv Hn.
  - exists d. cbn. repeat split; try apply Hv. lia.
  - destruct (prev_day_spec d Hv ltac:(lia)) as (d1 & Hp & Hv1 & Ho1).
    destruct (IH d1 Hv1 ltac:(lia)) as (d' & Hs & Hv' & Ho').
    exists d'. cbn [date_sub_days]. rewrite Hp.
    repeat split; try assumption; try apply Hv'. lia.
Qed.

End Calendar.

(** ** Habit.checkoff *)

(** C3: [checkoff()] always returns; it appends the new timestamp, sets
    [last_checkoff_date] to today and leaves the streak one above its
    base, the base being 0 when a previous checkoff exists and today is
    more than [periodicity] days after it, and the old streak otherwise
    (no previous checkoff, or a delta up to and including [periodicity]). *)
Theorem checkoff_spec (h : Habit) (today : date) (now : datetime) :
  exists h',
    checkoff today now h = Returns tt h' [] /\
    name h' = name h /\ periodicity h' = periodicity h /\
    created_at h' = created_at h /\
    checkoffs h' = checkoffs h ++ [now] /\
    last_checkoff_date h' = Some today /\
    (forall l, last_checkoff_date h = Some l ->
       periodicity h < days_between today l -> streak h' = 0 + 1) /\
    (forall l, last_checkoff_date h = Some l ->
       days_between today l <= periodicity h -> streak h' = streak h + 1) /\
    (last_checkoff_date h = None -> streak h' = streak h + 1).
Proof.
  destruct h as [nm p c cs s [l |]]; unfold checkoff; run.
  - destruct (Z.ltb_spec p (days_between today l)) as [Hlt | Hge]; run;
      eexists; (split; [reflexivity |]); cbn;
      repeat split; try reflexivity; intros; simplify_eq; lia.
  - eexists; (split; [reflexivity |]); cbn.
    repeat split; try reflexivity; intros; simplify_eq.
Qed.

(** A habit last checked off on 2023-07-01 with streak 3, checked off
    again four days later (reset) and one day later (continued). *)
Lemma checkoff_spec_witness :
  (exists h',
     checkoff (mkdate 2023 7 5) (mkdatetime 2023 7 5 9 0 0 0)
       (mkHabit "Read" 1 (mkdatetime 2023 6 1 8 0 0 0)
          [mkdatetime 2023 7 1 9 0 0 0] 3 (Some (mkdate 2023 7 1)))
     = Returns tt h' [] /\ streak h' = 1) /\
  (exists h',
     checkoff (mkdate 2023 7 2) (mkdatetime 2023 7 2 9 0 0 0)
       (mkHabit "Read" 1 (mkdatetime 2023 6 1 8 0 0 0)
          [mkdatetime 2023 7 1 9 0 0 0] 3 (Some (mkdate 2023 7 1)))
     = Returns tt h' [] /\ streak h' = 4).
Proof.
  split.
  - destruct (checkoff_spec
                (mkHabit "Read" 1 (mkdatetime 2023 6 1 8 0 0 0)
                   [mkdatetime 2023 7 1 9 0 0 0] 3 (Some (mkdate 2023 7 1)))
                (mkdate 2023 7 5) (mkdatetime 2023 7 5 9 0 0 0))
      as (h' & Hrun & _ & _ & _ & _ & _ & Hreset & _ & _).
    exists h'. split; [exact Hrun |].
    apply (Hreset (mkdate 2023 7 1)); [reflexivity | vm_compute; reflexivity].
  - destruct (checkoff_spec
                (mkHabit "Read" 1 (mkdatetime 2023 6 1 8 0 0 0)
                   [mkdatetime 2023 7 1 9 0 0 0] 3 (Some (mkdate 2023 7 1)))
                (mkdate 2023 7 2) (mkdatetime 2023 7 2 9 0 0 0))
      as (h' & Hrun & _ & _ & _ & _ & _ & _ & Hcont & _).
    exists h'. split; [exact Hrun |].
    apply (Hcont (mkdate 2023 7 1)); [reflexivity | vm_compute; discriminate].
Defined.

(** ** Habit.current_streak *)

(** C5: [current_streak()] returns the stored streak when a last checkoff
    date is present and today is at most [periodicity] days after it, and 0
    otherwise; the habit is left as it was and nothing is printed. *)
Theorem current_streak_spec (h : Habit) (today : date) :
  exists v,
    current_streak today h = Returns v h [] /\
    (forall l, last_checkoff_date h = Some l ->
       days_between today l <= periodicity h -> v = streak h) /\
    (forall l, last_checkoff_date h = Some l ->
       periodicity h < days_between today l -> v = 0) /\
    (last_checkoff_date h = None -> v = 0).
Proof.
  destruct h as [nm p c cs s [l |]]; unfold current_streak; run.
  - destruct (Z.leb_spec (days_between today l) p) as [Hle | Hgt]; run;
      eexists; (split; [reflexivity |]);
      repeat split; intros; simplify_eq; try reflexivity; lia.
  - eexists; (split; [reflexivity |]).
    repeat split; intros; simplify_eq; reflexivity.
Qed.

(** A habit of periodicity 1 with streak 3, last checked off on
    2023-07-01: asked one day later (alive) and two days later (lapsed). *)
Lemma current_streak_spec_witness :
  (exists v,
     current_streak (mkdate 2023 7 2)
       (mkHabit "Read" 1 (mkdatetime 2023 6 1 8 0 0 0)
          [mkdatetime 2023 7 1 9 0 0 0] 3 (Some (mkdate 2023 7 1)))
     = Returns v
         (mkHabit "Read" 1 (mkdatetime 2023 6 1 8 0 0 0)
            [mkdatetime 2023 7 1 9 0 0 0] 3 (Some (mkdate 2023 7 1))) [] /\
     v = 3) /\
  (exists v,
     current_streak (mkdate 2023 7 3)
       (mkHabit "Read" 1 (mkdatetime 2023 6 1 8 0 0 0)
          [mkdatetime 2023 7 1 9 0 0 0] 3 (Some (mkdate 2023 7 1)))
     = Returns v
         (mkHabit "Read" 1 (mkdatetime 2023 6 1 8 0 0 0)
            [mkdatetime 2023 7 1 9 0 0 0] 3 (Some (mkdate 2023 7 1))) [] /\
     v = 0).
Proof.
  split.
  - destruct (current_streak_spec
                (mkHabit "Read" 1 (mkdatetime 2023 6 1 8 0 0 0)
                   [mkdatetime 2023 7 1 9 0 0 0] 3 (Some (mkdate 2023 7 1)))
                (mkdate 2023 7 2))
      as (v & Hrun & Halive & _ & _).
    exists v. split; [exact Hrun |].
    apply (Halive (mkdate 2023 7 1)); [reflexivity | vm_compute; discriminate].
  - destruct (current_streak_spec
                (mkHabit "Read" 1 (mkdatetime 2023 6 1 8 0 0 0)
                   [mkdatetime 2023 7 1 9 0 0 0] 3 (Some (mkdate 2023 7 1)))
                (mkdate 2023 7 3))
      as (v & Hrun & _ & Hlapsed & _).
    exists v. split; [exact Hrun |].
    apply (Hlapsed (mkdate 2023 7 1)); [reflexivity | vm_compute; reflexivity].
Defined.

(** ** Habit.longest_streak *)

Section LongestStreak.

Lemma maximum_max (x y : Z) (r : list Z) :
  maximum (Z.max x y) r = Z.max x (maximum y r).
Proof.
  revert y. induction r as [| z r IH]; intros y; cbn; [reflexivity |].
  lia.
Qed.

Lemma fold_left_max_maximum (r : list Z) (x : Z) :
  fold_left Z.max r x = maximum x r.
Proof.
  revert x. induction r as [| y r IH]; intros x; cbn; [reflexivity |].
  rewrite IH. apply maximum_max.
Qed.

Lemma maximum_ge_last (r : list Z) (x c : Z) : c <= maximum x (r ++ [c]).
Proof.
  revert x. induction r as [| y r IH]; intros x; cbn; [lia |].
  specialize (IH y). lia.
Qed.

(** The loop over the indexes [len pre + 1 ..] of [pre ++ b :: rest] is the
    pairwise walk from [b] over [rest]. *)
Lemma longest_streak_loop (p : Z) (rest : list datetime) :
  forall (pre : list datetime) (b : datetime) (streaks : list Z) (cur : Z),
    fold_left (longest_streak_body (pre ++ b :: rest) p)
      (seq (S (length pre)) (length rest)) (Returns (streaks, cur) tt [])
    = Returns (walk_pairs p (date_of b) (map date_of rest) cur streaks) tt [].
Proof.
  induction rest as [| a rest IH]; intros pre b streaks cur;
    [reflexivity |].
  cbn [length seq fold_left map walk_pairs].
  assert (Hi : (pre ++ b :: a :: rest) !! S (length pre) = Some a).
  { rewrite lookup_app_r by lia.
    replace (S (length pre) - length pre)%nat with 1%nat by lia.
    reflexivity. }
  assert (Hj : (pre ++ b :: a :: rest) !! (S (length pre) - 1)%nat = Some b).
  { rewrite lookup_app_r by lia.
    replace (S (length pre) - 1 - length pre)%nat with 0%nat by lia.
    reflexivity. }
  unfold longest_streak_body at 2. rewrite Hi, Hj.
  specialize (IH (pre ++ [b]) a).
  rewrite <- app_assoc, length_app in IH. cbn [app length] in IH.
  replace (S (length pre + 1)) with (S (S (length pre))) in IH by lia.
  destruct (days_between (date_of a) (date_of b) <=? p); apply IH.
Qed.

Lemma longest_streak_returns (h : Habit) :
  longest_streak h = Returns (longest_run (periodicity h) (checkoffs h)) h [].
Proof.
  destruct h as [nm p c cs s l]. unfold longest_streak, longest_run. run.
  destruct cs as [| b rest]; [reflexivity |].
  cbn [length map]. rewrite Nat.sub_succ, Nat.sub_0_r.
  pose proof (longest_streak_loop p rest [] b [] 1) as Hloop.
  cbn [app length] in Hloop. rewrite Hloop.
  destruct (walk_pairs p (date_of b) (map date_of rest) 1 []) as [results cur].
  destruct (results ++ [cur]) as [| x r] eqn:E.
  - destruct results; discriminate E.
  - unfold py_max. run. rewrite fold_left_max_maximum. reflexivity.
Qed.

End LongestStreak.

(** C4: [longest_streak()] returns, without changing the habit, the result
    of the pairwise walk over the checkoff dates: 0 without checkoffs, 1 for
    a single checkoff, and 3 for periodicity 1 and checkoffs on
    2023-07-01, 02, 03, 05, 06, 07. *)
Theorem longest_streak_spec :
  (forall h : Habit,
     longest_streak h = Returns (longest_run (periodicity h) (checkoffs h)) h [])
  /\ (forall p, longest_run p [] = 0)
  /\ (forall p c, longest_run p [c] = 1)
  /\ longest_run 1
       [mkdatetime 2023 7 1 0 0 0 0; mkdatetime 2023 7 2 0 0 0 0;
        mkdatetime 2023 7 3 0 0 0 0; mkdatetime 2023 7 5 0 0 0 0;
        mkdatetime 2023 7 6 0 0 0 0; mkdatetime 2023 7 7 0 0 0 0] = 3.
Proof.
  split; [exact longest_streak_returns |].
  split; [intros p; reflexivity |].
  split; [intros p c; reflexivity |].
  reflexivity.
Qed.

(** ** Saving and loading a habit *)

Lemma to_dict_returns (h : Habit) :
  to_dict h = Returns (mkHabitDict (name h) (periodicity h)
                         (isoformat (created_at h))
                         (map isoformat (checkoffs h))) h [].
Proof. reflexivity. Qed.

Lemma current_streak_zero_streak (h : Habit) (today : date) :
  streak h = 0 -> value_of (current_streak today h) = Some 0.
Proof.
  destruct h as [nm p c cs s [l |]]; unfold current_streak; run;
    intros ->; [| reflexivity].
  destruct (days_between today l <=? p); reflexivity.
Qed.

(** What a reload builds from a habit whose timestamps are valid. *)
Lemma reload_returns (h : Habit) (now : datetime) :
  valid_datetime (created_at h) ->
  Forall valid_datetime (checkoffs h) ->
  reload h now =
  Some (mkHabit (name h) (periodicity h) (created_at h) (checkoffs h) 0
          (date_of <$> last (checkoffs h))).
Proof.
  intros Hc Hcs. unfold reload. rewrite to_dict_returns.
  unfold from_dict. cbn [d_name d_periodicity d_created_at d_checkoffs].
  rewrite fromisoformat_isoformat by exact Hc. cbn [mbind option_bind].
  rewrite fromisoformat_all_isoformat by exact Hcs. cbn [mbind option_bind].
  unfold set_checkoffs, set_last_checkoff_date, Habit_init.
  cbn [name periodicity created_at checkoffs streak last_checkoff_date].
  destruct (checkoffs h); reflexivity.
Qed.

(** C1, as the code has it: a reload preserves [name], [periodicity],
    [created_at] and [checkoffs], sets [last_checkoff_date] to the calendar
    date of the final checkoff (absent without checkoffs), resets [streak]
    to 0 and returns the same [longest_streak()]; the [current_streak()] of
    the reloaded habit is 0. *)
Theorem reload_spec (h : Habit) (now : datetime) (today : date) :
  valid_datetime (created_at h) ->
  Forall valid_datetime (checkoffs h) ->
  exists h',
    reload h now = Some h' /\
    name h' = name h /\ periodicity h' = periodicity h /\
    created_at h' = created_at h /\ checkoffs h' = checkoffs h /\
    last_checkoff_date h' = date_of <$> last (checkoffs h) /\
    streak h' = 0 /\
    value_of (longest_streak h') = value_of (longest_streak h) /\
    value_of (current_streak today h') = Some 0.
Proof.
  intros Hc Hcs. eexists. split; [apply reload_returns; assumption |].
  cbn [name periodicity created_at checkoffs streak last_checkoff_date].
  repeat split.
  - rewrite !longest_streak_returns. reflexivity.
  - apply current_streak_zero_streak. reflexivity.
Qed.

(** The habit "Read" of periodicity 1 after its first [checkoff()], made
    on 2023-07-01 at 08:30. *)
Lemma checked_once_is_reached :
  state_of (checkoff (mkdate 2023 7 1) (mkdatetime 2023 7 1 8 30 0 0)
              (Habit_init "Read" 1 None (mkdatetime 2023 6 30 9 0 0 0)))
  = Some (mkHabit "Read" 1 (mkdatetime 2023 6 30 9 0 0 0)
            [mkdatetime 2023 7 1 8 30 0 0] 1 (Some (mkdate 2023 7 1))).
Proof. reflexivity. Qed.

(** C1 as stated fails: a habit checked off today has current streak 1,
    and current streak 0 once saved and loaded again. *)
Lemma reload_changes_current_streak :
  let h := mkHabit "Read" 1 (mkdatetime 2023 6 30 9 0 0 0)
             [mkdatetime 2023 7 1 8 30 0 0] 1 (Some (mkdate 2023 7 1)) in
  let today := mkdate 2023 7 1 in
  exists h', reload h (mkdatetime 2023 7 1 9 0 0 0) = Some h' /\
    value_of (current_streak today h) = Some 1 /\
    value_of (current_streak today h') = Some 0 /\
    value_of (current_streak today h') <> value_of (current_streak today h).
Proof.
  cbv zeta. eexists. split; [vm_compute; reflexivity |].
  split; [reflexivity |]. split; [reflexivity |]. discriminate.
Qed.

(** A habit with two valid timestamps, saved and loaded. *)
Lemma reload_spec_witness :
  exists h',
    reload (mkHabit "Read" 1 (mkdatetime 2023 6 30 9 0 0 0)
              [mkdatetime 2023 7 1 8 30 0 0; mkdatetime 2023 7 2 7 0 0 15]
              2 (Some (mkdate 2023 7 2)))
      (mkdatetime 2023 7 3 9 0 0 0) = Some h' /\
    name h' = "Read"%string /\ periodicity h' = 1 /\
    created_at h' = mkdatetime 2023 6 30 9 0 0 0 /\
    checkoffs h' = [mkdatetime 2023 7 1 8 30 0 0; mkdatetime 2023 7 2 7 0 0 15] /\
    last_checkoff_date h' = Some (mkdate 2023 7 2) /\
    streak h' = 0 /\
    value_of (longest_streak h') =
      value_of (longest_streak
        (mkHabit "Read" 1 (mkdatetime 2023 6 30 9 0 0 0)
              [mkdatetime 2023 7 1 8 30 0 0; mkdatetime 2023 7 2 7 0 0 15]
              2 (Some (mkdate 2023 7 2)))) /\
    value_of (current_streak (mkdate 2023 7 2) h') = Some 0.
Proof.
  apply (reload_spec
           (mkHabit "Read" 1 (mkdatetime 2023 6 30 9 0 0 0)
              [mkdatetime 2023 7 1 8 30 0 0; mkdatetime 2023 7 2 7 0 0 15]
              2 (Some (mkdate 2023 7 2)))
           (mkdatetime 2023 7 3 9 0 0 0) (mkdate 2023 7 2)).
  - cbv [valid_datetime valid_date]. cbn. lia.
  - repeat constructor; cbn; lia.
Defined.

(** ** Current streak against longest streak *)

Section StreakInvariant.

Lemma walk_pairs_snoc (p : Z) (rest : list date) :
  forall (prev : date) (cur : Z) (results : list Z) (d : date),
    walk_pairs p prev (rest ++ [d]) cur results =
    let '(r, c) := walk_pairs p prev rest cur results in
    if days_between d (default prev (last rest)) <=? p
    then (r, c + 1) else (r ++ [c], 1).
Proof.
  induction rest as [| a rest IH]; intros prev cur results d.
  - cbn. destruct (days_between d prev <=? p); reflexivity.
  - cbn [app walk_pairs].
    assert (Hl : default prev (last (a :: rest)) = default a (last rest)).
    { destruct rest as [| b rest']; [reflexivity |].
      rewrite last_cons_cons. destruct (last (b :: rest')) eqn:E;
        [reflexivity |]. apply last_None in E. discriminate E. }
    rewrite Hl.
    destruct (days_between a prev <=? p); apply IH.
Qed.

Lemma streak_tracks_history_init (nm : string) (p : Z)
    (created : option datetime) (now : datetime) :
  streak_tracks_history (Habit_init nm p created now).
Proof. split; reflexivity. Qed.

(** A [checkoff()] whose two clock reads agree keeps the stored streak in
    step with the history. *)
Lemma checkoff_tracks_history (h : Habit) (today : date) (now : datetime) :
  date_of now = today -> streak_tracks_history h ->
  exists h', checkoff today now h = Returns tt h' [] /\
             periodicity h' = periodicity h /\ streak_tracks_history h'.
Proof.
  intros Hday Hinv. destruct h as [nm p c cs s l].
  unfold streak_tracks_history in *.
  cbn [checkoffs periodicity streak last_checkoff_date] in *.
  destruct (map date_of cs) as [| d ds] eqn:Hcs.
  - destruct Hinv as [-> ->]. unfold checkoff. run.
    eexists. split; [reflexivity |]. split; [reflexivity |].
    cbn [checkoffs periodicity streak last_checkoff_date].
    rewrite map_app, Hcs. cbn. rewrite Hday. repeat split. lia.
  - destruct Hinv as (Hs & -> & Hpos). unfold checkoff. run.
    assert (Hwalk := walk_pairs_snoc p ds d 1 [] today).
    destruct (walk_pairs p d ds 1 []) as [r cur] eqn:Hw. cbn [snd] in Hs.
    subst s.
    assert (Hlast : default d (last (ds ++ [today])) = today).
    { rewrite last_snoc. reflexivity. }
    destruct (Z.ltb_spec p (days_between today (default d (last ds))))
      as [Hlt | Hge]; run.
    + eexists. split; [reflexivity |]. split; [reflexivity |].
      cbn [checkoffs periodicity streak last_checkoff_date].
      rewrite map_app, Hcs. cbn [map app]. rewrite Hday, Hwalk, Hlast.
      destruct (Z.leb_spec (days_between today (default d (last ds))) p);
        [lia |]. cbn. repeat split. lia.
    + eexists. split; [reflexivity |]. split; [reflexivity |].
      cbn [checkoffs periodicity streak last_checkoff_date].
      rewrite map_app, Hcs. cbn [map app]. rewrite Hday, Hwalk, Hlast.
      destruct (Z.leb_spec (days_between today (default d (last ds))) p);
        [| lia]. cbn. repeat split. lia.
Qed.

Lemma checkoff_run_tracks_history (reads : list (date * datetime)) :
  forall h, Forall same_day reads -> streak_tracks_history h ->
    exists h', checkoff_run reads h = Returns tt h' [] /\
               periodicity h' = periodicity h /\ streak_tracks_history h'.
Proof.
  induction reads as [| [today now] reads IH]; intros h Hsame Hinv.
  - exists h. repeat split. exact Hinv.
  - inversion Hsame as [| ? ? Hd Hrest]; subst.
    destruct (checkoff_tracks_history h today now Hd Hinv)
      as (h1 & Hrun1 & Hp1 & Hinv1).
    destruct (IH h1 Hrest Hinv1) as (h' & Hrun & Hp & Hinv').
    exists h'. split; [| split; [congruence | exact Hinv']].
    cbn [checkoff_run]. unfold mbind, M_bind. rewrite Hrun1, Hrun.
    reflexivity.
Qed.

(** A stored streak in step with the history is at most the longest run. *)
Lemma tracked_streak_le_longest (h : Habit) :
  streak_tracks_history h ->
  0 <= streak h <= longest_run (periodicity h) (checkoffs h).
Proof.
  unfold streak_tracks_history, longest_run.
  destruct (map date_of (checkoffs h)) as [| d ds].
  - intros [-> _]. lia.
  - intros (Hs & _ & Hpos).
    destruct (walk_pairs (periodicity h) d ds 1 []) as [r cur].
    cbn [snd] in Hs. subst cur.
    destruct r as [| x r]; cbn [app]; [cbn; lia |].
    pose proof (maximum_ge_last r x (streak h)). lia.
Qed.

(** When every call reads both of its clock values on one calendar date,
    the longest streak is at least the current streak, whatever the day it
    is asked on. *)
Lemma longest_ge_current_same_day (nm : string) (p : Z)
    (created : option datetime) (now0 : datetime)
    (reads : list (date * datetime)) (today : date) :
  Forall same_day reads ->
  exists h lg cr,
    checkoff_run reads (Habit_init nm p created now0) = Returns tt h [] /\
    value_of (longest_streak h) = Some lg /\
    value_of (current_streak today h) = Some cr /\
    cr <= lg.
Proof.
  intros Hsame.
  destruct (checkoff_run_tracks_history reads _ Hsame
              (streak_tracks_history_init nm p created now0))
    as (h & Hrun & _ & Hinv).
  pose proof (tracked_streak_le_longest h Hinv) as Hle.
  exists h, (longest_run (periodicity h) (checkoffs h)).
  rewrite longest_streak_returns. cbn [value_of].
  destruct h as [nm' p' c cs s [l |]]; unfold current_streak; run;
    cbn [periodicity checkoffs streak] in Hle.
  - destruct (days_between today l <=? p'); run; eexists;
      (split; [exact Hrun |]); repeat split; lia.
  - eexists. split; [exact Hrun |]. repeat split. lia.
Qed.

End StreakInvariant.

(** C6 fails on a [checkoff()] that straddles midnight: the second call
    reads [date.today()] on 2023-07-02 and [datetime.now()] on 2023-07-03.
    The stored streak counts 2 (the dates read are a day apart) while the
    history holds timestamps two days apart, a longest run of 1. *)
Lemma midnight_checkoff_current_exceeds_longest :
  let reads :=
    [(mkdate 2023 7 1, mkdatetime 2023 7 1 23 0 0 0);
     (mkdate 2023 7 2, mkdatetime 2023 7 3 0 0 0 1)] in
  let today := mkdate 2023 7 3 in
  non_decreasing (clock_dates reads ++ [today]) = true /\
  exists h,
    checkoff_run reads
      (Habit_init "Read" 1 None (mkdatetime 2023 7 1 8 0 0 0))
    = Returns tt h [] /\
    value_of (longest_streak h) = Some 1 /\
    value_of (current_streak today h) = Some 2.
Proof.
  cbv zeta. split; [reflexivity |].
  eexists. split; [vm_compute; reflexivity |].
  split; reflexivity.
Qed.

(** ** Dictionaries and lists *)

Section Containers.

Context {V : Type}.

Lemma dict_get_None (k : string) (d : list (string * V)) :
  dict_get k d = None <-> k ∉ map fst d.
Proof.
  induction d as [| [k' v] d IH]; cbn.
  - split; [intros _; apply not_elem_of_nil | reflexivity].
  - rewrite not_elem_of_cons. destruct (String.eqb_spec k' k) as [-> | Hne].
    + split; [discriminate | intros [Hk _]; congruence].
    + rewrite IH. split; [intros ?; split; congruence | intros [_ ?]; assumption].
Qed.

Lemma dict_get_Some_key (k : string) (v : V) (d : list (string * V)) :
  dict_get k d = Some v -> k ∈ map fst d.
Proof.
  intros H. destruct (decide (k ∈ map fst d)) as [| Hn]; [assumption |].
  apply dict_get_None in Hn. congruence.
Qed.

Lemma dict_get_Some_value (k : string) (v : V) (d : list (string * V)) :
  dict_get k d = Some v -> v ∈ dict_values d.
Proof.
  induction d as [| [k' v'] d IH]; cbn; [discriminate |].
  destruct (String.eqb k' k).
  - intros [= ->]. apply list_elem_of_here.
  - intros H. apply list_elem_of_further, IH, H.
Qed.

Lemma dict_values_get (v : V) (d : list (string * V)) :
  NoDup (map fst d) -> v ∈ dict_values d ->
  exists k, dict_get k d = Some v.
Proof.
  induction d as [| [k' v'] d IH]; cbn; intros Hnd Hin.
  - apply elem_of_nil in Hin. contradiction.
  - apply NoDup_cons in Hnd as [Hk Hnd].
    apply elem_of_cons in Hin as [-> | Hin].
    + exists k'. rewrite String.eqb_refl. reflexivity.
    + destruct (IH Hnd Hin) as (k & Hget). exists k.
      destruct (String.eqb_spec k' k) as [-> | _]; [| exact Hget].
      apply dict_get_Some_key in Hget. contradiction.
Qed.

Lemma dict_get_set_eq (k : string) (v : V) (d : list (string * V)) :
  dict_get k (dict_set k v d) = Some v.
Proof.
  induction d as [| [k' v'] d IH]; cbn.
  - rewrite String.eqb_refl. reflexivity.
  - destruct (String.eqb_spec k' k) as [-> | Hne]; cbn.
    + rewrite String.eqb_refl. reflexivity.
    + destruct (String.eqb_spec k' k); [contradiction | exact IH].
Qed.

Lemma dict_get_set_ne (k k' : string) (v : V) (d : list (string * V)) :
  k <> k' -> dict_get k' (dict_set k v d) = dict_get k' d.
Proof.
  intros Hne. induction d as [| [k0 v0] d IH]; cbn.
  - destruct (String.eqb_spec k k'); [contradiction | reflexivity].
  - destruct (String.eqb_spec k0 k) as [-> | Hne0]; cbn.
    + destruct (String.eqb_spec k k'); [contradiction | reflexivity].
    + destruct (String.eqb_spec k0 k'); [reflexivity | exact IH].
Qed.

Lemma dict_set_keys (k k' : string) (v : V) (d : list (string * V)) :
  k' ∈ map fst (dict_set k v d) <-> k' = k \/ k' ∈ map fst d.
Proof.
  induction d as [| [k0 v0] d IH]; cbn.
  - rewrite elem_of_cons. reflexivity.
  - destruct (String.eqb_spec k0 k) as [-> | Hne]; cbn;
      rewrite !elem_of_cons; [tauto |]. rewrite IH. tauto.
Qed.

Lemma dict_set_NoDup (k : string) (v : V) (d : list (string * V)) :
  NoDup (map fst d) -> NoDup (map fst (dict_set k v d)).
Proof.
  induction d as [| [k0 v0] d IH]; cbn; intros Hnd.
  - apply NoDup_singleton.
  - apply NoDup_cons in Hnd as [Hk Hnd].
    destruct (String.eqb_spec k0 k) as [-> | Hne]; cbn.
    + apply NoDup_cons. split; assumption.
    + apply NoDup_cons. split; [| apply IH, Hnd].
      rewrite dict_set_keys. intros [? | ?]; [congruence | contradiction].
Qed.

Lemma dict_get_pop_ne (k k' : string) (d : list (string * V)) :
  k <> k' -> dict_get k' (dict_pop k d) = dict_get k' d.
Proof.
  intros Hne. induction d as [| [k0 v0] d IH]; cbn; [reflexivity |].
  destruct (String.eqb_spec k0 k) as [-> | Hne0]; cbn.
  - destruct (String.eqb_spec k k'); [contradiction | reflexivity].
  - destruct (String.eqb_spec k0 k'); [reflexivity | exact IH].
Qed.

Lemma dict_pop_keys (k k' : string) (d : list (string * V)) :
  k' ∈ map fst (dict_pop k d) -> k' ∈ map fst d.
Proof.
  induction d as [| [k0 v0] d IH]; cbn; [trivial |].
  destruct (String.eqb_spec k0 k) as [-> | Hne]; cbn;
    rewrite !elem_of_cons; [tauto |]. intros [? | ?]; [tauto |].
  right. apply IH. assumption.
Qed.

Lemma dict_pop_NoDup (k : string) (d : list (string * V)) :
  NoDup (map fst d) -> NoDup (map fst (dict_pop k d)).
Proof.
  induction d as [| [k0 v0] d IH]; cbn; intros Hnd; [exact Hnd |].
  apply NoDup_cons in Hnd as [Hk Hnd].
  destruct (String.eqb_spec k0 k) as [-> | Hne]; cbn; [exact Hnd |].
  apply NoDup_cons. split; [| apply IH, Hnd].
  intros Hin. apply Hk, (dict_pop_keys k), Hin.
Qed.

Lemma dict_get_pop_eq (k : string) (d : list (string * V)) :
  NoDup (map fst d) -> dict_get k (dict_pop k d) = None.
Proof.
  induction d as [| [k0 v0] d IH]; cbn; intros Hnd; [reflexivity |].
  apply NoDup_cons in Hnd as [Hk Hnd].
  destruct (String.eqb_spec k0 k) as [-> | Hne]; cbn.
  - apply dict_get_None, Hk.
  - destruct (String.eqb_spec k0 k); [contradiction | apply IH, Hnd].
Qed.

End Containers.

Lemma list_remove_Some (x : nat) (l : list nat) :
  x ∈ l -> exists l', list_remove x l = Some l'.
Proof.
  induction l as [| y l IH]; intros Hin.
  - apply elem_of_nil in Hin. contradiction.
  - cbn. destruct (Nat.eqb_spec y x) as [-> | Hne]; [eauto |].
    apply elem_of_cons in Hin as [-> | Hin]; [contradiction |].
    destruct (IH Hin) as (l' & ->). cbn. eauto.
Qed.

Lemma list_remove_sub (x : nat) (l l' : list nat) (y : nat) :
  list_remove x l = Some l' -> y ∈ l' -> y ∈ l.
Proof.
  revert l'. induction l as [| z l IH]; intros l'; cbn; [discriminate |].
  destruct (Nat.eqb_spec z x) as [-> | Hne].
  - intros [= ->] Hin. apply list_elem_of_further, Hin.
  - destruct (list_remove x l) as [r |] eqn:E; cbn; [| discriminate].
    intros [= <-] Hin. apply elem_of_cons in Hin as [-> | Hin].
    + apply list_elem_of_here.
    + apply list_elem_of_further, (IH r); [reflexivity | exact Hin].
Qed.

Lemma list_remove_keeps (x : nat) (l l' : list nat) (y : nat) :
  list_remove x l = Some l' -> y ∈ l -> y <> x -> y ∈ l'.
Proof.
  revert l'. induction l as [| z l IH]; intros l'; cbn; [discriminate |].
  destruct (Nat.eqb_spec z x) as [-> | Hne].
  - intros [= ->] Hin Hyx. apply elem_of_cons in Hin as [-> | Hin];
      [contradiction | exact Hin].
  - destruct (list_remove x l) as [r |] eqn:E; cbn; [| discriminate].
    intros [= <-] Hin Hyx. apply elem_of_cons in Hin as [-> | Hin].
    + apply list_elem_of_here.
    + apply list_elem_of_further, (IH r); [reflexivity | exact Hin | exact Hyx].
Qed.

(** ** Tracker operations: what each call returns and leaves *)

(** Running the monadic glue of a tracker method. *)
Ltac runT :=
  cbv [mbind mret M_bind M_ret gets modify raise print new_object deref
       bucket set_bucket set_objs set_habits set_habits_by_periodicity];
  cbn [objs habits habits_by_periodicity app].

Section TrackerCalls.

Lemma add_habit_returns (t : HabitTracker) (nm : string) (p : Z)
    (now : datetime) :
  add_habit nm p now t =
  Returns tt
    (mkHabitTracker
       (objs t ++ [Habit_init nm p None now])
       (dict_set nm (length (objs t)) (habits t))
       (<[p := default [] (habits_by_periodicity t !! p) ++ [length (objs t)]]>
          (habits_by_periodicity t))) [].
Proof.
  destruct t as [os hs m]. unfold add_habit. runT.
  destruct (m !! p) as [b |] eqn:E; runT; cbn [default].
  - reflexivity.
  - rewrite insert_insert_eq. reflexivity.
Qed.

Lemma delete_habit_absent (t : HabitTracker) (nm : string) :
  dict_get nm (habits t) = None -> delete_habit nm t = Returns tt t [].
Proof.
  intros H. destruct t as [os hs m]. unfold delete_habit. runT.
  cbn [habits] in H. rewrite H. reflexivity.
Qed.

Lemma delete_habit_present (t : HabitTracker) (nm : string) (l : nat)
    (h : Habit) (b b' : list nat) :
  dict_get nm (habits t) = Some l ->
  objs t !! l = Some h ->
  habits_by_periodicity t !! periodicity h = Some b ->
  list_remove l b = Some b' ->
  delete_habit nm t =
  Returns tt
    (mkHabitTracker (objs t) (dict_pop nm (habits t))
       (<[periodicity h := b']> (habits_by_periodicity t))) [].
Proof.
  intros Hg Ho Hb Hr. destruct t as [os hs m]. unfold delete_habit. runT.
  cbn [objs habits habits_by_periodicity] in *.
  rewrite Hg. runT. rewrite Ho. runT. rewrite Hb. runT. rewrite Hr. runT.
  reflexivity.
Qed.

Lemma checkoff_habit_absent (t : HabitTracker) (nm : string) (today : date)
    (now : datetime) :
  dict_get nm (habits t) = None ->
  checkoff_habit nm today now t =
  Returns tt t ["Habit '" +:+ nm +:+ "' does not exist."].
Proof.
  intros H. destruct t as [os hs m]. unfold checkoff_habit. runT.
  cbn [habits] in H. rewrite H. reflexivity.
Qed.

Lemma checkoff_habit_present (t : HabitTracker) (nm : string) (l : nat)
    (h h' : Habit) (today : date) (now : datetime) :
  dict_get nm (habits t) = Some l ->
  objs t !! l = Some h ->
  checkoff today now h = Returns tt h' [] ->
  checkoff_habit nm today now t =
  Returns tt
    (mkHabitTracker (<[l := h']> (objs t)) (habits t)
       (habits_by_periodicity t)) [].
Proof.
  intros Hg Ho Hc. destruct t as [os hs m]. unfold checkoff_habit. runT.
  cbn [objs habits habits_by_periodicity] in *.
  rewrite Hg. unfold on_object. cbn [objs]. rewrite Ho, Hc. reflexivity.
Qed.

Lemma get_habits_by_periodicity_returns (t : HabitTracker) (p : Z) :
  get_habits_by_periodicity p t =
  Returns (default [] (habits_by_periodicity t !! p))
    (match habits_by_periodicity t !! p with
     | Some _ => t
     | None => mkHabitTracker (objs t) (habits t)
                 (<[p := []]> (habits_by_periodicity t))
     end) [].
Proof.
  destruct t as [os hs m]. unfold get_habits_by_periodicity. runT.
  destruct (m !! p); reflexivity.
Qed.

(** [checkoff()] keeps the periodicity of the habit. *)
Lemma checkoff_returns (h : Habit) (today : date) (now : datetime) :
  exists h', checkoff today now h = Returns tt h' [] /\
             periodicity h' = periodicity h.
Proof.
  destruct h as [nm p c cs s [l |]]; unfold checkoff; run.
  - destruct (p <? days_between today l); run; eauto.
  - eauto.
Qed.

End TrackerCalls.

(** ** Every run keeps the tracker consistent *)

Section TrackerInvariant.

Lemma tracker_ok_init : tracker_ok HabitTracker_init.
Proof.
  repeat split; cbn.
  - apply NoDup_nil_2.
  - discriminate.
  - intros p b l H. rewrite lookup_empty in H. discriminate.
  - discriminate.
Qed.

Lemma tracker_ok_bound (t : HabitTracker) (nm : string) (l : nat) :
  tracker_ok t -> dict_get nm (habits t) = Some l ->
  (l < length (objs t))%nat.
Proof.
  intros (_ & H2 & _) Hg. destruct (H2 nm l Hg) as (h & b & Ho & _).
  apply lookup_lt_Some in Ho. exact Ho.
Qed.

Lemma add_habit_ok (t : HabitTracker) (nm : string) (p : Z) (now : datetime) :
  tracker_ok t ->
  exists t', add_habit nm p now t = Returns tt t' [] /\ tracker_ok t'.
Proof.
  intros Hok. rewrite add_habit_returns. eexists. split; [reflexivity |].
  assert (Hb : forall nm' l, dict_get nm' (habits t) = Some l ->
                 (l < length (objs t))%nat)
    by (intros nm' l; apply tracker_ok_bound, Hok).
  destruct Hok as (H1 & H2 & H3 & H4).
  set (l0 := length (objs t)) in *.
  set (b0 := default [] (habits_by_periodicity t !! p)).
  unfold tracker_ok. cbn [objs habits habits_by_periodicity].
  split; [apply dict_set_NoDup, H1 |]. split; [| split].
  - intros nm' l Hg. destruct (decide (nm = nm')) as [<- | Hne].
    + rewrite dict_get_set_eq in Hg. injection Hg as <-.
      exists (Habit_init nm p None now), (b0 ++ [l0]).
      split; [apply list_lookup_middle; reflexivity |].
      cbn [periodicity Habit_init]. rewrite lookup_insert_eq.
      split; [reflexivity |]. apply elem_of_app. right. apply list_elem_of_here.
    + rewrite dict_get_set_ne in Hg by exact Hne.
      destruct (H2 nm' l Hg) as (h & b & Ho & Hbk & Hin).
      destruct (decide (periodicity h = p)) as [Hp | Hp].
      * exists h, (b0 ++ [l0]). split; [apply lookup_app_l_Some, Ho |].
        rewrite Hp, lookup_insert_eq. split; [reflexivity |].
        apply elem_of_app. left. subst b0. rewrite <- Hp, Hbk. exact Hin.
      * exists h, b. split; [apply lookup_app_l_Some, Ho |].
        rewrite lookup_insert_ne by congruence. split; assumption.
  - intros q b l Hq Hin. destruct (decide (p = q)) as [<- | Hne].
    + rewrite lookup_insert_eq in Hq. injection Hq as <-.
      apply elem_of_app in Hin as [Hin | Hin].
      * subst b0. destruct (habits_by_periodicity t !! p) as [b |] eqn:E;
          cbn [default] in Hin; [| apply elem_of_nil in Hin; contradiction].
        destruct (H3 p b l E Hin) as (h & Ho & Hp).
        exists h. split; [apply lookup_app_l_Some, Ho | exact Hp].
      * apply list_elem_of_singleton in Hin. subst l.
        exists (Habit_init nm p None now).
        split; [apply list_lookup_middle; reflexivity | reflexivity].
    + rewrite lookup_insert_ne in Hq by exact Hne.
      destruct (H3 q b l Hq Hin) as (h & Ho & Hp).
      exists h. split; [apply lookup_app_l_Some, Ho | exact Hp].
  - intros nm1 nm2 l Hg1 Hg2.
    destruct (decide (nm = nm1)) as [<- | Hne1];
      destruct (decide (nm = nm2)) as [<- | Hne2]; [reflexivity | | |].
    + rewrite dict_get_set_eq in Hg1. injection Hg1 as <-.
      rewrite dict_get_set_ne in Hg2 by exact Hne2.
      apply Hb in Hg2. lia.
    + rewrite dict_get_set_eq in Hg2. injection Hg2 as <-.
      rewrite dict_get_set_ne in Hg1 by exact Hne1.
      apply Hb in Hg1. lia.
    + rewrite dict_get_set_ne in Hg1, Hg2 by assumption.
      apply (H4 nm1 nm2 l Hg1 Hg2).
Qed.

Lemma delete_habit_ok (t : HabitTracker) (nm : string) :
  tracker_ok t ->
  exists t', delete_habit nm t = Returns tt t' [] /\ tracker_ok t'.
Proof.
  intros Hok. destruct (dict_get nm (habits t)) as [l |] eqn:Hg.
  2:{ exists t. split; [apply delete_habit_absent, Hg | exact Hok]. }
  destruct Hok as (H1 & H2 & H3 & H4).
  destruct (H2 nm l Hg) as (h & b & Ho & Hbk & Hin).
  destruct (list_remove_Some l b Hin) as (b' & Hr).
  rewrite (delete_habit_present t nm l h b b' Hg Ho Hbk Hr).
  eexists. split; [reflexivity |].
  unfold tracker_ok. cbn [objs habits habits_by_periodicity].
  split; [apply dict_pop_NoDup, H1 |]. split; [| split].
  - intros nm' l' Hg'. destruct (decide (nm = nm')) as [<- | Hne].
    { rewrite dict_get_pop_eq in Hg' by exact H1. discriminate. }
    rewrite dict_get_pop_ne in Hg' by exact Hne.
    destruct (H2 nm' l' Hg') as (h' & b2 & Ho' & Hbk' & Hin').
    destruct (decide (periodicity h = periodicity h')) as [Hp | Hp].
    + exists h', b'. split; [exact Ho' |].
      rewrite <- Hp, lookup_insert_eq. split; [reflexivity |].
      rewrite <- Hp, Hbk in Hbk'. injection Hbk' as <-.
      apply (list_remove_keeps l b b' l' Hr Hin').
      intros ->. apply Hne. apply (H4 nm nm' l Hg Hg').
    + exists h', b2. split; [exact Ho' |].
      rewrite lookup_insert_ne by exact Hp. split; assumption.
  - intros q b3 l3 Hq Hin3.
    destruct (decide (periodicity h = q)) as [<- | Hne].
    + rewrite lookup_insert_eq in Hq. injection Hq as <-.
      apply (H3 (periodicity h) b l3 Hbk).
      apply (list_remove_sub l b b' l3 Hr Hin3).
    + rewrite lookup_insert_ne in Hq by exact Hne.
      apply (H3 q b3 l3 Hq Hin3).
  - intros nm1 nm2 l' Hg1 Hg2.
    destruct (decide (nm = nm1)) as [<- | Hne1].
    { rewrite dict_get_pop_eq in Hg1 by exact H1. discriminate. }
    destruct (decide (nm = nm2)) as [<- | Hne2].
    { rewrite dict_get_pop_eq in Hg2 by exact H1. discriminate. }
    rewrite dict_get_pop_ne in Hg1, Hg2 by assumption.
    apply (H4 nm1 nm2 l' Hg1 Hg2).
Qed.

Lemma checkoff_habit_ok (t : HabitTracker) (nm : string) (today : date)
    (now : datetime) :
  tracker_ok t ->
  exists t' out,
    checkoff_habit nm today now t = Returns tt t' out /\ tracker_ok t'.
Proof.
  intros Hok. destruct (dict_get nm (habits t)) as [l |] eqn:Hg.
  2:{ exists t. eexists. split; [apply checkoff_habit_absent, Hg | exact Hok]. }
  destruct Hok as (H1 & H2 & H3 & H4).
  destruct (H2 nm l Hg) as (h & b & Ho & Hbk & Hin).
  destruct (checkoff_returns h today now) as (h' & Hc & Hp).
  rewrite (checkoff_habit_present t nm l h h' today now Hg Ho Hc).
  eexists. eexists. split; [reflexivity |].
  assert (Hobj : forall l1 h1, objs t !! l1 = Some h1 ->
            exists h2, <[l := h']> (objs t) !! l1 = Some h2 /\
                       periodicity h2 = periodicity h1).
  { intros l1 h1 Ho1. destruct (decide (l = l1)) as [<- | Hne].
    - exists h'. rewrite list_lookup_insert_eq by (eapply lookup_lt_Some, Ho).
      split; [reflexivity | congruence].
    - exists h1. rewrite list_lookup_insert_ne by exact Hne.
      split; [exact Ho1 | reflexivity]. }
  unfold tracker_ok. cbn [objs habits habits_by_periodicity].
  split; [exact H1 |]. split; [| split; [| exact H4]].
  - intros nm' l' Hg'.
    destruct (H2 nm' l' Hg') as (h1 & b1 & Ho1 & Hbk1 & Hin1).
    destruct (Hobj l' h1 Ho1) as (h2 & Ho2 & Hp2).
    exists h2, b1. rewrite Hp2. repeat split; assumption.
  - intros q b1 l1 Hq Hin1.
    destruct (H3 q b1 l1 Hq Hin1) as (h1 & Ho1 & Hp1).
    destruct (Hobj l1 h1 Ho1) as (h2 & Ho2 & Hp2).
    exists h2. split; [exact Ho2 | congruence].
Qed.

Lemma get_habits_by_periodicity_ok (t : HabitTracker) (p : Z) :
  tracker_ok t ->
  exists b t', get_habits_by_periodicity p t = Returns b t' [] /\
               tracker_ok t'.
Proof.
  intros Hok. rewrite get_habits_by_periodicity_returns.
  eexists. eexists. split; [reflexivity |].
  destruct (habits_by_periodicity t !! p) as [b |] eqn:E; [exact Hok |].
  destruct Hok as (H1 & H2 & H3 & H4).
  unfold tracker_ok. cbn [objs habits habits_by_periodicity].
  split; [exact H1 |]. split; [| split; [| exact H4]].
  - intros nm l Hg. destruct (H2 nm l Hg) as (h & b & Ho & Hbk & Hin).
    exists h, b. split; [exact Ho |].
    rewrite lookup_insert_ne by congruence. split; assumption.
  - intros q b l Hq Hin. destruct (decide (p = q)) as [<- | Hne].
    + rewrite lookup_insert_eq in Hq. injection Hq as <-.
      apply elem_of_nil in Hin. contradiction.
    + rewrite lookup_insert_ne in Hq by exact Hne. apply (H3 q b l Hq Hin).
Qed.

Lemma run_call_ok (c : call) (t : HabitTracker) :
  tracker_ok t ->
  exists t' out, run_call c t = Returns tt t' out /\ tracker_ok t'.
Proof.
  intros Hok. destruct c as [nm p now | nm | nm today now | p]; cbn [run_call].
  - destruct (add_habit_ok t nm p now Hok) as (t' & H & Hok'). eauto.
  - destruct (delete_habit_ok t nm Hok) as (t' & H & Hok'). eauto.
  - apply checkoff_habit_ok, Hok.
  - destruct (get_habits_by_periodicity_ok t p Hok) as (b & t' & H & Hok').
    exists t', []. split; [| exact Hok'].
    unfold mbind, M_bind. rewrite H. reflexivity.
Qed.

Lemma run_calls_ok (cs : list call) :
  forall t, tracker_ok t ->
    exists t' out, run_calls cs t = Returns tt t' out /\ tracker_ok t'.
Proof.
  induction cs as [| c cs IH]; intros t Hok.
  - exists t, []. split; [reflexivity | exact Hok].
  - destruct (run_call_ok c t Hok) as (t1 & o1 & H1 & Hok1).
    destruct (IH t1 Hok1) as (t' & o' & H' & Hok').
    exists t', (o1 ++ o'). split; [| exact Hok'].
    cbn [run_calls]. unfold mbind, M_bind. rewrite H1, H'. reflexivity.
Qed.

Lemma reachable_ok (t : HabitTracker) : reachable t -> tracker_ok t.
Proof.
  intros (cs & out & Hrun).
  destruct (run_calls_ok cs HabitTracker_init tracker_ok_init)
    as (t' & out' & Hrun' & Hok).
  rewrite Hrun in Hrun'. injection Hrun' as -> _. exact Hok.
Qed.

End TrackerInvariant.

(** ** Runs without overwriting keep the two indexes in agreement *)

Section FreshRuns.

Lemma concat_snd_Permutation (l1 l2 : list (Z * list nat)) :
  l1 ≡ₚ l2 -> concat (map snd l1) ≡ₚ concat (map snd l2).
Proof.
  induction 1 as [| x l l' _ IH | x y l | l l' l'' _ IH1 _ IH2]; cbn.
  - reflexivity.
  - rewrite IH. reflexivity.
  - rewrite !app_assoc. apply Permutation_app_tail, Permutation_app_comm.
  - etransitivity; eassumption.
Qed.

Lemma entries_insert (m : gmap Z (list nat)) (p : Z) (v : list nat) :
  concat (map snd (map_to_list (<[p := v]> m)))
  ≡ₚ v ++ concat (map snd (map_to_list (delete p m))).
Proof.
  rewrite <- insert_delete_eq.
  rewrite (concat_snd_Permutation _ _
             (map_to_list_insert (delete p m) p v (lookup_delete_eq m p))).
  reflexivity.
Qed.

Lemma entries_lookup (m : gmap Z (list nat)) (p : Z) :
  concat (map snd (map_to_list m))
  ≡ₚ default [] (m !! p) ++ concat (map snd (map_to_list (delete p m))).
Proof.
  destruct (m !! p) as [b |] eqn:E; cbn [default].
  - rewrite <- (concat_snd_Permutation _ _ (map_to_list_delete m p b E)).
    reflexivity.
  - rewrite (delete_id m p E). reflexivity.
Qed.

Lemma elem_of_bucket_entries (t : HabitTracker) (l : nat) :
  l ∈ bucket_entries t <->
  exists p b, habits_by_periodicity t !! p = Some b /\ l ∈ b.
Proof.
  unfold bucket_entries. rewrite list_elem_of_In, in_concat. split.
  - intros (b & Hb & Hl). apply in_map_iff in Hb as ([p b'] & <- & Hpb).
    exists p, b'. split; [| apply list_elem_of_In, Hl].
    apply elem_of_map_to_list, list_elem_of_In, Hpb.
  - intros (p & b & Hp & Hl). exists b. split; [| apply list_elem_of_In, Hl].
    apply in_map_iff. exists (p, b). split; [reflexivity |].
    apply list_elem_of_In, elem_of_map_to_list, Hp.
Qed.

Lemma list_remove_NoDup (x : nat) (l l' : list nat) :
  list_remove x l = Some l' -> NoDup l -> NoDup l' /\ x ∉ l'.
Proof.
  revert l'. induction l as [| y l IH]; intros l'; cbn; [discriminate |].
  intros Hr Hnd. apply NoDup_cons in Hnd as [Hy Hnd].
  destruct (Nat.eqb_spec y x) as [-> | Hne].
  - injection Hr as <-. split; assumption.
  - destruct (list_remove x l) as [r |] eqn:E; cbn in Hr; [| discriminate].
    injection Hr as <-. destruct (IH r eq_refl Hnd) as [Hndr Hxr].
    split.
    + apply NoDup_cons. split; [| exact Hndr].
      intros Hin. apply Hy, (list_remove_sub x l r y E Hin).
    + rewrite not_elem_of_cons. split; [congruence | exact Hxr].
Qed.

(** One call that does not overwrite keeps the bucket entries distinct and
    registered. *)
Lemma run_call_fresh (c : call) (t t' : HabitTracker) (out : list string) :
  tracker_ok t -> buckets_registered t -> NoDup (bucket_entries t) ->
  (forall nm p now, c = AddHabit nm p now -> dict_get nm (habits t) = None) ->
  run_call c t = Returns tt t' out ->
  buckets_registered t' /\ NoDup (bucket_entries t').
Proof.
  intros Hok Hreg Hnd Hfresh Hrun.
  pose proof Hok as (H1 & H2 & H3 & H4).
  destruct c as [nm p now | nm | nm today now | p]; cbn [run_call] in Hrun.
  - (* add_habit *)
    specialize (Hfresh nm p now eq_refl).
    rewrite add_habit_returns in Hrun. injection Hrun as <- _.
    unfold buckets_registered, bucket_entries in *.
    cbn [objs habits habits_by_periodicity].
    set (l0 := length (objs t)).
    set (m := habits_by_periodicity t) in *.
    assert (Hold : forall q b l, m !! q = Some b -> l ∈ b -> (l < l0)%nat).
    { intros q b l Hq Hl. destruct (H3 q b l Hq Hl) as (h & Ho & _).
      apply lookup_lt_Some in Ho. exact Ho. }
    split.
    + intros q b l Hq Hl. destruct (decide (p = q)) as [<- | Hne].
      * rewrite lookup_insert_eq in Hq. injection Hq as <-.
        apply elem_of_app in Hl as [Hl | Hl].
        -- destruct (m !! p) as [b |] eqn:E; cbn [default] in Hl;
             [| apply elem_of_nil in Hl; contradiction].
           destruct (Hreg p b l E Hl) as (nm' & Hg). exists nm'.
           rewrite dict_get_set_ne by congruence. exact Hg.
        -- apply list_elem_of_singleton in Hl. subst l. exists nm.
           apply dict_get_set_eq.
      * rewrite lookup_insert_ne in Hq by exact Hne.
        destruct (Hreg q b l Hq Hl) as (nm' & Hg). exists nm'.
        rewrite dict_get_set_ne by congruence. exact Hg.
    + rewrite entries_insert. rewrite (entries_lookup m p) in Hnd.
      rewrite <- app_assoc.
      rewrite (Permutation_app_comm [l0]), app_assoc.
      apply NoDup_app. split; [exact Hnd |]. split; [| apply NoDup_singleton].
      intros l Hl Hl0. apply list_elem_of_singleton in Hl0. subst l.
      rewrite <- (entries_lookup m p) in Hl.
      apply (elem_of_bucket_entries t) in Hl as (q & b & Hq & Hin).
      specialize (Hold q b l0 Hq Hin). lia.
  - (* delete_habit *)
    destruct (dict_get nm (habits t)) as [l |] eqn:Hg.
    2:{ rewrite (delete_habit_absent t nm Hg) in Hrun.
        injection Hrun as <- _. split; assumption. }
    destruct (H2 nm l Hg) as (h & b & Ho & Hbk & Hin).
    destruct (list_remove_Some l b Hin) as (b' & Hr).
    rewrite (delete_habit_present t nm l h b b' Hg Ho Hbk Hr) in Hrun.
    injection Hrun as <- _.
    pose proof Hnd as Hnd0.
    unfold bucket_entries in Hnd.
    rewrite (entries_lookup _ (periodicity h)), Hbk in Hnd. cbn [default] in Hnd.
    apply NoDup_app in Hnd as (Hndb & Hdisj & Hndr).
    destruct (list_remove_NoDup l b b' Hr Hndb) as [Hndb' Hlb'].
    unfold buckets_registered, bucket_entries.
    cbn [objs habits habits_by_periodicity]. split.
    + intros q c l' Hq Hl'.
      assert (Hl : l' <> l /\ exists c0, habits_by_periodicity t !! q = Some c0
                                         /\ l' ∈ c0).
      { destruct (decide (periodicity h = q)) as [<- | Hne].
        - rewrite lookup_insert_eq in Hq. injection Hq as <-.
          split; [intros ->; contradiction |].
          exists b. split; [exact Hbk | apply (list_remove_sub l b b' l' Hr Hl')].
        - rewrite lookup_insert_ne in Hq by exact Hne.
          split; [| exists c; split; assumption].
          intros ->. destruct (H3 q c l Hq Hl') as (h1 & Ho1 & Hp1).
          rewrite Ho in Ho1. injection Ho1 as <-. contradiction. }
      destruct Hl as (Hne & c0 & Hq0 & Hl0).
      destruct (Hreg q c0 l' Hq0 Hl0) as (nm' & Hg'). exists nm'.
      rewrite dict_get_pop_ne; [exact Hg' |].
      intros <-. rewrite Hg in Hg'. injection Hg' as ->. contradiction.
    + rewrite entries_insert. apply NoDup_app. split; [exact Hndb' |].
      split; [| exact Hndr].
      intros x Hx. apply Hdisj, (list_remove_sub l b b' x Hr Hx).
  - (* checkoff_habit *)
    destruct (dict_get nm (habits t)) as [l |] eqn:Hg.
    2:{ rewrite (checkoff_habit_absent t nm today now Hg) in Hrun.
        injection Hrun as <- _. split; assumption. }
    destruct (H2 nm l Hg) as (h & b & Ho & _).
    destruct (checkoff_returns h today now) as (h' & Hc & _).
    rewrite (checkoff_habit_present t nm l h h' today now Hg Ho Hc) in Hrun.
    injection Hrun as <- _. split; assumption.
  - (* get_habits_by_periodicity *)
    unfold mbind, M_bind in Hrun.
    rewrite get_habits_by_periodicity_returns in Hrun. cbn in Hrun.
    injection Hrun as <- _.
    destruct (habits_by_periodicity t !! p) as [b |] eqn:E;
      [split; assumption |].
    unfold buckets_registered, bucket_entries in *.
    cbn [objs habits habits_by_periodicity]. split.
    + intros q c l Hq Hl. destruct (decide (p = q)) as [<- | Hne].
      * rewrite lookup_insert_eq in Hq. injection Hq as <-.
        apply elem_of_nil in Hl. contradiction.
      * rewrite lookup_insert_ne in Hq by exact Hne. apply (Hreg q c l Hq Hl).
    + rewrite entries_insert. cbn [app]. rewrite (delete_id _ _ E). exact Hnd.
Qed.

Lemma reachable_fresh_invariants (t : HabitTracker) :
  reachable_fresh t ->
  tracker_ok t /\ buckets_registered t /\ NoDup (bucket_entries t).
Proof.
  induction 1 as [| t t' c out _ IH Hfresh Hrun].
  - split; [apply tracker_ok_init |]. split.
    + intros p b l H. unfold HabitTracker_init in H.
      cbn [habits_by_periodicity] in H. rewrite lookup_empty in H.
      discriminate H.
    + unfold bucket_entries, HabitTracker_init. cbn [habits_by_periodicity].
      rewrite map_to_list_empty. apply NoDup_nil_2.
  - destruct IH as (Hok & Hreg & Hnd).
    destruct (run_call_ok c t Hok) as (t1 & o1 & Hrun1 & Hok1).
    rewrite Hrun in Hrun1. injection Hrun1 as -> _.
    split; [exact Hok1 |].
    apply (run_call_fresh c t t1 out Hok Hreg Hnd Hfresh Hrun).
Qed.

(** As long as no [add_habit] overwrites a registered name, the buckets
    hold exactly the habits of the name map, each one once. *)
Lemma fresh_adds_indexes_agree (t : HabitTracker) :
  reachable_fresh t -> indexes_agree t.
Proof.
  intros Hr. destruct (reachable_fresh_invariants t Hr)
    as ((H1 & H2 & H3 & H4) & Hreg & Hnd).
  split; [| exact Hnd].
  unfold bucket_objects, habit_objects. apply set_eq. intros l.
  rewrite !elem_of_list_to_set, elem_of_bucket_entries. split.
  - intros (p & b & Hp & Hl). destruct (Hreg p b l Hp Hl) as (nm & Hg).
    apply (dict_get_Some_value nm l _ Hg).
  - intros Hin. destruct (dict_values_get l (habits t) H1 Hin) as (nm & Hg).
    destruct (H2 nm l Hg) as (h & b & _ & Hb & Hl). eauto.
Qed.

End FreshRuns.

(** ** Claims on the tracker *)

(** C2 fails on the code: adding the name "a" twice leaves the first Habit
    object (address 0) in bucket 1 while the name map holds only the second
    (address 1); the buckets and the name map no longer hold the same
    habits. *)
Lemma add_habit_same_name_orphans :
  let t := mkHabitTracker
             [Habit_init "a" 1 None (mkdatetime 2023 7 1 8 0 0 0);
              Habit_init "a" 1 None (mkdatetime 2023 7 1 8 0 0 1)]
             [("a"%string, 1%nat)] {[ 1 := [0%nat; 1%nat] ]} in
  run_calls [AddHabit "a" 1 (mkdatetime 2023 7 1 8 0 0 0);
             AddHabit "a" 1 (mkdatetime 2023 7 1 8 0 0 1)]
    HabitTracker_init = Returns tt t [] /\
  (0%nat ∈ bucket_objects t) /\ (0%nat ∉ habit_objects t) /\
  ~ indexes_agree t.
Proof.
  intros t.
  assert (Hin : 0%nat ∈ bucket_objects t).
  { unfold bucket_objects, bucket_entries, t. cbn [habits_by_periodicity].
    rewrite map_to_list_singleton. apply elem_of_list_to_set.
    cbn. apply list_elem_of_here. }
  assert (Hout : 0%nat ∉ habit_objects t).
  { unfold habit_objects, t. rewrite elem_of_list_to_set. cbn.
    intros H. apply list_elem_of_singleton in H. discriminate H. }
  split; [vm_compute; reflexivity |].
  split; [exact Hin |]. split; [exact Hout |].
  intros [Heq _]. rewrite Heq in Hin. contradiction.
Qed.

(** C8: [checkoff_habit] on a name that is not registered returns, prints
    the one line that reports the missing habit and leaves the tracker as it
    was; on a registered name it runs [checkoff()] on that name's Habit
    object and changes nothing else. *)
Theorem checkoff_habit_spec (t : HabitTracker) (nm : string) (today : date)
    (now : datetime) :
  (dict_get nm (habits t) = None ->
   checkoff_habit nm today now t =
   Returns tt t ["Habit '" +:+ nm +:+ "' does not exist."]) /\
  (forall l h, dict_get nm (habits t) = Some l -> objs t !! l = Some h ->
     exists h',
       checkoff today now h = Returns tt h' [] /\
       checkoff_habit nm today now t =
       Returns tt
         (mkHabitTracker (<[l := h']> (objs t)) (habits t)
            (habits_by_periodicity t)) []).
Proof.
  split; [apply checkoff_habit_absent |].
  intros l h Hg Ho.
  destruct (checkoff_returns h today now) as (h' & Hc & _).
  exists h'. split; [exact Hc |].
  apply (checkoff_habit_present t nm l h h' today now Hg Ho Hc).
Qed.

(** A tracker holding the habit "Read": checking off "Swim", which is not
    registered, and "Read", which is. *)
Lemma checkoff_habit_spec_witness :
  let t := mkHabitTracker
             [Habit_init "Read" 1 None (mkdatetime 2023 7 1 8 0 0 0)]
             [("Read"%string, 0%nat)] {[ 1 := [0%nat] ]} in
  let today := mkdate 2023 7 2 in
  let now := mkdatetime 2023 7 2 9 0 0 0 in
  checkoff_habit "Swim" today now t =
    Returns tt t ["Habit 'Swim' does not exist."%string] /\
  exists h',
    checkoff today now (Habit_init "Read" 1 None (mkdatetime 2023 7 1 8 0 0 0))
      = Returns tt h' [] /\
    checkoff_habit "Read" today now t =
    Returns tt (mkHabitTracker (<[0%nat := h']> (objs t)) (habits t)
                  (habits_by_periodicity t)) [].
Proof.
  intros t today now. split.
  - apply (proj1 (checkoff_habit_spec t "Swim" today now)). reflexivity.
  - apply (proj2 (checkoff_habit_spec t "Read" today now) 0%nat); reflexivity.
Defined.

(** On a consistent tracker [get_habits_by_periodicity(p)] returns the
    list stored under [p], or the empty list when no list is stored under
    [p], and prints nothing; every entry is a Habit of periodicity [p], and
    every registered Habit of periodicity [p] is an entry.  An entry need
    not be registered: see the next lemma. *)
Lemma get_habits_by_periodicity_bucket (t : HabitTracker) (p : Z) :
  tracker_ok t ->
  exists b t',
    get_habits_by_periodicity p t = Returns b t' [] /\
    b = default [] (habits_by_periodicity t !! p) /\
    (forall l, l ∈ b -> exists h, objs t !! l = Some h /\ periodicity h = p) /\
    (forall nm l h, dict_get nm (habits t) = Some l -> objs t !! l = Some h ->
       periodicity h = p -> l ∈ b).
Proof.
  intros (H1 & H2 & H3 & H4).
  rewrite get_habits_by_periodicity_returns.
  eexists. eexists. split; [reflexivity |]. split; [reflexivity |].
  destruct (habits_by_periodicity t !! p) as [b |] eqn:E; cbn [default].
  - split.
    + intros l Hin. apply (H3 p b l E Hin).
    + intros nm l h Hg Ho Hp.
      destruct (H2 nm l Hg) as (h1 & b1 & Ho1 & Hbk & Hin).
      rewrite Ho in Ho1. injection Ho1 as <-.
      rewrite Hp, E in Hbk. injection Hbk as <-. exact Hin.
  - split.
    + intros l Hin. apply elem_of_nil in Hin. contradiction.
    + intros nm l h Hg Ho Hp.
      destruct (H2 nm l Hg) as (h1 & b1 & Ho1 & Hbk & Hin).
      rewrite Ho in Ho1. injection Ho1 as <-.
      rewrite Hp, E in Hbk. discriminate Hbk.
Qed.

(** C9 fails on the code: after [add_habit("a", 1)] and [add_habit("a", 7)]
    the tracker has one habit, "a", of periodicity 7, so no habit of the
    tracker has periodicity 1; yet [get_habits_by_periodicity(1)] returns
    a list that is not empty.  It holds the Habit object (address 0) that
    the second call replaced in the name map and left in bucket 1: the
    defect of C2, seen through this method. *)
Lemma get_habits_by_periodicity_returns_replaced_habit :
  let t := mkHabitTracker
             [Habit_init "a" 1 None (mkdatetime 2023 7 1 8 0 0 0);
              Habit_init "a" 7 None (mkdatetime 2023 7 1 8 0 0 1)]
             [("a"%string, 1%nat)]
             (<[ 7 := [1%nat] ]> {[ 1 := [0%nat] ]}) in
  run_calls [AddHabit "a" 1 (mkdatetime 2023 7 1 8 0 0 0);
             AddHabit "a" 7 (mkdatetime 2023 7 1 8 0 0 1)]
    HabitTracker_init = Returns tt t [] /\
  registered_habits t
    = [Habit_init "a" 7 None (mkdatetime 2023 7 1 8 0 0 1)] /\
  (forall nm l h, dict_get nm (habits t) = Some l -> objs t !! l = Some h ->
     periodicity h <> 1) /\
  get_habits_by_periodicity 1 t = Returns [0%nat] t [] /\
  (0%nat ∉ dict_values (habits t)).
Proof.
  intros t.
  split; [vm_compute; reflexivity |].
  split; [reflexivity |]. split; [| split].
  - intros nm l h Hg Ho. unfold t in Hg, Ho. cbn [habits dict_get] in Hg.
    destruct (String.eqb "a" nm); [| discriminate Hg].
    injection Hg as <-. cbn in Ho. injection Ho as <-. cbn. lia.
  - vm_compute. reflexivity.
  - unfold t. cbn. intros H. apply list_elem_of_singleton in H.
    discriminate H.
Qed.

(** C10: asking for a periodicity that is not yet a key changes the
    tracker: the key is added with an empty list, so the set of keys grows
    by [p]; the name map, the stored Habit objects and every other bucket
    stay as they were. *)
Theorem get_habits_by_periodicity_inserts (t : HabitTracker) (p : Z) :
  habits_by_periodicity t !! p = None ->
  exists t',
    get_habits_by_periodicity p t = Returns [] t' [] /\
    t' <> t /\
    habits_by_periodicity t' !! p = Some [] /\
    (p ∉ dom (habits_by_periodicity t)) /\
    dom (habits_by_periodicity t') = {[p]} ∪ dom (habits_by_periodicity t) /\
    habits t' = habits t /\ objs t' = objs t /\
    (forall q, q <> p ->
       habits_by_periodicity t' !! q = habits_by_periodicity t !! q).
Proof.
  intros Hnone. rewrite get_habits_by_periodicity_returns, Hnone.
  eexists. split; [reflexivity |]. cbn [objs habits habits_by_periodicity].
  split; [| split; [apply lookup_insert_eq | split; [| split; [| split; [| split]]]]].
  - intros Heq. apply (f_equal (fun x => habits_by_periodicity x !! p)) in Heq.
    cbn [habits_by_periodicity] in Heq.
    rewrite lookup_insert_eq, Hnone in Heq. discriminate Heq.
  - apply not_elem_of_dom, Hnone.
  - apply dom_insert_L.
  - reflexivity.
  - reflexivity.
  - intros q Hq. apply lookup_insert_ne. congruence.
Qed.

(** A new tracker asked for periodicity 99. *)
Lemma get_habits_by_periodicity_inserts_witness :
  exists t',
    get_habits_by_periodicity 99 HabitTracker_init = Returns [] t' [] /\
    t' <> HabitTracker_init /\
    habits_by_periodicity t' !! 99 = Some [].
Proof.
  destruct (get_habits_by_periodicity_inserts HabitTracker_init 99)
    as (t' & Hrun & Hne & Hp & _).
  - reflexivity.
  - exists t'. repeat split; assumption.
Defined.

(** ** habits_struggled_last_month *)

Lemma struggled_loop_returns (d : date) (t : HabitTracker) (vs : list nat) :
  forall acc,
    (forall l, l ∈ vs -> is_Some (objs t !! l)) ->
    struggled_loop d vs acc t =
    Returns (acc ++ map name (List.filter (struggled d)
                                (omap (fun l => objs t !! l) vs))) t [].
Proof.
  induction vs as [| l vs IH]; intros acc Hlive.
  - cbn. rewrite app_nil_r. reflexivity.
  - destruct (Hlive l (list_elem_of_here l vs)) as (h & Ho).
    assert (Hrest : forall l', l' ∈ vs -> is_Some (objs t !! l'))
      by (intros l' Hin; apply Hlive, list_elem_of_further, Hin).
    cbn [struggled_loop omap list_omap]. runT. rewrite Ho. runT.
    cbn [List.filter].
    destruct (struggled d h).
    + rewrite (IH (acc ++ [name h]) Hrest), <- app_assoc. reflexivity.
    + rewrite (IH acc Hrest). reflexivity.
Qed.

(** C7: [habits_struggled_last_month()] returns, in the order of the name
    map, the names of the habits that have no checkoff or whose last
    checkoff date is before [today - 30 days]; a last checkoff more than 30
    days back is such a date, one exactly 30 days back is not, one 31 days
    back is.  The tracker is left as it was. *)
Theorem habits_struggled_last_month_spec (t : HabitTracker) (today : date) :
  valid_date today -> 30 < toordinal today ->
  (forall l, l ∈ dict_values (habits t) -> is_Some (objs t !! l)) ->
  exists one_month_ago,
    date_sub_days today 30 = Some one_month_ago /\
    toordinal one_month_ago = toordinal today - 30 /\
    habits_struggled_last_month today t =
      Returns (map name (List.filter (struggled one_month_ago)
                           (registered_habits t))) t [] /\
    (forall h, checkoffs h = [] -> struggled one_month_ago h = true) /\
    (forall h c, last (checkoffs h) = Some c ->
       struggled one_month_ago h = date_ltb (date_of c) one_month_ago) /\
    (forall h c, last (checkoffs h) = Some c -> valid_date (date_of c) ->
       (struggled one_month_ago h = true <->
        30 < days_between today (date_of c)) /\
       (days_between today (date_of c) = 30 ->
        struggled one_month_ago h = false) /\
       (days_between today (date_of c) = 31 ->
        struggled one_month_ago h = true)).
Proof.
  intros Hv Hord Hlive.
  destruct (date_sub_days_spec 30 today Hv ltac:(lia)) as (d & Hsub & Hvd & Hod).
  exists d. split; [exact Hsub |]. split; [lia |].
  split; [| split; [| split]].
  - unfold habits_struggled_last_month. rewrite Hsub. runT.
    rewrite (struggled_loop_returns d t _ [] Hlive). reflexivity.
  - intros h Hnil. unfold struggled. rewrite Hnil. reflexivity.
  - intros h c Hlast. unfold struggled. rewrite Hlast. reflexivity.
  - intros h c Hlast Hvc. unfold struggled, days_between. rewrite Hlast.
    rewrite (date_ltb_toordinal _ _ Hvc Hvd).
    split; [| split].
    + rewrite Z.ltb_lt. lia.
    + intros H. apply Z.ltb_ge. lia.
    + intros H. apply Z.ltb_lt. lia.
Qed.

(** On 2023-08-01 the threshold is 2023-07-02: of three habits, one never
    checked off, one last checked off on 2023-07-02 (30 days back) and one
    on 2023-07-01 (31 days back), the first and the third are reported. *)
Lemma habits_struggled_last_month_spec_witness :
  let t := mkHabitTracker
             [mkHabit "Read" 1 (mkdatetime 2023 6 1 8 0 0 0) [] 0 None;
              mkHabit "Swim" 1 (mkdatetime 2023 6 1 8 0 0 0)
                [mkdatetime 2023 7 2 9 0 0 0] 1 (Some (mkdate 2023 7 2));
              mkHabit "Walk" 7 (mkdatetime 2023 6 1 8 0 0 0)
                [mkdatetime 2023 7 1 9 0 0 0] 1 (Some (mkdate 2023 7 1))]
             [("Read"%string, 0%nat); ("Swim"%string, 1%nat);
              ("Walk"%string, 2%nat)]
             {[ 1 := [0%nat; 1%nat]; 7 := [2%nat] ]} in
  habits_struggled_last_month (mkdate 2023 8 1) t =
  Returns ["Read"%string; "Walk"%string] t [].
Proof.
  intros t.
  destruct (habits_struggled_last_month_spec t (mkdate 2023 8 1))
    as (d & Hsub & _ & Hrun & _).
  - cbv [valid_date]. cbn. lia.
  - vm_compute. reflexivity.
  - intros l Hin. unfold t in *. cbn in Hin.
    repeat (apply elem_of_cons in Hin as [-> | Hin]; [cbn; eauto |]).
    apply elem_of_nil in Hin. contradiction.
  - rewrite Hrun. vm_compute in Hsub. injection Hsub as <-.
    reflexivity.
Defined.

(** * Further properties of the tracker *)

(** ** What every run keeps *)

Section RunInvariants.

(** A call keeps the bucket entries distinct, overwriting or not. *)
Lemma run_call_entries_NoDup (c : call) (t t' : HabitTracker)
    (out : list string) :
  tracker_ok t -> NoDup (bucket_entries t) ->
  run_call c t = Returns tt t' out -> NoDup (bucket_entries t').
Proof.
  intros Hok Hnd Hrun. pose proof Hok as (H1 & H2 & H3 & H4).
  destruct c as [nm p now | nm | nm today now | p]; cbn [run_call] in Hrun.
  - rewrite add_habit_returns in Hrun. injection Hrun as <- _.
    unfold bucket_entries in *. cbn [habits_by_periodicity].
    set (l0 := length (objs t)). set (m := habits_by_periodicity t) in *.
    rewrite entries_insert. rewrite (entries_lookup m p) in Hnd.
    rewrite <- app_assoc, (Permutation_app_comm [l0]), app_assoc.
    apply NoDup_app. split; [exact Hnd |]. split; [| apply NoDup_singleton].
    intros l Hl Hl0. apply list_elem_of_singleton in Hl0. subst l.
    rewrite <- (entries_lookup m p) in Hl.
    apply (elem_of_bucket_entries t) in Hl as (q & b & Hq & Hin).
    destruct (H3 q b l0 Hq Hin) as (h & Ho & _).
    apply lookup_lt_Some in Ho. unfold l0 in Ho. lia.
  - destruct (dict_get nm (habits t)) as [l |] eqn:Hg.
    2:{ rewrite (delete_habit_absent t nm Hg) in Hrun.
        injection Hrun as <- _. exact Hnd. }
    destruct (H2 nm l Hg) as (h & b & Ho & Hbk & Hin).
    destruct (list_remove_Some l b Hin) as (b' & Hr).
    rewrite (delete_habit_present t nm l h b b' Hg Ho Hbk Hr) in Hrun.
    injection Hrun as <- _.
    unfold bucket_entries in *. cbn [habits_by_periodicity].
    rewrite (entries_lookup _ (periodicity h)), Hbk in Hnd.
    cbn [default] in Hnd.
    apply NoDup_app in Hnd as (Hndb & Hdisj & Hndr).
    destruct (list_remove_NoDup l b b' Hr Hndb) as [Hndb' _].
    rewrite entries_insert. apply NoDup_app. split; [exact Hndb' |].
    split; [| exact Hndr].
    intros x Hx. apply Hdisj, (list_remove_sub l b b' x Hr Hx).
  - destruct (dict_get nm (habits t)) as [l |] eqn:Hg.
    2:{ rewrite (checkoff_habit_absent t nm today now Hg) in Hrun.
        injection Hrun as <- _. exact Hnd. }
    destruct (H2 nm l Hg) as (h & b & Ho & _).
    destruct (checkoff_returns h today now) as (h' & Hc & _).
    rewrite (checkoff_habit_present t nm l h h' today now Hg Ho Hc) in Hrun.
    injection Hrun as <- _. exact Hnd.
  - unfold mbind, M_bind in Hrun.
    rewrite get_habits_by_periodicity_returns in Hrun. cbn in Hrun.
    injection Hrun as <- _.
    destruct (habits_by_periodicity t !! p) as [b |] eqn:E; [exact Hnd |].
    unfold bucket_entries in *. cbn [habits_by_periodicity].
    rewrite entries_insert. cbn [app]. rewrite (delete_id _ _ E). exact Hnd.
Qed.

Lemma run_calls_entries_NoDup (cs : list call) :
  forall t t' out,
    tracker_ok t -> NoDup (bucket_entries t) ->
    run_calls cs t = Returns tt t' out ->
    tracker_ok t' /\ NoDup (bucket_entries t').
Proof.
  induction cs as [| c cs IH]; intros t t' out Hok Hnd Hrun.
  - cbn in Hrun. injection Hrun as <- _. split; assumption.
  - destruct (run_call_ok c t Hok) as (t1 & o1 & H1 & Hok1).
    cbn [run_calls] in Hrun. unfold mbind, M_bind in Hrun.
    rewrite H1 in Hrun.
    destruct (run_calls cs t1) as [[] t2 o2 |] eqn:E; [| discriminate Hrun].
    injection Hrun as <- _.
    apply (IH t1 t2 o2 Hok1); [| exact E].
    apply (run_call_entries_NoDup c t t1 o1 Hok Hnd H1).
Qed.

Lemma entries_NoDup_init : NoDup (bucket_entries HabitTracker_init).
Proof.
  unfold bucket_entries, HabitTracker_init. cbn [habits_by_periodicity].
  rewrite map_to_list_empty. apply NoDup_nil_2.
Qed.

Lemma reachable_entries_NoDup (t : HabitTracker) :
  reachable t -> NoDup (bucket_entries t).
Proof.
  intros (cs & out & Hrun).
  apply (run_calls_entries_NoDup cs _ t out tracker_ok_init
           entries_NoDup_init Hrun).
Qed.

(** An entry of a duplicate-free family of buckets sits in one bucket. *)
Lemma entries_NoDup_one_bucket (t : HabitTracker) (p q : Z)
    (b c : list nat) (l : nat) :
  NoDup (bucket_entries t) ->
  habits_by_periodicity t !! p = Some b -> l ∈ b ->
  habits_by_periodicity t !! q = Some c -> l ∈ c ->
  p = q /\ NoDup b.
Proof.
  intros Hnd Hp Hl Hq Hl'. unfold bucket_entries in Hnd.
  rewrite (entries_lookup _ p), Hp in Hnd. cbn [default] in Hnd.
  apply NoDup_app in Hnd as (Hndb & Hdisj & _).
  split; [| exact Hndb].
  destruct (decide (p = q)) as [| Hne]; [assumption | exfalso].
  apply (Hdisj l Hl), list_elem_of_In, in_concat. exists c.
  split; [| apply list_elem_of_In, Hl'].
  apply in_map_iff. exists (q, c). split; [reflexivity |].
  apply list_elem_of_In, elem_of_map_to_list.
  rewrite lookup_delete_ne by exact Hne. exact Hq.
Qed.

End RunInvariants.

(** X1: no sequence of calls on a new tracker raises; in the tracker it
    builds every registered habit is a stored object listed in the bucket
    of its own periodicity and in no other, once; every bucket entry has
    the periodicity of its bucket; two names never share a Habit. *)
Theorem runs_keep_registered_habits_filed (cs : list call) :
  exists t out,
    run_calls cs HabitTracker_init = Returns tt t out /\
    (forall nm l, dict_get nm (habits t) = Some l ->
       exists h b,
         objs t !! l = Some h /\
         habits_by_periodicity t !! periodicity h = Some b /\
         l ∈ b /\ NoDup b /\
         (forall q c, habits_by_periodicity t !! q = Some c -> l ∈ c ->
            q = periodicity h)) /\
    (forall p b l, habits_by_periodicity t !! p = Some b -> l ∈ b ->
       exists h, objs t !! l = Some h /\ periodicity h = p) /\
    (forall nm1 nm2 l, dict_get nm1 (habits t) = Some l ->
       dict_get nm2 (habits t) = Some l -> nm1 = nm2).
Proof.
  destruct (run_calls_ok cs HabitTracker_init tracker_ok_init)
    as (t & out & Hrun & Hok).
  exists t, out. split; [exact Hrun |].
  assert (Hnd : NoDup (bucket_entries t))
    by (apply reachable_entries_NoDup; exists cs, out; exact Hrun).
  destruct Hok as (H1 & H2 & H3 & H4).
  split; [| split; [exact H3 | exact H4]].
  intros nm l Hg. destruct (H2 nm l Hg) as (h & b & Ho & Hb & Hl).
  exists h, b. repeat split; try assumption.
  - apply (entries_NoDup_one_bucket t _ _ b b l Hnd Hb Hl Hb Hl).
  - intros q c Hq Hl'. symmetry.
    apply (entries_NoDup_one_bucket t _ _ b c l Hnd Hb Hl Hq Hl').
Qed.

(** ** delete_habit and add_habit *)

Section AddDelete.

Lemma dict_set_fresh {V} (k : string) (v : V) (d : list (string * V)) :
  dict_get k d = None -> dict_set k v d = d ++ [(k, v)].
Proof.
  induction d as [| [k' v'] d IH]; cbn; [reflexivity |].
  destruct (String.eqb k' k); [discriminate |].
  intros H. rewrite (IH H). reflexivity.
Qed.

Lemma dict_pop_snoc {V} (k : string) (v : V) (d : list (string * V)) :
  dict_get k d = None -> dict_pop k (d ++ [(k, v)]) = d.
Proof.
  induction d as [| [k' v'] d IH]; cbn.
  - rewrite String.eqb_refl. reflexivity.
  - destruct (String.eqb k' k); [discriminate |].
    intros H. rewrite (IH H). reflexivity.
Qed.

Lemma list_remove_snoc (x : nat) (l : list nat) :
  x ∉ l -> list_remove x (l ++ [x]) = Some l.
Proof.
  induction l as [| y l IH]; cbn; intros Hx.
  - rewrite Nat.eqb_refl. reflexivity.
  - apply not_elem_of_cons in Hx as [Hne Hx].
    destruct (Nat.eqb_spec y x) as [-> | _]; [contradiction |].
    rewrite (IH Hx). reflexivity.
Qed.

End AddDelete.

(** X2: on a tracker some run has built, [delete_habit] of a registered
    name returns and removes the Habit from both indexes: the name is no
    longer registered, the Habit is under no other name and in no bucket;
    the stored objects, the other names and the other bucket entries are
    as before. *)
Theorem delete_habit_removes (t : HabitTracker) (nm : string) (l : nat) :
  reachable t -> dict_get nm (habits t) = Some l ->
  exists t',
    delete_habit nm t = Returns tt t' [] /\
    dict_get nm (habits t') = None /\
    (l ∉ dict_values (habits t')) /\
    (forall p b, habits_by_periodicity t' !! p = Some b -> l ∉ b) /\
    objs t' = objs t /\
    (forall nm', nm' <> nm ->
       dict_get nm' (habits t') = dict_get nm' (habits t)) /\
    (forall l' p, l' <> l ->
       (l' ∈ default [] (habits_by_periodicity t' !! p) <->
        l' ∈ default [] (habits_by_periodicity t !! p))).
Proof.
  intros Hreach Hg.
  pose proof (reachable_entries_NoDup t Hreach) as Hnd.
  pose proof (reachable_ok t Hreach) as (H1 & H2 & H3 & H4).
  destruct (H2 nm l Hg) as (h & b & Ho & Hbk & Hin).
  destruct (list_remove_Some l b Hin) as (b' & Hr).
  destruct (entries_NoDup_one_bucket t _ _ b b l Hnd Hbk Hin Hbk Hin)
    as [_ Hndb].
  destruct (list_remove_NoDup l b b' Hr Hndb) as [_ Hlb'].
  rewrite (delete_habit_present t nm l h b b' Hg Ho Hbk Hr).
  eexists. split; [reflexivity |]. cbn [objs habits habits_by_periodicity].
  split; [apply dict_get_pop_eq, H1 |].
  split; [| split; [| split; [reflexivity | split]]].
  - intros Hv.
    destruct (dict_values_get l _ (dict_pop_NoDup nm _ H1) Hv) as (nm' & Hg').
    destruct (decide (nm = nm')) as [<- | Hne].
    + rewrite dict_get_pop_eq in Hg' by exact H1. discriminate Hg'.
    + rewrite dict_get_pop_ne in Hg' by exact Hne.
      apply Hne, (H4 nm nm' l Hg Hg').
  - intros q c Hq Hl. destruct (decide (periodicity h = q)) as [<- | Hne].
    + rewrite lookup_insert_eq in Hq. injection Hq as <-. contradiction.
    + rewrite lookup_insert_ne in Hq by exact Hne.
      apply Hne. symmetry.
      apply (entries_NoDup_one_bucket t _ _ c b l Hnd Hq Hl Hbk Hin).
  - intros nm' Hne. apply dict_get_pop_ne. congruence.
  - intros l' q Hne. destruct (decide (periodicity h = q)) as [<- | Hq].
    + rewrite lookup_insert_eq, Hbk. cbn [default]. split.
      * apply (list_remove_sub l b b' l' Hr).
      * intros Hl'. apply (list_remove_keeps l b b' l' Hr Hl' Hne).
    + rewrite lookup_insert_ne by exact Hq. reflexivity.
Qed.

(** The tracker after [add_habit("Read", 1)] and [add_habit("Swim", 1)],
    deleting "Read". *)
Lemma delete_habit_removes_witness :
  exists t',
    delete_habit "Read"
      (mkHabitTracker
         [Habit_init "Read" 1 None (mkdatetime 2023 7 1 8 0 0 0);
          Habit_init "Swim" 1 None (mkdatetime 2023 7 1 8 0 0 0)]
         [("Read"%string, 0%nat); ("Swim"%string, 1%nat)]
         {[ 1 := [0%nat; 1%nat] ]}) = Returns tt t' [] /\
    dict_get "Read" (habits t') = None /\
    dict_get "Swim" (habits t') = Some 1%nat.
Proof.
  destruct (delete_habit_removes
              (mkHabitTracker
                 [Habit_init "Read" 1 None (mkdatetime 2023 7 1 8 0 0 0);
                  Habit_init "Swim" 1 None (mkdatetime 2023 7 1 8 0 0 0)]
                 [("Read"%string, 0%nat); ("Swim"%string, 1%nat)]
                 {[ 1 := [0%nat; 1%nat] ]}) "Read" 0%nat)
    as (t' & Hrun & Hgone & _ & _ & _ & Hothers & _).
  - exists [AddHabit "Read" 1 (mkdatetime 2023 7 1 8 0 0 0);
            AddHabit "Swim" 1 (mkdatetime 2023 7 1 8 0 0 0)], [].
    vm_compute. reflexivity.
  - reflexivity.
  - exists t'. split; [exact Hrun |]. split; [exact Hgone |].
    rewrite (Hothers "Swim"%string) by discriminate. reflexivity.
Defined.

(** X3: [add_habit(name, p)] always returns and registers under [name] a
    new Habit with that name and periodicity, no checkoffs, streak 0 and no
    last checkoff date, whatever was registered under the name before; the
    Habit is the last entry of bucket [p]; the other names, the stored
    objects and the other buckets are as before. *)
Theorem add_habit_registers (t : HabitTracker) (nm : string) (p : Z)
    (now : datetime) :
  exists t',
    add_habit nm p now t = Returns tt t' [] /\
    dict_get nm (habits t') = Some (length (objs t)) /\
    objs t' !! length (objs t) = Some (mkHabit nm p now [] 0 None) /\
    habits_by_periodicity t' !! p =
      Some (default [] (habits_by_periodicity t !! p) ++ [length (objs t)]) /\
    (forall nm', nm' <> nm ->
       dict_get nm' (habits t') = dict_get nm' (habits t)) /\
    (forall l h, objs t !! l = Some h -> objs t' !! l = Some h) /\
    (forall q, q <> p ->
       habits_by_periodicity t' !! q = habits_by_periodicity t !! q) /\
    (dict_get nm (habits t) = None ->
       map fst (habits t') = map fst (habits t) ++ [nm]) /\
    (is_Some (dict_get nm (habits t)) ->
       map fst (habits t') = map fst (habits t)).
Proof.
  rewrite add_habit_returns. eexists. split; [reflexivity |].
  cbn [objs habits habits_by_periodicity].
  split; [apply dict_get_set_eq |].
  split; [apply list_lookup_middle; reflexivity |].
  split; [apply lookup_insert_eq |].
  split; [intros nm' Hne; apply dict_get_set_ne; congruence |].
  split; [intros l h Ho; apply lookup_app_l_Some, Ho |].
  split; [intros q Hq; apply lookup_insert_ne; congruence |].
  split.
  - intros Hnone. rewrite (dict_set_fresh nm _ _ Hnone), map_app. reflexivity.
  - intros Hsome. induction (habits t) as [| [k v] d IH]; cbn in *.
    + destruct Hsome as [? Hx]. discriminate Hx.
    + destruct (String.eqb_spec k nm) as [-> | Hne]; cbn; [reflexivity |].
      rewrite (IH Hsome). reflexivity.
Qed.

(** A tracker holding "Read" with a history; "Read" is added again, then
    "Swim". *)
Lemma add_habit_registers_witness :
  let t := mkHabitTracker
             [mkHabit "Read" 1 (mkdatetime 2023 6 1 8 0 0 0)
                [mkdatetime 2023 7 1 9 0 0 0] 1 (Some (mkdate 2023 7 1))]
             [("Read"%string, 0%nat)] {[ 1 := [0%nat] ]} in
  (exists t', add_habit "Read" 1 (mkdatetime 2023 7 2 8 0 0 0) t
                = Returns tt t' [] /\
              map fst (habits t') = ["Read"%string]) /\
  (exists t', add_habit "Swim" 7 (mkdatetime 2023 7 2 8 0 0 0) t
                = Returns tt t' [] /\
              map fst (habits t') = ["Read"%string; "Swim"%string]).
Proof.
  intros t. split.
  - destruct (add_habit_registers t "Read" 1 (mkdatetime 2023 7 2 8 0 0 0))
      as (t' & Hrun & _ & _ & _ & _ & _ & _ & _ & Hsame).
    exists t'. split; [exact Hrun |]. apply Hsame. eexists. reflexivity.
  - destruct (add_habit_registers t "Swim" 7 (mkdatetime 2023 7 2 8 0 0 0))
      as (t' & Hrun & _ & _ & _ & _ & _ & _ & Hnew & _).
    exists t'. split; [exact Hrun |]. apply Hnew. reflexivity.
Defined.

(** X4: adding a name that is not registered and deleting it again
    restores the name map and the contents of every bucket; what stays is
    the new object in the store (and an empty list in the bucket of the
    periodicity, if there was none). *)
Theorem add_then_delete_restores (t : HabitTracker) (nm : string) (p : Z)
    (now : datetime) :
  reachable t -> dict_get nm (habits t) = None ->
  exists t1 t2,
    add_habit nm p now t = Returns tt t1 [] /\
    delete_habit nm t1 = Returns tt t2 [] /\
    habits t2 = habits t /\
    objs t2 = objs t ++ [mkHabit nm p now [] 0 None] /\
    (forall q, default [] (habits_by_periodicity t2 !! q) =
               default [] (habits_by_periodicity t !! q)).
Proof.
  intros Hreach Hnone.
  pose proof (reachable_ok t Hreach) as (H1 & H2 & H3 & H4).
  assert (Hl0 : length (objs t) ∉ default [] (habits_by_periodicity t !! p)).
  { destruct (habits_by_periodicity t !! p) as [b |] eqn:E;
      cbn [default]; [| apply not_elem_of_nil].
    intros Hin. destruct (H3 p b _ E Hin) as (h & Ho & _).
    apply lookup_lt_Some in Ho. lia. }
  rewrite add_habit_returns. eexists. eexists. split; [reflexivity |].
  rewrite (delete_habit_present _ nm (length (objs t))
             (Habit_init nm p None now)
             (default [] (habits_by_periodicity t !! p) ++ [length (objs t)])
             (default [] (habits_by_periodicity t !! p))).
  - split; [reflexivity |]. cbn [objs habits habits_by_periodicity].
    split; [| split; [reflexivity |]].
    + rewrite (dict_set_fresh nm _ _ Hnone). apply dict_pop_snoc, Hnone.
    + intros q. cbn [periodicity Habit_init].
      rewrite insert_insert_eq.
      destruct (decide (p = q)) as [<- | Hne].
      * rewrite lookup_insert_eq. reflexivity.
      * rewrite lookup_insert_ne by exact Hne. reflexivity.
  - cbn [habits]. apply dict_get_set_eq.
  - cbn [objs]. apply list_lookup_middle. reflexivity.
  - cbn [habits_by_periodicity periodicity Habit_init].
    apply lookup_insert_eq.
  - apply list_remove_snoc, Hl0.
Qed.

(** A new tracker: "Read" is added and deleted. *)
Lemma add_then_delete_restores_witness :
  exists t1 t2,
    add_habit "Read" 1 (mkdatetime 2023 7 1 8 0 0 0) HabitTracker_init
      = Returns tt t1 [] /\
    delete_habit "Read" t1 = Returns tt t2 [] /\
    habits t2 = [].
Proof.
  destruct (add_then_delete_restores HabitTracker_init "Read" 1
              (mkdatetime 2023 7 1 8 0 0 0))
    as (t1 & t2 & Ha & Hd & Hh & _).
  - exists [], []. reflexivity.
  - reflexivity.
  - exists t1, t2. repeat split; assumption.
Defined.

(** ** The longest streak of a history *)

Section LongestRun.

Lemma maximum_snoc_max (r : list Z) :
  forall x c, 0 <= c ->
    maximum x (r ++ [c]) = Z.max (Z.max x (fold_right Z.max 0 r)) c.
Proof.
  induction r as [| y r IH]; intros x c Hc; cbn.
  - lia.
  - rewrite (IH y c Hc). lia.
Qed.

(** The maximum of the closed runs and the running counter. *)
Lemma runs_maximum (results : list Z) (cur : Z) :
  0 <= cur ->
  match results ++ [cur] with
  | [] => 0
  | x :: r => maximum x r
  end = Z.max (fold_right Z.max 0 results) cur.
Proof.
  intros Hc. destruct results as [| x r]; cbn [app fold_right].
  - cbn. lia.
  - apply maximum_snoc_max, Hc.
Qed.

Lemma walk_pairs_best_run (p : Z) (rest : list date) :
  forall prev cur results,
    1 <= cur ->
    1 <= (walk_pairs p prev rest cur results).2 /\
    Z.max (fold_right Z.max 0 (walk_pairs p prev rest cur results).1)
          (walk_pairs p prev rest cur results).2
    = best_run p prev rest cur (fold_right Z.max 0 results).
Proof.
  induction rest as [| d rest IH]; intros prev cur results Hc;
    cbn [walk_pairs best_run].
  - cbn. split; [exact Hc | reflexivity].
  - destruct (days_between d prev <=? p).
    + apply IH. lia.
    + destruct (IH d 1 (results ++ [cur]) ltac:(lia)) as [H1 H2].
      split; [exact H1 |]. rewrite H2. f_equal.
      clear. induction results as [| x r IHr]; cbn; [lia |].
      rewrite IHr. lia.
Qed.

Lemma longest_run_best_run (p : Z) (cs : list datetime) :
  longest_run p cs =
  match map date_of cs with
  | [] => 0
  | d :: ds => best_run p d ds 1 0
  end.
Proof.
  unfold longest_run. destruct (map date_of cs) as [| d ds]; [reflexivity |].
  destruct (walk_pairs_best_run p ds d 1 [] ltac:(lia)) as [H1 H2].
  destruct (walk_pairs p d ds 1 []) as [results cur]. cbn [fst snd] in *.
  rewrite runs_maximum by lia. exact H2.
Qed.

Lemma best_run_bounds (p : Z) (rest : list date) :
  forall prev cur best,
    1 <= cur ->
    Z.max best cur <= best_run p prev rest cur best
      <= Z.max best (cur + Z.of_nat (length rest)).
Proof.
  induction rest as [| d rest IH]; intros prev cur best Hc;
    cbn [best_run length].
  - lia.
  - destruct (days_between d prev <=? p).
    + specialize (IH d (cur + 1) best). lia.
    + specialize (IH d 1 (Z.max best cur)). lia.
Qed.

Lemma best_run_unbroken (p : Z) (rest : list date) :
  forall prev cur best,
    Forall (fun g => g <= p) (gaps prev rest) ->
    best_run p prev rest cur best = Z.max best (cur + Z.of_nat (length rest)).
Proof.
  induction rest as [| d rest IH]; intros prev cur best Hg;
    cbn [best_run length gaps] in *.
  - f_equal. lia.
  - inversion Hg as [| ? ? Hd Hrest]; subst.
    destruct (Z.leb_spec (days_between d prev) p); [| lia].
    rewrite (IH d (cur + 1) best Hrest). f_equal. lia.
Qed.

Lemma best_run_all_broken (p : Z) (rest : list date) :
  forall prev cur best,
    1 <= cur ->
    Forall (fun g => p < g) (gaps prev rest) ->
    best_run p prev rest cur best = Z.max best cur.
Proof.
  induction rest as [| d rest IH]; intros prev cur best Hc Hg;
    cbn [best_run gaps] in *; [reflexivity |].
  inversion Hg as [| ? ? Hd Hrest]; subst.
  destruct (Z.leb_spec (days_between d prev) p); [lia |].
  rewrite (IH d 1 (Z.max best cur) ltac:(lia) Hrest). lia.
Qed.

Lemma best_run_mono (p p' : Z) (rest : list date) :
  p <= p' ->
  forall prev cur cur' best best',
    cur <= cur' -> 0 <= cur' ->
    Z.max best cur <= Z.max best' cur' ->
    best_run p prev rest cur best <= best_run p' prev rest cur' best'.
Proof.
  intros Hp. induction rest as [| d rest IH];
    intros prev cur cur' best best' Hc Hc' Hb; cbn [best_run].
  - exact Hb.
  - destruct (Z.leb_spec (days_between d prev) p),
      (Z.leb_spec (days_between d prev) p'); try lia; apply IH; lia.
Qed.

End LongestRun.

(** X5: [longest_streak()] of a habit with checkoffs is at least 1 and at
    most the number of checkoffs; it is 0 exactly for a habit without
    checkoffs. *)
Theorem longest_streak_bounds (h : Habit) :
  exists v,
    longest_streak h = Returns v h [] /\
    (checkoffs h = [] -> v = 0) /\
    (checkoffs h <> [] -> 1 <= v <= Z.of_nat (length (checkoffs h))).
Proof.
  exists (longest_run (periodicity h) (checkoffs h)).
  split; [apply longest_streak_returns |].
  rewrite longest_run_best_run.
  destruct (checkoffs h) as [| c cs]; cbn [map].
  - split; [reflexivity | congruence].
  - split; [discriminate |]. intros _.
    pose proof (best_run_bounds (periodicity h) (map date_of cs)
                  (date_of c) 1 0 ltac:(lia)) as B.
    rewrite length_map in B. cbn [length]. lia.
Qed.

(** A habit with three checkoffs, the last one after a lapse. *)
Lemma longest_streak_bounds_witness :
  exists v,
    longest_streak
      (mkHabit "Read" 1 (mkdatetime 2023 6 1 8 0 0 0)
         [mkdatetime 2023 7 1 9 0 0 0; mkdatetime 2023 7 2 9 0 0 0;
          mkdatetime 2023 7 9 9 0 0 0] 1 (Some (mkdate 2023 7 9)))
    = Returns v
        (mkHabit "Read" 1 (mkdatetime 2023 6 1 8 0 0 0)
           [mkdatetime 2023 7 1 9 0 0 0; mkdatetime 2023 7 2 9 0 0 0;
            mkdatetime 2023 7 9 9 0 0 0] 1 (Some (mkdate 2023 7 9))) [] /\
    1 <= v <= 3.
Proof.
  destruct (longest_streak_bounds
              (mkHabit "Read" 1 (mkdatetime 2023 6 1 8 0 0 0)
                 [mkdatetime 2023 7 1 9 0 0 0; mkdatetime 2023 7 2 9 0 0 0;
                  mkdatetime 2023 7 9 9 0 0 0] 1 (Some (mkdate 2023 7 9))))
    as (v & Hrun & _ & Hb).
  exists v. split; [exact Hrun |]. apply Hb. discriminate.
Defined.

(** X6: when every checkoff is at most [periodicity] days after the one
    before it, [longest_streak()] is the number of checkoffs; when every
    checkoff is more than [periodicity] days after the one before it (as
    with a negative periodicity and a history in time order), it is 1. *)
Theorem longest_streak_extremes (h : Habit) :
  checkoffs h <> [] ->
  (Forall (fun g => g <= periodicity h) (checkoff_gaps (checkoffs h)) ->
   longest_streak h = Returns (Z.of_nat (length (checkoffs h))) h []) /\
  (Forall (fun g => periodicity h < g) (checkoff_gaps (checkoffs h)) ->
   longest_streak h = Returns 1 h []).
Proof.
  intros Hne. rewrite longest_streak_returns, longest_run_best_run.
  unfold checkoff_gaps.
  destruct (checkoffs h) as [| c cs]; [congruence |]. cbn [map length].
  split; intros Hg.
  - rewrite (best_run_unbroken _ _ _ 1 0 Hg), length_map. do 2 f_equal. lia.
  - rewrite (best_run_all_broken _ _ _ 1 0 ltac:(lia) Hg). reflexivity.
Qed.

(** Three checkoffs on consecutive days: unbroken for periodicity 1, all
    broken for periodicity 0. *)
Lemma longest_streak_extremes_witness :
  longest_streak
    (mkHabit "Read" 1 (mkdatetime 2023 6 1 8 0 0 0)
       [mkdatetime 2023 7 1 9 0 0 0; mkdatetime 2023 7 2 9 0 0 0;
        mkdatetime 2023 7 3 9 0 0 0] 3 (Some (mkdate 2023 7 3)))
  = Returns 3
      (mkHabit "Read" 1 (mkdatetime 2023 6 1 8 0 0 0)
         [mkdatetime 2023 7 1 9 0 0 0; mkdatetime 2023 7 2 9 0 0 0;
          mkdatetime 2023 7 3 9 0 0 0] 3 (Some (mkdate 2023 7 3))) [] /\
  longest_streak
    (mkHabit "Read" 0 (mkdatetime 2023 6 1 8 0 0 0)
       [mkdatetime 2023 7 1 9 0 0 0; mkdatetime 2023 7 2 9 0 0 0;
        mkdatetime 2023 7 3 9 0 0 0] 1 (Some (mkdate 2023 7 3)))
  = Returns 1
      (mkHabit "Read" 0 (mkdatetime 2023 6 1 8 0 0 0)
         [mkdatetime 2023 7 1 9 0 0 0; mkdatetime 2023 7 2 9 0 0 0;
          mkdatetime 2023 7 3 9 0 0 0] 1 (Some (mkdate 2023 7 3))) [].
Proof.
  split.
  - apply (proj1 (longest_streak_extremes
             (mkHabit "Read" 1 (mkdatetime 2023 6 1 8 0 0 0)
                [mkdatetime 2023 7 1 9 0 0 0; mkdatetime 2023 7 2 9 0 0 0;
                 mkdatetime 2023 7 3 9 0 0 0] 3 (Some (mkdate 2023 7 3)))
             ltac:(discriminate))).
    repeat constructor; vm_compute; discriminate.
  - apply (proj2 (longest_streak_extremes
             (mkHabit "Read" 0 (mkdatetime 2023 6 1 8 0 0 0)
                [mkdatetime 2023 7 1 9 0 0 0; mkdatetime 2023 7 2 9 0 0 0;
                 mkdatetime 2023 7 3 9 0 0 0] 1 (Some (mkdate 2023 7 3)))
             ltac:(discriminate))).
    repeat constructor; vm_compute; reflexivity.
Defined.

(** X7: a longer periodicity never shortens the longest streak of a
    history: for two habits with the same checkoffs, the one with the
    larger periodicity has at least the longest streak of the other. *)
Theorem longest_streak_monotone (h h' : Habit) :
  checkoffs h = checkoffs h' -> periodicity h <= periodicity h' ->
  exists v v',
    longest_streak h = Returns v h [] /\
    longest_streak h' = Returns v' h' [] /\
    v <= v'.
Proof.
  intros Hcs Hp. eexists. eexists.
  split; [apply longest_streak_returns |].
  split; [apply longest_streak_returns |].
  rewrite !longest_run_best_run, <- Hcs.
  destruct (map date_of (checkoffs h)) as [| d ds]; [lia |].
  apply best_run_mono; [exact Hp | lia ..].
Qed.

(** Checkoffs every other day, with periodicity 1 and with periodicity 2. *)
Lemma longest_streak_monotone_witness :
  exists v v',
    longest_streak
      (mkHabit "Read" 1 (mkdatetime 2023 6 1 8 0 0 0)
         [mkdatetime 2023 7 1 9 0 0 0; mkdatetime 2023 7 3 9 0 0 0] 1
         (Some (mkdate 2023 7 3)))
    = Returns v
        (mkHabit "Read" 1 (mkdatetime 2023 6 1 8 0 0 0)
           [mkdatetime 2023 7 1 9 0 0 0; mkdatetime 2023 7 3 9 0 0 0] 1
           (Some (mkdate 2023 7 3))) [] /\
    longest_streak
      (mkHabit "Read" 2 (mkdatetime 2023 6 1 8 0 0 0)
         [mkdatetime 2023 7 1 9 0 0 0; mkdatetime 2023 7 3 9 0 0 0] 2
         (Some (mkdate 2023 7 3)))
    = Returns v'
        (mkHabit "Read" 2 (mkdatetime 2023 6 1 8 0 0 0)
           [mkdatetime 2023 7 1 9 0 0 0; mkdatetime 2023 7 3 9 0 0 0] 2
           (Some (mkdate 2023 7 3))) [] /\
    v <= v'.
Proof.
  apply (longest_streak_monotone
           (mkHabit "Read" 1 (mkdatetime 2023 6 1 8 0 0 0)
              [mkdatetime 2023 7 1 9 0 0 0; mkdatetime 2023 7 3 9 0 0 0] 1
              (Some (mkdate 2023 7 3)))
           (mkHabit "Read" 2 (mkdatetime 2023 6 1 8 0 0 0)
              [mkdatetime 2023 7 1 9 0 0 0; mkdatetime 2023 7 3 9 0 0 0] 2
              (Some (mkdate 2023 7 3)))).
  - reflexivity.
  - cbn. lia.
Defined.

(** ** Sequences of checkoffs *)

Section CheckoffRuns.

Lemma checkoff_state (h : Habit) (today : date) (now : datetime) :
  checkoff today now h =
  Returns tt
    (mkHabit (name h) (periodicity h) (created_at h) (checkoffs h ++ [now])
       (match last_checkoff_date h with
        | Some l => if periodicity h <? days_between today l
                    then 0 else streak h
        | None => streak h
        end + 1)
       (Some today)) [].
Proof.
  destruct h as [nm p c cs s [l |]]; unfold checkoff; run; [| reflexivity].
  destruct (p <? days_between today l); reflexivity.
Qed.

Lemma checkoff_run_cons (today : date) (now : datetime)
    (reads : list (date * datetime)) (h h1 : Habit) :
  checkoff today now h = Returns tt h1 [] ->
  checkoff_run ((today, now) :: reads) h = checkoff_run reads h1.
Proof.
  intros H. cbn [checkoff_run]. unfold mbind, M_bind. rewrite H.
  destruct (checkoff_run reads h1) as [[] ? ? |]; reflexivity.
Qed.

Lemma checkoff_run_from (reads : list (date * datetime)) :
  forall h, 0 <= streak h ->
    exists h',
      checkoff_run reads h = Returns tt h' [] /\
      name h' = name h /\ periodicity h' = periodicity h /\
      created_at h' = created_at h /\
      checkoffs h' = checkoffs h ++ map snd reads /\
      last_checkoff_date h' =
        (if reads is [] then last_checkoff_date h else fst <$> last reads) /\
      0 <= streak h' <= streak h + Z.of_nat (length reads) /\
      (reads <> [] -> 1 <= streak h').
Proof.
  induction reads as [| [today now] reads IH]; intros h Hs.
  - exists h. cbn. rewrite app_nil_r. repeat split; try lia. congruence.
  - pose proof (checkoff_state h today now) as Hc.
    set (h1 := mkHabit _ _ _ _ _ _) in Hc.
    assert (Hs1 : 1 <= streak h1 <= streak h + 1).
    { subst h1. cbn [streak]. destruct (last_checkoff_date h) as [l |];
        [destruct (periodicity h <? days_between today l) |]; lia. }
    destruct (IH h1 ltac:(lia)) as (h' & Hrun & Hn & Hp & Hcr & Hck & Hl & Hb & Hpos).
    exists h'. rewrite (checkoff_run_cons today now reads h h1 Hc).
    split; [exact Hrun |]. subst h1.
    cbn [name periodicity created_at checkoffs last_checkoff_date streak] in *.
    repeat split; try assumption; try lia.
    + rewrite Hck, <- app_assoc. reflexivity.
    + rewrite Hl. destruct reads as [| r reads']; [reflexivity |].
      rewrite last_cons_cons. reflexivity.
    + cbn [length]. lia.
    + intros _. destruct reads as [| r reads']; [| apply Hpos; discriminate].
      cbn in Hrun. injection Hrun as <-. cbn [streak]. lia.
Qed.

Lemma checkoff_run_on_time (p : Z) (reads : list (date * datetime)) :
  forall h d,
    periodicity h = p -> last_checkoff_date h = Some d ->
    Forall (fun g => g <= p) (gaps d (map fst reads)) ->
    exists h',
      checkoff_run reads h = Returns tt h' [] /\
      streak h' = streak h + Z.of_nat (length reads).
Proof.
  induction reads as [| [today now] reads IH]; intros h d Hp Hl Hg.
  - exists h. split; [reflexivity | cbn; lia].
  - cbn [map fst gaps] in Hg. inversion Hg as [| ? ? Hd Hrest]; subst.
    pose proof (checkoff_state h today now) as Hc. rewrite Hl in Hc.
    destruct (Z.ltb_spec (periodicity h) (days_between today d)); [lia |].
    set (h1 := mkHabit _ _ _ _ _ _) in Hc.
    destruct (IH h1 today eq_refl eq_refl Hrest) as (h' & Hrun & Hs).
    exists h'. rewrite (checkoff_run_cons today now reads h h1 Hc).
    split; [exact Hrun |]. rewrite Hs. subst h1. cbn [streak length]. lia.
Qed.

End CheckoffRuns.

(** X8: a new habit after any sequence of [checkoff()] calls: the calls
    all return, the history holds one timestamp per call in call order,
    [last_checkoff_date] is the date read by the last call, name,
    periodicity and creation time are untouched, and the streak is between
    0 and the number of calls, at least 1 once there was a call. *)
Theorem checkoff_run_history (nm : string) (p : Z) (created : option datetime)
    (now0 : datetime) (reads : list (date * datetime)) :
  exists h,
    checkoff_run reads (Habit_init nm p created now0) = Returns tt h [] /\
    name h = nm /\ periodicity h = p /\
    created_at h = created_at (Habit_init nm p created now0) /\
    checkoffs h = map snd reads /\
    last_checkoff_date h = fst <$> last reads /\
    0 <= streak h <= Z.of_nat (length reads) /\
    (reads <> [] -> 1 <= streak h).
Proof.
  destruct (checkoff_run_from reads (Habit_init nm p created now0))
    as (h & Hrun & Hn & Hp & Hc & Hck & Hl & Hb & Hpos); [cbn; lia |].
  exists h. cbn [Habit_init name periodicity checkoffs streak
                 last_checkoff_date app] in *.
  repeat split; try assumption; try lia.
  rewrite Hl. destruct reads; reflexivity.
Qed.

(** Two calls on a new habit. *)
Lemma checkoff_run_history_witness :
  exists h,
    checkoff_run
      [(mkdate 2023 7 1, mkdatetime 2023 7 1 9 0 0 0);
       (mkdate 2023 7 5, mkdatetime 2023 7 5 9 0 0 0)]
      (Habit_init "Read" 1 None (mkdatetime 2023 6 1 8 0 0 0))
    = Returns tt h [] /\ 1 <= streak h.
Proof.
  destruct (checkoff_run_history "Read" 1 None (mkdatetime 2023 6 1 8 0 0 0)
              [(mkdate 2023 7 1, mkdatetime 2023 7 1 9 0 0 0);
               (mkdate 2023 7 5, mkdatetime 2023 7 5 9 0 0 0)])
    as (h & Hrun & _ & _ & _ & _ & _ & _ & Hpos).
  exists h. split; [exact Hrun |]. apply Hpos. discriminate.
Defined.

(** X9: when every [checkoff()] of a new habit is made at most
    [periodicity] days after the one before it (dates as read by
    [date.today()]), the streak is the number of calls; several calls on
    one day each count when the periodicity is not negative. *)
Theorem checkoff_run_on_time_streak (nm : string) (p : Z)
    (created : option datetime) (now0 : datetime)
    (today : date) (now : datetime) (reads : list (date * datetime)) :
  Forall (fun g => g <= p) (gaps today (map fst reads)) ->
  exists h,
    checkoff_run ((today, now) :: reads) (Habit_init nm p created now0)
      = Returns tt h [] /\
    streak h = Z.of_nat (length ((today, now) :: reads)).
Proof.
  intros Hg.
  pose proof (checkoff_state (Habit_init nm p created now0) today now) as Hc.
  cbn [Habit_init last_checkoff_date streak name periodicity created_at
       checkoffs app] in Hc.
  set (h1 := mkHabit _ _ _ _ _ _) in Hc.
  destruct (checkoff_run_on_time p reads h1 today eq_refl eq_refl Hg)
    as (h & Hrun & Hs).
  exists h. rewrite (checkoff_run_cons today now reads _ h1 Hc).
  split; [exact Hrun |]. rewrite Hs. subst h1. cbn [streak length]. lia.
Qed.

(** Three calls on 2023-07-01 on a habit of periodicity 0. *)
Lemma checkoff_run_on_time_streak_witness :
  exists h,
    checkoff_run
      [(mkdate 2023 7 1, mkdatetime 2023 7 1 9 0 0 0);
       (mkdate 2023 7 1, mkdatetime 2023 7 1 9 0 0 1);
       (mkdate 2023 7 1, mkdatetime 2023 7 1 21 0 0 0)]
      (Habit_init "Read" 0 None (mkdatetime 2023 6 1 8 0 0 0))
    = Returns tt h [] /\ streak h = 3.
Proof.
  apply (checkoff_run_on_time_streak "Read" 0 None
           (mkdatetime 2023 6 1 8 0 0 0) (mkdate 2023 7 1)
           (mkdatetime 2023 7 1 9 0 0 0)
           [(mkdate 2023 7 1, mkdatetime 2023 7 1 9 0 0 1);
            (mkdate 2023 7 1, mkdatetime 2023 7 1 21 0 0 0)]).
  repeat constructor; vm_compute; discriminate.
Defined.

(** ** Streak queries of the tracker *)

Section StreakQueries.

Lemma set_objs_same (t : HabitTracker) (l : nat) (h : Habit) :
  objs t !! l = Some h -> set_objs (<[l := h]> (objs t)) t = t.
Proof.
  intros Ho. destruct t as [os hs m]. unfold set_objs. cbn in *.
  rewrite (list_insert_id os l h Ho). reflexivity.
Qed.

Lemma on_object_longest_streak (t : HabitTracker) (l : nat) (h : Habit) :
  objs t !! l = Some h ->
  on_object l longest_streak t =
  Returns (longest_run (periodicity h) (checkoffs h)) t [].
Proof.
  intros Ho. unfold on_object. rewrite Ho, longest_streak_returns.
  rewrite (set_objs_same t l h Ho). reflexivity.
Qed.

Lemma longest_streaks_returns (t : HabitTracker) (vs : list nat) :
  (forall l, l ∈ vs -> is_Some (objs t !! l)) ->
  longest_streaks vs t =
  Returns (map (fun h => longest_run (periodicity h) (checkoffs h))
             (omap (fun l => objs t !! l) vs)) t [].
Proof.
  induction vs as [| l vs IH]; intros Hlive; [reflexivity |].
  destruct (Hlive l (list_elem_of_here l vs)) as (h & Ho).
  assert (Hrest : forall l', l' ∈ vs -> is_Some (objs t !! l'))
    by (intros l' Hin; apply Hlive, list_elem_of_further, Hin).
  cbn [longest_streaks]. unfold mbind, M_bind.
  rewrite (on_object_longest_streak t l h Ho), (IH Hrest).
  cbn. rewrite Ho. reflexivity.
Qed.

Lemma py_max_default_ge (l : list Z) (d x : Z) :
  x ∈ l -> x <= py_max_default l d.
Proof.
  destruct l as [| y r]; intros Hin; [apply elem_of_nil in Hin; contradiction |].
  cbn [py_max_default]. rewrite fold_left_max_maximum.
  revert y Hin. induction r as [| z r IH]; intros y Hin; cbn.
  - apply list_elem_of_singleton in Hin. lia.
  - apply elem_of_cons in Hin as [-> | Hin]; [lia |].
    specialize (IH z Hin). lia.
Qed.

Lemma py_max_default_in (l : list Z) (d : Z) :
  l <> [] -> py_max_default l d ∈ l.
Proof.
  destruct l as [| y r]; intros Hne; [congruence |]. clear Hne.
  cbn [py_max_default]. rewrite fold_left_max_maximum.
  revert y. induction r as [| z r IH]; intros y; cbn.
  - apply list_elem_of_here.
  - specialize (IH z).
    destruct (Z.max_spec y (maximum z r)) as [[_ ->] | [_ ->]].
    + apply list_elem_of_further, IH.
    + apply list_elem_of_here.
Qed.

Lemma live_registered (t : HabitTracker) :
  tracker_ok t ->
  forall l, l ∈ dict_values (habits t) -> is_Some (objs t !! l).
Proof.
  intros (H1 & H2 & _) l Hin.
  destruct (dict_values_get l _ H1 Hin) as (nm & Hg).
  destruct (H2 nm l Hg) as (h & _ & Ho & _). eauto.
Qed.

Lemma longest_streak_all_returns (t : HabitTracker) :
  (forall l, l ∈ dict_values (habits t) -> is_Some (objs t !! l)) ->
  longest_streak_all t =
  Returns (py_max_default
             (map (fun h => longest_run (periodicity h) (checkoffs h))
                (registered_habits t)) 0) t [].
Proof.
  intros Hlive. unfold longest_streak_all, mbind, M_bind, gets, mret, M_ret.
  rewrite (longest_streaks_returns t _ Hlive). reflexivity.
Qed.

Lemma longest_run_nonneg (p : Z) (cs : list datetime) : 0 <= longest_run p cs.
Proof.
  rewrite longest_run_best_run. destruct (map date_of cs) as [| d ds]; [lia |].
  pose proof (best_run_bounds p ds d 1 0 ltac:(lia)). lia.
Qed.

End StreakQueries.

(** X10: on a tracker some run has built, [longest_streak_all()] returns
    without changing the tracker; the result is 0 when no habit is
    registered; otherwise it is the longest streak of some registered habit
    and no registered habit has a longer one. *)
Theorem longest_streak_all_spec (t : HabitTracker) :
  reachable t ->
  exists v,
    longest_streak_all t = Returns v t [] /\
    0 <= v /\
    (habits t = [] -> v = 0) /\
    (forall h, h ∈ registered_habits t ->
       exists w, longest_streak h = Returns w h [] /\ w <= v) /\
    (habits t <> [] ->
     exists h, h ∈ registered_habits t /\ longest_streak h = Returns v h []).
Proof.
  intros Hreach. pose proof (reachable_ok t Hreach) as Hok.
  pose proof (live_registered t Hok) as Hlive.
  rewrite (longest_streak_all_returns t Hlive). eexists.
  split; [reflexivity |].
  set (f := fun h : Habit => longest_run (periodicity h) (checkoffs h)).
  assert (Hreg : habits t <> [] -> registered_habits t <> []).
  { destruct (habits t) as [| [nm l] hs] eqn:E; [congruence |]. intros _.
    destruct (Hlive l) as (h & Ho); [apply list_elem_of_here |].
    unfold registered_habits. rewrite E. cbn. rewrite Ho. discriminate. }
  split; [| split; [| split]].
  - destruct (registered_habits t) as [| h hs] eqn:E; [cbn; lia |].
    pose proof (py_max_default_ge (map f (h :: hs)) 0 (f h)
                  (list_elem_of_here _ _)).
    pose proof (longest_run_nonneg (periodicity h) (checkoffs h)).
    unfold f in *. lia.
  - intros Hnil. unfold registered_habits. rewrite Hnil. reflexivity.
  - intros h Hin. exists (f h). split; [apply longest_streak_returns |].
    apply py_max_default_ge, list_elem_of_fmap_2, Hin.
  - intros Hne. specialize (Hreg Hne).
    assert (Hm : map f (registered_habits t) <> [])
      by (destruct (registered_habits t); [congruence | discriminate]).
    pose proof (py_max_default_in _ 0 Hm) as Hin.
    apply list_elem_of_fmap in Hin as (h & Hv & Hh).
    exists h. split; [exact Hh |]. rewrite Hv. apply longest_streak_returns.
Qed.

(** A new tracker, with no habit: the result is 0. *)
Lemma longest_streak_all_spec_witness :
  exists v, longest_streak_all HabitTracker_init
              = Returns v HabitTracker_init [] /\ v = 0.
Proof.
  destruct (longest_streak_all_spec HabitTracker_init)
    as (v & Hrun & _ & Hz & _).
  - exists [], []. reflexivity.
  - exists v. split; [exact Hrun | apply Hz; reflexivity].
Defined.

(** X11: on a tracker some run has built, [longest_streak_for_habit(name)]
    returns without changing the tracker: 0 for a name that is not
    registered, the longest streak of the Habit for one that is; it never
    exceeds [longest_streak_all()]. *)
Theorem longest_streak_for_habit_spec (t : HabitTracker) (nm : string) :
  reachable t ->
  exists v a,
    longest_streak_for_habit nm t = Returns v t [] /\
    longest_streak_all t = Returns a t [] /\
    v <= a /\
    (dict_get nm (habits t) = None -> v = 0) /\
    (forall l h, dict_get nm (habits t) = Some l -> objs t !! l = Some h ->
       longest_streak h = Returns v h []).
Proof.
  intros Hreach. pose proof (reachable_ok t Hreach) as Hok.
  pose proof (live_registered t Hok) as Hlive.
  rewrite (longest_streak_all_returns t Hlive).
  set (f := fun h : Habit => longest_run (periodicity h) (checkoffs h)).
  assert (Hpos : 0 <= py_max_default (map f (registered_habits t)) 0).
  { destruct (registered_habits t) as [| h hs]; [cbn; lia |].
    pose proof (py_max_default_ge (map f (h :: hs)) 0 (f h)
                  (list_elem_of_here _ _)).
    pose proof (longest_run_nonneg (periodicity h) (checkoffs h)).
    unfold f in *. lia. }
  destruct Hok as (H1 & H2 & _).
  unfold longest_streak_for_habit, mbind, M_bind, gets.
  destruct (dict_get nm (habits t)) as [l |] eqn:Hg.
  - destruct (H2 nm l Hg) as (h & _ & Ho & _).
    rewrite (on_object_longest_streak t l h Ho).
    eexists. eexists. split; [reflexivity |]. split; [reflexivity |].
    split; [| split; [discriminate |]].
    + apply (py_max_default_ge (map f (registered_habits t)) 0 (f h)).
      apply list_elem_of_fmap_2. unfold registered_habits.
      apply list_elem_of_omap. exists l.
      split; [apply (dict_get_Some_value nm l _ Hg) | exact Ho].
    + intros l' h' [= <-] Ho'. rewrite Ho in Ho'. injection Ho' as <-.
      apply longest_streak_returns.
  - exists 0. eexists. split; [reflexivity |]. split; [reflexivity |].
    split; [exact Hpos |]. split; [reflexivity | discriminate].
Qed.

(** A tracker holding "Read", asked for "Swim". *)
Lemma longest_streak_for_habit_spec_witness :
  exists v,
    longest_streak_for_habit "Swim"
      (mkHabitTracker
         [Habit_init "Read" 1 None (mkdatetime 2023 7 1 8 0 0 0)]
         [("Read"%string, 0%nat)] {[ 1 := [0%nat] ]})
    = Returns v
        (mkHabitTracker
           [Habit_init "Read" 1 None (mkdatetime 2023 7 1 8 0 0 0)]
           [("Read"%string, 0%nat)] {[ 1 := [0%nat] ]}) [] /\ v = 0.
Proof.
  destruct (longest_streak_for_habit_spec
              (mkHabitTracker
                 [Habit_init "Read" 1 None (mkdatetime 2023 7 1 8 0 0 0)]
                 [("Read"%string, 0%nat)] {[ 1 := [0%nat] ]}) "Swim")
    as (v & a & Hrun & _ & _ & Hz & _).
  - exists [AddHabit "Read" 1 (mkdatetime 2023 7 1 8 0 0 0)], [].
    vm_compute. reflexivity.
  - exists v. split; [exact Hrun | apply Hz; reflexivity].
Defined.

(** ** Saving and loading a tracker *)

Section Persistence.

Variable parse_iso : string -> option datetime.

Lemma on_object_to_dict (t : HabitTracker) (l : nat) (h : Habit) :
  objs t !! l = Some h ->
  on_object l to_dict t =
  Returns (mkHabitDict (name h) (periodicity h) (isoformat (created_at h))
             (map isoformat (checkoffs h))) t [].
Proof.
  intros Ho. unfold on_object. rewrite Ho, to_dict_returns.
  rewrite (set_objs_same t l h Ho). reflexivity.
Qed.

(** The document of a name map: one record per name, in order. *)
Lemma dump_habits_returns (t : HabitTracker) (items : list (string * nat)) :
  forall (acc : document) (hs : list Habit),
    NoDup (map fst items) ->
    (forall nm, nm ∈ map fst items -> dict_get nm acc = None) ->
    Forall2 (fun it h => objs t !! it.2 = Some h) items hs ->
    dump_habits items acc t =
    Returns (acc ++ zip (map fst items)
                      (map (fun h => mkHabitDict (name h) (periodicity h)
                                       (isoformat (created_at h))
                                       (map isoformat (checkoffs h))) hs))
      t [].
Proof.
  induction items as [| [nm l] items IH]; intros acc hs Hnd Hfresh Hall.
  - inversion Hall; subst. cbn. rewrite app_nil_r. reflexivity.
  - inversion Hall as [| ? h ? hs' Ho Hrest]; subst. cbn [snd] in Ho.
    cbn [map fst] in Hnd. apply NoDup_cons in Hnd as [Hnm Hnd].
    cbn [dump_habits]. unfold mbind, M_bind.
    rewrite (on_object_to_dict t l h Ho).
    rewrite (dict_set_fresh nm _ acc)
      by (apply Hfresh; cbn; apply list_elem_of_here).
    rewrite (IH _ hs' Hnd); [| | exact Hrest].
    + cbn [map fst zip zip_with]. rewrite <- app_assoc. reflexivity.
    + intros nm' Hin. apply dict_get_None. rewrite map_app.
      rewrite not_elem_of_app. split.
      * apply dict_get_None, Hfresh. cbn. apply list_elem_of_further, Hin.
      * cbn. intros H. apply list_elem_of_singleton in H. subst nm'.
        contradiction.
Qed.

(** Loading the records of a document: one new object per record. *)
Lemma load_habits_returns (now : datetime) (data : document) :
  forall (acc : list (string * nat)) (t : HabitTracker) (hs : list Habit),
    NoDup (map fst data) ->
    (forall nm, nm ∈ map fst data -> dict_get nm acc = None) ->
    from_dict_all parse_iso (map snd data) now = Some hs ->
    load_habits parse_iso data now acc t =
    Returns (acc ++ zip (map fst data) (seq (length (objs t)) (length data)))
      (set_objs (objs t ++ hs) t) [].
Proof.
  induction data as [| [nm d] data IH]; intros acc t hs Hnd Hfresh Hall.
  - cbn in Hall. injection Hall as <-. cbn. rewrite !app_nil_r.
    destruct t; reflexivity.
  - cbn [map snd from_dict_all] in Hall.
    destruct (Habit_from_dict parse_iso d now) as [h |] eqn:Hd;
      [| discriminate Hall].
    cbn [mbind option_bind] in Hall.
    destruct (from_dict_all parse_iso (map snd data) now) as [hs' |] eqn:Hr;
      [| discriminate Hall].
    cbn in Hall. injection Hall as <-.
    cbn [map fst] in Hnd. apply NoDup_cons in Hnd as [Hnm Hnd].
    cbn [load_habits]. rewrite Hd. runT.
    rewrite (dict_set_fresh nm _ acc)
      by (apply Hfresh; cbn; apply list_elem_of_here).
    rewrite (IH _ _ hs' Hnd); [| | reflexivity].
    + cbn [objs length map fst seq zip zip_with].
      rewrite length_app, <- !app_assoc. cbn [length app].
      replace (length (objs t) + 1)%nat with (S (length (objs t))) by lia.
      destruct t; reflexivity.
    + intros nm' Hin. apply dict_get_None. rewrite map_app.
      rewrite not_elem_of_app. split.
      * apply dict_get_None, Hfresh. cbn. apply list_elem_of_further, Hin.
      * cbn. intros H. apply list_elem_of_singleton in H. subst nm'.
        contradiction.
Qed.

(** A record the parser refuses stops the loading with its error. *)
Lemma load_habits_raises (now : datetime) (data : document) :
  forall (acc : list (string * nat)) (t : HabitTracker),
    from_dict_all parse_iso (map snd data) now = None ->
    load_habits parse_iso data now acc t = Raises ValueError.
Proof.
  induction data as [| [nm d] data IH]; intros acc t Hall.
  - discriminate Hall.
  - cbn [map snd from_dict_all] in Hall. cbn [load_habits].
    destruct (Habit_from_dict parse_iso d now) as [h |]; [| reflexivity].
    cbn [mbind option_bind] in Hall.
    destruct (from_dict_all parse_iso (map snd data) now) as [hs' |] eqn:Hr;
      [discriminate Hall |].
    runT. rewrite IH by reflexivity. reflexivity.
Qed.

(** Where the record of a name ends up: at a new address, as the Habit
    [from_dict] builds from it. *)
Lemma loaded_record (now : datetime) (data : document) (nm : string)
    (rec : HabitDict) :
  forall (os hs : list Habit),
    from_dict_all parse_iso (map snd data) now = Some hs ->
    dict_get nm data = Some rec ->
    exists l h,
      dict_get nm (zip (map fst data) (seq (length os) (length data)))
        = Some l /\
      (length os <= l)%nat /\
      (os ++ hs) !! l = Some h /\
      Habit_from_dict parse_iso rec now = Some h.
Proof.
  induction data as [| [k d] data IH]; intros os hs Hall Hg;
    [discriminate Hg |].
  cbn [map snd from_dict_all] in Hall.
  destruct (Habit_from_dict parse_iso d now) as [h |] eqn:Hd;
    [| discriminate Hall].
  cbn [mbind option_bind] in Hall.
  destruct (from_dict_all parse_iso (map snd data) now) as [hs' |] eqn:Hr;
    [| discriminate Hall].
  cbn in Hall. injection Hall as <-.
  cbn [dict_get] in Hg. cbn [map fst length seq zip zip_with dict_get].
  destruct (String.eqb k nm).
  - injection Hg as <-. exists (length os), h.
    split; [reflexivity |]. split; [lia |].
    split; [apply list_lookup_middle; reflexivity | exact Hd].
  - destruct (IH (os ++ [h]) hs' eq_refl Hg) as (l & h' & Hl & Hle & Ho & Hf).
    rewrite length_app in Hl, Hle. cbn [length] in Hl, Hle.
    replace (length os + 1)%nat with (S (length os)) in Hl by lia.
    exists l, h'. split; [exact Hl |]. split; [lia |].
    split; [rewrite <- app_assoc in Ho; exact Ho | exact Hf].
Qed.

End Persistence.

Section Reindexing.

Lemma map_fst_zip {A B} (l : list A) (k : list B) :
  length l = length k -> map fst (zip l k) = l.
Proof.
  revert k. induction l as [| x l IH]; intros [| y k] H; cbn in *;
    try discriminate; [reflexivity |].
  rewrite IH by lia. reflexivity.
Qed.

Lemma map_snd_zip {A B} (l : list A) (k : list B) :
  length l = length k -> map snd (zip l k) = k.
Proof.
  revert k. induction l as [| x l IH]; intros [| y k] H; cbn in *;
    try discriminate; [reflexivity |].
  rewrite IH by lia. reflexivity.
Qed.

Lemma dict_get_inj {V} (d : list (string * V)) (k1 k2 : string) (v : V) :
  NoDup (map snd d) ->
  dict_get k1 d = Some v -> dict_get k2 d = Some v -> k1 = k2.
Proof.
  induction d as [| [k v'] d IH]; cbn; intros Hnd H1 H2; [discriminate |].
  apply NoDup_cons in Hnd as [Hv Hnd].
  destruct (String.eqb_spec k k1) as [<- | Hne1];
    destruct (String.eqb_spec k k2) as [<- | Hne2]; [reflexivity | | |].
  - injection H1 as ->. apply dict_get_Some_value in H2. contradiction.
  - injection H2 as ->. apply dict_get_Some_value in H1. contradiction.
  - apply (IH Hnd H1 H2).
Qed.

Lemma from_dict_all_length (parse_iso : string -> option datetime)
    (ds : list HabitDict) (now : datetime) (hs : list Habit) :
  from_dict_all parse_iso ds now = Some hs -> length hs = length ds.
Proof.
  revert hs. induction ds as [| d ds IH]; intros hs; cbn.
  - intros [= <-]. reflexivity.
  - destruct (Habit_from_dict parse_iso d now); [| discriminate]. cbn.
    destruct (from_dict_all parse_iso ds now) as [hs' |]; [| discriminate].
    cbn. intros [= <-]. cbn. rewrite (IH hs' eq_refl). reflexivity.
Qed.

Lemma omap_lookup_seq (os hs : list Habit) :
  omap (fun l => (os ++ hs) !! l) (seq (length os) (length hs)) = hs.
Proof.
  revert os. induction hs as [| h hs IH]; intros os; [reflexivity |].
  cbn [length seq omap list_omap].
  rewrite list_lookup_middle by reflexivity.
  specialize (IH (os ++ [h])). rewrite <- app_assoc, length_app in IH.
  cbn [app length] in IH.
  replace (length os + 1)%nat with (S (length os)) in IH by lia.
  cbn. rewrite IH. reflexivity.
Qed.

Lemma index_habits_cons (l : nat) (vs : list nat) (t : HabitTracker)
    (h : Habit) :
  objs t !! l = Some h ->
  index_habits (l :: vs) t =
  index_habits vs
    (mkHabitTracker (objs t) (habits t)
       (<[periodicity h :=
            default [] (habits_by_periodicity t !! periodicity h) ++ [l]]>
          (habits_by_periodicity t))).
Proof.
  intros Ho. cbn [index_habits]. runT. rewrite Ho. runT.
  destruct (habits_by_periodicity t !! periodicity h) as [b |] eqn:E; runT;
    cbn [default from_option id app]; try rewrite insert_insert_eq;
    match goal with
    | |- context [index_habits vs ?s] =>
        destruct (index_habits vs s) as [[] ? ? |]; reflexivity
    end.
Qed.

(** The loop that files the habits [vs]: every bucket gets, after what it
    held, the habits of [vs] of its periodicity, in order. *)
Lemma index_habits_returns (vs : list nat) :
  forall t,
    (forall l, l ∈ vs -> is_Some (objs t !! l)) ->
    exists m',
      index_habits vs t =
        Returns tt (mkHabitTracker (objs t) (habits t) m') [] /\
      (forall p, default [] (m' !! p) =
                 default [] (habits_by_periodicity t !! p)
                 ++ with_periodicity t p vs) /\
      (forall p, m' !! p = None ->
                 habits_by_periodicity t !! p = None) /\
      concat (map snd (map_to_list m')) ≡ₚ bucket_entries t ++ vs.
Proof.
  induction vs as [| l vs IH]; intros t Hlive.
  - exists (habits_by_periodicity t). split; [destruct t; reflexivity |].
    split; [intros p; cbn; rewrite app_nil_r; reflexivity |].
    split; [trivial |]. unfold bucket_entries. rewrite app_nil_r. reflexivity.
  - destruct (Hlive l (list_elem_of_here l vs)) as (h & Ho).
    set (m := habits_by_periodicity t).
    set (m1 := <[periodicity h := default [] (m !! periodicity h) ++ [l]]> m).
    set (t1 := mkHabitTracker (objs t) (habits t) m1).
    destruct (IH t1) as (m' & Hrun & Hb & Hn & Hperm).
    { intros l' Hin. apply Hlive, list_elem_of_further, Hin. }
    exists m'. split; [| split; [| split]].
    + rewrite (index_habits_cons l vs t h Ho). exact Hrun.
    + intros p. rewrite (Hb p). unfold with_periodicity.
      cbn [objs habits_by_periodicity t1 List.filter]. rewrite Ho. subst m1.
      destruct (Z.eqb_spec (periodicity h) p) as [<- | Hne].
      * rewrite lookup_insert_eq. cbn [default from_option id].
        rewrite <- app_assoc. reflexivity.
      * rewrite lookup_insert_ne by exact Hne. reflexivity.
    + intros p Hp. specialize (Hn p Hp). cbn [habits_by_periodicity t1] in Hn.
      subst m1. destruct (decide (periodicity h = p)) as [<- | Hne].
      * rewrite lookup_insert_eq in Hn. discriminate Hn.
      * rewrite lookup_insert_ne in Hn by exact Hne. exact Hn.
    + rewrite Hperm. unfold bucket_entries.
      cbn [habits_by_periodicity t1]. subst m1. rewrite entries_insert.
      fold m. rewrite (entries_lookup m (periodicity h)).
      rewrite <- !app_assoc. apply Permutation_app_head.
      cbn [app]. apply Permutation_middle.
Qed.

End Reindexing.

Lemma load_from_file_rebuilds (parse_iso : string -> option datetime)
    (t : HabitTracker) (now : datetime) (data : document) (hs : list Habit) :
  NoDup (map fst data) ->
  from_dict_all parse_iso (map snd data) now = Some hs ->
  exists t',
    load_from_file parse_iso (Some data) now t = Returns tt t' [] /\
    objs t' = objs t ++ hs /\
    habits t' = zip (map fst data) (seq (length (objs t)) (length data)) /\
    map fst (habits t') = map fst data /\
    registered_habits t' = hs /\
    tracker_ok t' /\ indexes_agree t'.
Proof.
  intros Hnd Hall.
  pose proof (from_dict_all_length _ _ _ _ Hall) as Hlen.
  rewrite length_map in Hlen.
  set (n := length (objs t)).
  set (vs := seq n (length data)).
  set (hs' := zip (map fst data) vs).
  set (t0 := mkHabitTracker (objs t ++ hs) hs' ∅).
  assert (Hvs : dict_values hs' = vs).
  { unfold dict_values, hs'. apply map_snd_zip.
    unfold vs. rewrite length_map, length_seq. reflexivity. }
  assert (Hkeys : map fst hs' = map fst data).
  { unfold hs'. apply map_fst_zip.
    unfold vs. rewrite length_map, length_seq. reflexivity. }
  assert (Hreg : omap (fun l => (objs t ++ hs) !! l) vs = hs).
  { unfold vs, n. rewrite <- Hlen. apply omap_lookup_seq. }
  assert (Hlive : forall l, l ∈ vs -> is_Some (objs t0 !! l)).
  { intros l Hin. apply elem_of_seq in Hin. cbn [objs t0].
    apply lookup_lt_is_Some. rewrite length_app. fold n. lia. }
  destruct (index_habits_returns vs t0 Hlive) as (m' & Hrun & Hb & Hn & Hperm).
  exists (mkHabitTracker (objs t ++ hs) hs' m').
  assert (Hentries : bucket_entries (mkHabitTracker (objs t ++ hs) hs' m')
                     ≡ₚ vs).
  { unfold bucket_entries at 1. cbn [habits_by_periodicity]. rewrite Hperm.
    unfold bucket_entries, t0. cbn [habits_by_periodicity].
    rewrite map_to_list_empty. reflexivity. }
  split; [| split; [reflexivity | split; [reflexivity |
    split; [exact Hkeys | split; [| split]]]]].
  - unfold load_from_file. unfold mbind, M_bind at 1.
    rewrite (load_habits_returns parse_iso now data [] t hs Hnd);
      [| | exact Hall].
    2:{ intros nm _. reflexivity. }
    cbn [app]. fold n vs hs'. runT. rewrite Hvs.
    change (mkHabitTracker (objs t ++ hs) hs' ∅) with t0.
    rewrite Hrun. reflexivity.
  - unfold registered_habits. cbn [objs habits]. rewrite Hvs. exact Hreg.
  - unfold tracker_ok. cbn [objs habits habits_by_periodicity].
    assert (Hfiled : forall l, l ∈ vs ->
              exists h b, (objs t ++ hs) !! l = Some h /\
                          m' !! periodicity h = Some b /\ l ∈ b).
    { intros l Hin. destruct (Hlive l Hin) as (h & Ho). cbn [objs t0] in Ho.
      assert (Hl : l ∈ default [] (m' !! periodicity h)).
      { rewrite Hb. apply elem_of_app. right. unfold with_periodicity.
        apply list_elem_of_In, filter_In. split; [apply list_elem_of_In, Hin |].
        cbn [objs t0]. rewrite Ho. apply Z.eqb_refl. }
      destruct (m' !! periodicity h) as [b |] eqn:E;
        [| apply elem_of_nil in Hl; contradiction].
      exists h, b. repeat split; assumption. }
    split; [rewrite Hkeys; exact Hnd |]. split; [| split].
    + intros nm l Hg. apply Hfiled. rewrite <- Hvs.
      apply (dict_get_Some_value nm l _ Hg).
    + intros p b l Hp Hl.
      assert (Hl' : l ∈ default [] (m' !! p)) by (rewrite Hp; exact Hl).
      rewrite Hb in Hl'. cbn [habits_by_periodicity t0] in Hl'.
      rewrite lookup_empty in Hl'. cbn [default app] in Hl'.
      unfold with_periodicity in Hl'.
      apply list_elem_of_In, filter_In in Hl' as [_ Hper].
      cbn [objs t0] in Hper.
      destruct ((objs t ++ hs) !! l) as [h |]; [| discriminate Hper].
      exists h. split; [reflexivity | apply Z.eqb_eq, Hper].
    + intros nm1 nm2 l. apply dict_get_inj.
      change (map snd hs') with (dict_values hs'). rewrite Hvs.
      apply NoDup_seq.
  - split.
    + unfold bucket_objects, habit_objects. cbn [habits].
      rewrite Hentries, Hvs. reflexivity.
    + rewrite Hentries. apply NoDup_seq.
Qed.

(** X12: [load_from_file] with no file returns and leaves the tracker as
    it was.  With a file, whatever texts [fromisoformat] accepts: when it
    refuses a timestamp of some record the call raises [ValueError]; when
    it accepts them all the call returns a tracker whose names are those of
    the document, in its order, the record of each name bound to a new
    Habit object, the one [from_dict] builds from it; the buckets are
    rebuilt from these habits alone, so the two indexes agree whatever the
    tracker held before. *)
Theorem load_from_file_spec (parse_iso : string -> option datetime)
    (t : HabitTracker) (now : datetime) :
  load_from_file parse_iso None now t = Returns tt t [] /\
  (forall data : document,
     from_dict_all parse_iso (map snd data) now = None ->
     load_from_file parse_iso (Some data) now t = Raises ValueError) /\
  (forall (data : document) (hs : list Habit),
     NoDup (map fst data) ->
     from_dict_all parse_iso (map snd data) now = Some hs ->
     exists t',
       load_from_file parse_iso (Some data) now t = Returns tt t' [] /\
       map fst (habits t') = map fst data /\
       registered_habits t' = hs /\
       (forall nm rec, dict_get nm data = Some rec ->
          exists l h,
            dict_get nm (habits t') = Some l /\
            (length (objs t) <= l)%nat /\
            objs t' !! l = Some h /\
            Habit_from_dict parse_iso rec now = Some h) /\
       tracker_ok t' /\ indexes_agree t').
Proof.
  split; [reflexivity |]. split.
  - intros data Hall. unfold load_from_file, mbind, M_bind at 1.
    rewrite (load_habits_raises parse_iso now data [] t Hall). reflexivity.
  - intros data hs Hnd Hall.
    destruct (load_from_file_rebuilds parse_iso t now data hs Hnd Hall)
      as (t' & Hrun & Hobjs & Hhabits & Hk & Hr & Hok & Hagree).
    exists t'. split; [exact Hrun |]. split; [exact Hk |].
    split; [exact Hr |]. split; [| split; assumption].
    intros nm rec Hg. rewrite Hobjs, Hhabits.
    apply (loaded_record parse_iso now data nm rec (objs t) hs Hall Hg).
Qed.

(** A tracker that holds "Old" loads a file with the one habit "Read". *)
Lemma load_from_file_spec_witness :
  exists t',
    load_from_file fromisoformat
      (Some [("Read"%string,
              mkHabitDict "Read" 1 "2023-06-01T08:00:00"
                ["2023-07-01T09:00:00"%string])])
      (mkdatetime 2023 7 2 8 0 0 0)
      (mkHabitTracker
         [Habit_init "Old" 7 None (mkdatetime 2023 7 1 8 0 0 0)]
         [("Old"%string, 0%nat)] {[ 7 := [0%nat] ]})
    = Returns tt t' [] /\
    map fst (habits t') = ["Read"%string] /\
    registered_habits t' =
      [mkHabit "Read" 1 (mkdatetime 2023 6 1 8 0 0 0)
         [mkdatetime 2023 7 1 9 0 0 0] 0 (Some (mkdate 2023 7 1))].
Proof.
  destruct (proj2 (proj2 (load_from_file_spec fromisoformat
              (mkHabitTracker
                 [Habit_init "Old" 7 None (mkdatetime 2023 7 1 8 0 0 0)]
                 [("Old"%string, 0%nat)] {[ 7 := [0%nat] ]})
              (mkdatetime 2023 7 2 8 0 0 0)))
              [("Read"%string,
                mkHabitDict "Read" 1 "2023-06-01T08:00:00"
                  ["2023-07-01T09:00:00"%string])]
              [mkHabit "Read" 1 (mkdatetime 2023 6 1 8 0 0 0)
                 [mkdatetime 2023 7 1 9 0 0 0] 0 (Some (mkdate 2023 7 1))])
    as (t' & Hrun & Hk & Hr & _).
  - repeat constructor. apply not_elem_of_nil.
  - vm_compute. reflexivity.
  - exists t'. repeat split; assumption.
Defined.

Section SaveLoad.

Variable parse_iso : string -> option datetime.
Hypothesis parse_iso_reads : reads_isoformat parse_iso.

Lemma parse_iso_all_isoformat (ts : list datetime) :
  Forall valid_datetime ts ->
  parse_iso_all parse_iso (map isoformat ts) = Some ts.
Proof.
  induction 1 as [| t ts Ht _ IH]; cbn [map parse_iso_all];
    [reflexivity |].
  rewrite (parse_iso_reads t Ht). cbn [mbind option_bind].
  rewrite IH. reflexivity.
Qed.

Lemma from_dict_to_dict (h : Habit) (now : datetime) :
  valid_habit h ->
  Habit_from_dict parse_iso
    (mkHabitDict (name h) (periodicity h) (isoformat (created_at h))
       (map isoformat (checkoffs h))) now = Some (reloaded h).
Proof.
  intros [Hc Hcs]. unfold Habit_from_dict.
  cbn [d_name d_periodicity d_created_at d_checkoffs].
  rewrite (parse_iso_reads _ Hc). cbn [mbind option_bind].
  rewrite (parse_iso_all_isoformat _ Hcs). cbn [mbind option_bind].
  unfold reloaded. destruct h as [nm p c cs st ld]. cbn.
  destruct cs; reflexivity.
Qed.

Lemma from_dict_all_to_dict (hs : list Habit) (now : datetime) :
  Forall valid_habit hs ->
  from_dict_all parse_iso
    (map (fun h => mkHabitDict (name h) (periodicity h)
                     (isoformat (created_at h))
                     (map isoformat (checkoffs h))) hs) now
  = Some (map reloaded hs).
Proof.
  induction 1 as [| h hs Hh _ IH]; [reflexivity |].
  cbn [map from_dict_all]. rewrite (from_dict_to_dict h now Hh).
  cbn [mbind option_bind]. rewrite IH. reflexivity.
Qed.

Lemma registered_items (os : list Habit) (d : list (string * nat)) :
  (forall l, l ∈ dict_values d -> is_Some (os !! l)) ->
  Forall2 (fun it h => os !! it.2 = Some h) d
    (omap (fun l => os !! l) (dict_values d)).
Proof.
  induction d as [| [nm l] d IH]; intros Hlive; [constructor |].
  destruct (Hlive l) as (h & Ho); [apply list_elem_of_here |].
  cbn. rewrite Ho. constructor; [exact Ho |].
  apply IH. intros l' Hin. apply Hlive, list_elem_of_further, Hin.
Qed.

Lemma save_to_file_returns (t : HabitTracker) :
  well_stored t ->
  save_to_file t =
  Returns (zip (map fst (habits t))
             (map (fun h => mkHabitDict (name h) (periodicity h)
                              (isoformat (created_at h))
                              (map isoformat (checkoffs h)))
                (registered_habits t))) t [].
Proof.
  intros [H1 Hlive].
  unfold save_to_file, mbind, M_bind, gets.
  rewrite (dump_habits_returns t (habits t) [] (registered_habits t) H1).
  - reflexivity.
  - intros nm _. reflexivity.
  - apply registered_items, Hlive.
Qed.

End SaveLoad.

(** The parser this development computes with reads back what
    [isoformat] writes. *)
Lemma fromisoformat_reads_isoformat : reads_isoformat fromisoformat.
Proof. intros t Ht. apply fromisoformat_isoformat, Ht. Qed.

(** [from_dict], with which the claims on a single Habit are stated, is
    [Habit_from_dict] at that parser. *)
Lemma from_dict_Habit_from_dict (data : HabitDict) (now : datetime) :
  from_dict data now = Habit_from_dict fromisoformat data now.
Proof. reflexivity. Qed.

(** Every consistent tracker is well stored. *)
Lemma tracker_ok_well_stored (t : HabitTracker) :
  tracker_ok t -> well_stored t.
Proof.
  intros Hok. split; [apply Hok | apply live_registered, Hok].
Qed.

(** X13: for every tracker whose name map is a dict over stored Habit
    objects with valid timestamps (the trackers built by calls, by
    [load_from_file] and by the start of [cli] are such, also those with a
    replaced Habit left in a bucket), and every parser that reads back what
    [isoformat] writes: [save_to_file] leaves the tracker as it was and
    writes one record per name, in the order of the names; loading the
    document, into any tracker, gives the same names in the same order;
    each Habit comes back with its name, periodicity, creation time and
    checkoffs, the streak at 0 and the last checkoff date taken from the
    history; the loaded tracker is consistent and its buckets hold exactly
    its registered habits. *)
Theorem save_then_load (parse_iso : string -> option datetime)
    (t t0 : HabitTracker) (now : datetime) :
  reads_isoformat parse_iso ->
  well_stored t -> Forall valid_habit (registered_habits t) ->
  exists doc t',
    save_to_file t = Returns doc t [] /\
    map fst doc = map fst (habits t) /\
    load_from_file parse_iso (Some doc) now t0 = Returns tt t' [] /\
    map fst (habits t') = map fst (habits t) /\
    registered_habits t' = map reloaded (registered_habits t) /\
    tracker_ok t' /\ indexes_agree t'.
Proof.
  intros Hreads Hstored Hvalid. pose proof Hstored as [Hnd Hlive].
  rewrite (save_to_file_returns t Hstored). eexists.
  set (rec := fun h : Habit => mkHabitDict _ _ _ _).
  assert (Hlen : length (map fst (habits t))
                 = length (map rec (registered_habits t))).
  { rewrite !length_map.
    apply (Forall2_length _ _ _ (registered_items _ _ Hlive)). }
  assert (Hkeys : map fst (zip (map fst (habits t))
                             (map rec (registered_habits t)))
                  = map fst (habits t)) by (apply map_fst_zip, Hlen).
  destruct (load_from_file_rebuilds parse_iso t0 now
              (zip (map fst (habits t)) (map rec (registered_habits t)))
              (map reloaded (registered_habits t)))
    as (t' & Hrun & _ & _ & Hk & Hr & Hok & Hagree).
  - rewrite Hkeys. exact Hnd.
  - rewrite (map_snd_zip _ _ Hlen).
    apply (from_dict_all_to_dict parse_iso Hreads), Hvalid.
  - exists t'. split; [reflexivity |]. split; [exact Hkeys |].
    split; [exact Hrun |]. split; [congruence |].
    split; [exact Hr |]. split; assumption.
Qed.

(** The tracker after adding "a" twice, whose bucket 1 holds a Habit that
    is not registered: saved and loaded into a new tracker. *)
Lemma save_then_load_witness :
  exists doc t',
    save_to_file
      (mkHabitTracker
         [Habit_init "a" 1 None (mkdatetime 2023 7 1 8 0 0 0);
          Habit_init "a" 1 None (mkdatetime 2023 7 1 8 0 0 1)]
         [("a"%string, 1%nat)] {[ 1 := [0%nat; 1%nat] ]})
    = Returns doc
        (mkHabitTracker
           [Habit_init "a" 1 None (mkdatetime 2023 7 1 8 0 0 0);
            Habit_init "a" 1 None (mkdatetime 2023 7 1 8 0 0 1)]
           [("a"%string, 1%nat)] {[ 1 := [0%nat; 1%nat] ]}) [] /\
    load_from_file fromisoformat (Some doc) (mkdatetime 2023 7 2 8 0 0 0)
      HabitTracker_init
      = Returns tt t' [] /\
    map fst (habits t') = ["a"%string] /\
    indexes_agree t'.
Proof.
  destruct (save_then_load fromisoformat
              (mkHabitTracker
                 [Habit_init "a" 1 None (mkdatetime 2023 7 1 8 0 0 0);
                  Habit_init "a" 1 None (mkdatetime 2023 7 1 8 0 0 1)]
                 [("a"%string, 1%nat)] {[ 1 := [0%nat; 1%nat] ]})
              HabitTracker_init (mkdatetime 2023 7 2 8 0 0 0))
    as (doc & t' & Hsave & _ & Hload & Hk & _ & _ & Hagree).
  - exact fromisoformat_reads_isoformat.
  - split.
    + repeat constructor. apply not_elem_of_nil.
    + intros l Hin. cbn in Hin. apply list_elem_of_singleton in Hin.
      subst l. cbn. eauto.
  - repeat constructor; cbn; lia.
  - exists doc, t'. repeat split; try assumption; apply Hagree.
Defined.

(** * The console *)

Section ConsoleFacts.

Variable strip : string -> string.
Variable lower : string -> string.

Lemma str_in_elem_of (x : string) (l : list string) :
  str_in x l = true <-> x ∈ l.
Proof.
  unfold str_in. rewrite existsb_exists. split.
  - intros (y & Hin & Heq). apply String.eqb_eq in Heq. subst y.
    apply list_elem_of_In, Hin.
  - intros Hin. exists x. split; [apply list_elem_of_In, Hin |].
    apply String.eqb_refl.
Qed.

Lemma ask_questions_count (qs : list string) :
  forall completed inputs c rest out,
    ask_questions strip lower qs completed inputs = Answered c rest out ->
    completed <= c <= completed + Z.of_nat (length qs).
Proof.
  induction qs as [| q qs IH]; intros completed inputs c rest out;
    cbn [ask_questions length].
  - intros [= <- _ _]. lia.
  - destruct (get_user_input strip lower q _ inputs)
      as [response rest1 out1 |]; [| discriminate].
    destruct (ask_questions strip lower qs _ rest1)
      as [c2 rest2 out2 |] eqn:E; cbn [after_output]; [| discriminate].
    intros [= <- _ _]. apply IH in E.
    destruct (String.eqb response "yes"); lia.
Qed.

End ConsoleFacts.

(** X14: [get_user_input] returns the first line typed that, stripped and
    lowered, is one of the valid responses, and returns it in that form:
    what it returns is always a valid response.  For each line before it
    the terminal shows the prompt and the line that lists the valid
    responses.  When no line typed is valid the input runs out and nothing
    is returned. *)
Theorem get_user_input_spec (strip lower : string -> string)
    (prompt : string) (valid : list string) (inputs : list string) :
  match get_user_input strip lower prompt valid inputs with
  | Answered r rest out =>
      r ∈ valid /\
      exists bad line,
        inputs = bad ++ line :: rest /\ r = lower (strip line) /\
        Forall (fun x => lower (strip x) ∉ valid) bad /\
        out = concat (map (fun _ =>
                 [prompt;
                  "Please enter one of the following: " +:+ join ", " valid])
                 bad) ++ [prompt]
  | EndOfInput out =>
      Forall (fun x => lower (strip x) ∉ valid) inputs /\
      out = concat (map (fun _ =>
               [prompt;
                "Please enter one of the following: " +:+ join ", " valid])
               inputs) ++ [prompt]
  end.
Proof.
  induction inputs as [| line rest IH]; cbn [get_user_input].
  - split; [constructor | reflexivity].
  - destruct (str_in (lower (strip line)) valid) eqn:E.
    + split; [apply str_in_elem_of, E |].
      exists [], line. split; [reflexivity |]. split; [reflexivity |].
      split; [constructor | reflexivity].
    + assert (Hbad : lower (strip line) ∉ valid).
      { intros Hin. apply str_in_elem_of in Hin. congruence. }
      destruct (get_user_input strip lower prompt valid rest)
        as [r rest' out | out]; cbn [after_output].
      * destruct IH as (Hr & bad & line' & -> & -> & Hall & ->).
        split; [exact Hr |]. exists (line :: bad), line'.
        split; [reflexivity |]. split; [reflexivity |].
        split; [constructor; assumption | reflexivity].
      * destruct IH as (Hall & ->).
        split; [constructor; assumption | reflexivity].
Qed.

(** X15: the quiz of [cli] asks five questions, so the count of "yes"
    answers is between 0 and 5, and the last line it prints is "Keep
    pushing forward!" for a count up to 3 and "Good job!" for 4 and 5: the
    lines for "Great work!" and "Perfect score!" are never reached, not
    even with five answers "yes". *)
Theorem cli_quiz_encouragement (strip lower : string -> string)
    (inputs : list string) (completed : Z) (rest out : list string) :
  cli_quiz strip lower inputs = Answered completed rest out ->
  0 <= completed <= 5 /\
  last out =
    Some (if completed <=? 3
          then "Keep pushing forward! You can do this."%string
          else "Good job! Keep working on your habits."%string).
Proof.
  unfold cli_quiz. destruct inputs as [| line inputs]; [discriminate |].
  destruct (ask_questions strip lower questions 0 inputs)
    as [c rest' out' |] eqn:E; cbn [after_output]; [| discriminate].
  intros [= <- _ <-]. apply ask_questions_count in E. cbn in E.
  split; [lia |].
  assert (Hlast : forall (l k : list string) x,
            last k = Some x -> last (l ++ k) = Some x)
    by (intros l k x Hk; rewrite last_app, Hk; reflexivity).
  apply (Hlast [_; _]), Hlast. unfold quiz_report.
  apply (Hlast [_]), Hlast.
  destruct (Z.leb_spec c 3); [reflexivity |].
  destruct (Z.leb_spec c 6); [reflexivity | lia].
Qed.

(** The user "Ann" answers "yes" five times. *)
Lemma cli_quiz_encouragement_witness :
  exists rest out,
    cli_quiz id id ["Ann"; "yes"; "yes"; "yes"; "yes"; "yes"]%string
      = Answered 5 rest out /\
    last out = Some "Good job! Keep working on your habits."%string.
Proof.
  eexists. eexists. split; [vm_compute; reflexivity |].
  refine (proj2 (cli_quiz_encouragement id id
                   ["Ann"; "yes"; "yes"; "yes"; "yes"; "yes"]%string 5
                   _ _ _)).
  vm_compute. reflexivity.
Defined.

(** * The start of the program *)

Section Startup.

Lemma sample_habit_fields (nm : string) (p : Z) (cs : list datetime)
    (now : datetime) :
  sample_habit nm p cs now = mkHabit nm p now cs 0 (date_of <$> last cs).
Proof. destruct cs; reflexivity. Qed.

Lemma install_predefined_cons (nm : string) (p : Z) (cs : list datetime)
    (r : list (string * Z * list datetime)) (clock : nat -> datetime)
    (i : nat) (t : HabitTracker) :
  install_predefined ((nm, p, cs) :: r) clock i t =
  install_predefined r clock (S i)
    (mkHabitTracker
       (objs t ++ [sample_habit nm p cs (clock i)])
       (dict_set nm (length (objs t)) (habits t))
       (<[p := default [] (habits_by_periodicity t !! p) ++ [length (objs t)]]>
          (habits_by_periodicity t))).
Proof.
  destruct t as [os hs m]. cbn [install_predefined]. runT.
  destruct (m !! p) as [b |] eqn:E; runT;
    cbn [default from_option id app]; try rewrite insert_insert_eq;
    match goal with
    | |- context [install_predefined r clock (S i) ?s] =>
        destruct (install_predefined r clock (S i) s) as [[] ? ? |];
        reflexivity
    end.
Qed.

(** What the loop over the samples does to a tracker. *)
Lemma install_predefined_spec (items : list (string * Z * list datetime)) :
  forall clock i t,
    NoDup (map fst (habits t)) ->
    exists t',
      install_predefined items clock i t = Returns tt t' [] /\
      NoDup (map fst (habits t')) /\
      (forall l h, objs t !! l = Some h -> objs t' !! l = Some h) /\
      (forall nm, nm ∉ sample_names items ->
         dict_get nm (habits t') = dict_get nm (habits t)) /\
      (forall nm p cs, NoDup (sample_names items) -> (nm, p, cs) ∈ items ->
         exists l c, dict_get nm (habits t') = Some l /\
                     (length (objs t) <= l)%nat /\
                     objs t' !! l = Some (sample_habit nm p cs c)) /\
      (forall q b l, habits_by_periodicity t !! q = Some b -> l ∈ b ->
         exists b', habits_by_periodicity t' !! q = Some b' /\ l ∈ b').
Proof.
  induction items as [| [[nm p] cs] items IH]; intros clock i t Hnd.
  - exists t. split; [reflexivity |]. split; [exact Hnd |].
    split; [trivial |]. split; [trivial |]. split; [| eauto].
    intros nm p cs _ Hin. apply elem_of_nil in Hin. contradiction.
  - rewrite install_predefined_cons.
    set (t1 := mkHabitTracker _ _ _).
    destruct (IH clock (S i) t1) as (t' & Hrun & Hnd' & Hobj & Hother & Hs & Hbk).
    { cbn [habits t1]. apply dict_set_NoDup, Hnd. }
    exists t'. split; [exact Hrun |]. split; [exact Hnd' |].
    split; [| split; [| split]].
    + intros l h Ho. apply Hobj. cbn [objs t1]. apply lookup_app_l_Some, Ho.
    + intros nm' Hnot. cbn [sample_names map fst] in Hnot.
      apply not_elem_of_cons in Hnot as [Hne Hnot].
      rewrite (Hother nm' Hnot). cbn [habits t1].
      apply dict_get_set_ne. congruence.
    + intros nm' p' cs' Hnames Hin. cbn [sample_names map fst] in Hnames.
      apply NoDup_cons in Hnames as [Hfresh Hnames].
      apply elem_of_cons in Hin as [[= -> -> ->] | Hin].
      * exists (length (objs t)), (clock i).
        rewrite (Hother nm Hfresh). cbn [habits t1].
        split; [apply dict_get_set_eq |]. split; [lia |].
        apply Hobj. cbn [objs t1]. apply list_lookup_middle. reflexivity.
      * destruct (Hs nm' p' cs' Hnames Hin) as (l & c & Hg & Hl & Ho).
        exists l, c. split; [exact Hg |]. split; [| exact Ho].
        cbn [objs t1] in Hl. rewrite length_app in Hl. lia.
    + intros q b l Hq Hl.
      destruct (decide (p = q)) as [<- | Hne].
      * apply (Hbk p (b ++ [length (objs t)]) l).
        -- cbn [habits_by_periodicity t1]. rewrite Hq. cbn [default].
           apply lookup_insert_eq.
        -- apply elem_of_app. left. exact Hl.
      * apply (Hbk q b l); [| exact Hl].
        cbn [habits_by_periodicity t1]. rewrite lookup_insert_ne by exact Hne.
        exact Hq.
Qed.

Lemma predefined_names_NoDup : NoDup (sample_names predefined_habits).
Proof.
  apply (bool_decide_unpack (NoDup (sample_names predefined_habits))).
  vm_compute. exact I.
Qed.

(** Storing a new Habit under a name and appending it to the bucket of
    its periodicity keeps the tracker consistent. *)
Lemma store_habit_ok (t : HabitTracker) (nm : string) (h0 : Habit) :
  tracker_ok t ->
  tracker_ok
    (mkHabitTracker (objs t ++ [h0])
       (dict_set nm (length (objs t)) (habits t))
       (<[periodicity h0 :=
            default [] (habits_by_periodicity t !! periodicity h0)
            ++ [length (objs t)]]> (habits_by_periodicity t))).
Proof.
  intros Hok.
  assert (Hb : forall nm' l, dict_get nm' (habits t) = Some l ->
                 (l < length (objs t))%nat)
    by (intros nm' l; apply tracker_ok_bound, Hok).
  destruct Hok as (H1 & H2 & H3 & H4).
  set (p := periodicity h0).
  set (l0 := length (objs t)) in *.
  set (b0 := default [] (habits_by_periodicity t !! p)).
  unfold tracker_ok. cbn [objs habits habits_by_periodicity].
  split; [apply dict_set_NoDup, H1 |]. split; [| split].
  - intros nm' l Hg. destruct (decide (nm = nm')) as [<- | Hne].
    + rewrite dict_get_set_eq in Hg. injection Hg as <-.
      exists h0, (b0 ++ [l0]).
      split; [apply list_lookup_middle; reflexivity |].
      fold p. rewrite lookup_insert_eq.
      split; [reflexivity |]. apply elem_of_app. right. apply list_elem_of_here.
    + rewrite dict_get_set_ne in Hg by exact Hne.
      destruct (H2 nm' l Hg) as (h & b & Ho & Hbk & Hin).
      destruct (decide (periodicity h = p)) as [Hp | Hp].
      * exists h, (b0 ++ [l0]). split; [apply lookup_app_l_Some, Ho |].
        rewrite Hp, lookup_insert_eq. split; [reflexivity |].
        apply elem_of_app. left. subst b0. rewrite <- Hp, Hbk. exact Hin.
      * exists h, b. split; [apply lookup_app_l_Some, Ho |].
        rewrite lookup_insert_ne by congruence. split; assumption.
  - intros q b l Hq Hin. destruct (decide (p = q)) as [<- | Hne].
    + rewrite lookup_insert_eq in Hq. injection Hq as <-.
      apply elem_of_app in Hin as [Hin | Hin].
      * subst b0. destruct (habits_by_periodicity t !! p) as [b |] eqn:E;
          cbn [default] in Hin; [| apply elem_of_nil in Hin; contradiction].
        destruct (H3 p b l E Hin) as (h & Ho & Hp).
        exists h. split; [apply lookup_app_l_Some, Ho | exact Hp].
      * apply list_elem_of_singleton in Hin. subst l.
        exists h0. split; [apply list_lookup_middle; reflexivity | reflexivity].
    + rewrite lookup_insert_ne in Hq by exact Hne.
      destruct (H3 q b l Hq Hin) as (h & Ho & Hp).
      exists h. split; [apply lookup_app_l_Some, Ho | exact Hp].
  - intros nm1 nm2 l Hg1 Hg2.
    destruct (decide (nm = nm1)) as [<- | Hne1];
      destruct (decide (nm = nm2)) as [<- | Hne2]; [reflexivity | | |].
    + rewrite dict_get_set_eq in Hg1. injection Hg1 as <-.
      rewrite dict_get_set_ne in Hg2 by exact Hne2.
      apply Hb in Hg2. lia.
    + rewrite dict_get_set_eq in Hg2. injection Hg2 as <-.
      rewrite dict_get_set_ne in Hg1 by exact Hne1.
      apply Hb in Hg1. lia.
    + rewrite dict_get_set_ne in Hg1, Hg2 by assumption.
      apply (H4 nm1 nm2 l Hg1 Hg2).
Qed.

(** The loop over the samples keeps the tracker consistent. *)
Lemma install_predefined_ok (items : list (string * Z * list datetime)) :
  forall clock i t t',
    tracker_ok t ->
    install_predefined items clock i t = Returns tt t' [] ->
    tracker_ok t'.
Proof.
  induction items as [| [[nm p] cs] items IH]; intros clock i t t' Hok Hrun.
  - cbn in Hrun. injection Hrun as <-. exact Hok.
  - rewrite install_predefined_cons in Hrun.
    pose proof (store_habit_ok t nm (sample_habit nm p cs (clock i)) Hok)
      as Hok1.
    assert (Hp : periodicity (sample_habit nm p cs (clock i)) = p)
      by (rewrite sample_habit_fields; reflexivity).
    rewrite Hp in Hok1.
    apply (IH clock (S i) _ t' Hok1 Hrun).
Qed.

(** The start of [cli] on a tracker [t1] that the file has been loaded
    into. *)
Lemma install_after_load (t1 : HabitTracker) (clock : nat -> datetime) :
  tracker_ok t1 ->
  exists t,
    install_predefined predefined_habits clock 0 t1 = Returns tt t [] /\
    tracker_ok t /\
    (forall l h, objs t1 !! l = Some h -> objs t !! l = Some h) /\
    (forall nm p cs, (nm, p, cs) ∈ predefined_habits ->
       exists l c, dict_get nm (habits t) = Some l /\
         objs t !! l = Some (mkHabit nm p c cs 0 (date_of <$> last cs))) /\
    (forall nm, nm ∉ sample_names predefined_habits ->
       dict_get nm (habits t) = dict_get nm (habits t1)) /\
    (forall nm l0, nm ∈ sample_names predefined_habits ->
       dict_get nm (habits t1) = Some l0 -> orphan t l0).
Proof.
  intros Hok. pose proof Hok as (H1 & H2 & H3 & H4).
  destruct (install_predefined_spec predefined_habits clock 0 t1 H1)
    as (t & Hrun & Hnd & Hobj & Hother & Hs & Hbk).
  exists t. split; [exact Hrun |].
  split; [apply (install_predefined_ok _ _ _ _ _ Hok Hrun) |].
  split; [exact Hobj |]. split; [| split; [exact Hother |]].
  - intros nm p cs Hin.
    destruct (Hs nm p cs predefined_names_NoDup Hin) as (l & c & Hg & _ & Ho).
    exists l, c. rewrite sample_habit_fields in Ho. split; assumption.
  - intros nm l0 Hnm Hg0.
    destruct (H2 nm l0 Hg0) as (h & b & Ho & Hb & Hl).
    destruct (Hbk _ b l0 Hb Hl) as (b' & Hb' & Hl').
    split; [eauto |]. intros Hin.
    destruct (dict_values_get l0 _ Hnd Hin) as (nm' & Hg').
    assert (Hsample : exists p cs, (nm, p, cs) ∈ predefined_habits).
    { unfold sample_names in Hnm. apply list_elem_of_fmap in Hnm
        as ([[nm1 p] cs] & -> & Hin1). eauto. }
    destruct Hsample as (p & cs & Hin1).
    destruct (Hs nm p cs predefined_names_NoDup Hin1) as (l & c & Hg & Hl1 & _).
    apply lookup_lt_Some in Ho.
    destruct (decide (nm' ∈ sample_names predefined_habits)) as [Hyes | Hno].
    + unfold sample_names in Hyes. apply list_elem_of_fmap in Hyes
        as ([[nm2 p2] cs2] & -> & Hin2). cbn [fst] in Hg'.
      destruct (Hs nm2 p2 cs2 predefined_names_NoDup Hin2)
        as (l2 & c2 & Hg2 & Hl2 & _).
      rewrite Hg2 in Hg'. injection Hg' as ->. lia.
    + rewrite (Hother nm' Hno) in Hg'.
      pose proof (H4 nm nm' l0 Hg0 Hg'). subst nm'. contradiction.
Qed.

(** A tracker with an orphan has two indexes that disagree. *)
Lemma orphan_indexes_disagree (t : HabitTracker) (l : nat) :
  orphan t l -> ~ indexes_agree t.
Proof.
  intros [(p & b & Hp & Hl) Hout] [Heq _].
  assert (Hin : l ∈ bucket_objects t).
  { unfold bucket_objects. apply elem_of_list_to_set.
    apply elem_of_bucket_entries. eauto. }
  rewrite Heq in Hin. unfold habit_objects in Hin.
  apply elem_of_list_to_set in Hin. contradiction.
Qed.

End Startup.

(** X16: the start of [cli] (loading the file, then the loop over
    [predefined_habits]), when there is no file or a file of which
    [fromisoformat], whatever texts it accepts, accepts every timestamp,
    returns a consistent tracker.  In it each of the five sample names is
    bound to the sample Habit (its fixed checkoffs, streak 0), whatever the
    file held under that name; every other name of the file is bound to
    the Habit [from_dict] builds from its record; and for each sample name
    the file holds, the Habit built from the file's record is still stored
    and listed in a bucket although no name is bound to it, so that the
    two indexes disagree. *)
Theorem cli_startup_installs_samples (parse_iso : string -> option datetime)
    (file : option document) (now : datetime) (clock : nat -> datetime) :
  (forall data, file = Some data ->
     NoDup (map fst data) /\
     exists hs, from_dict_all parse_iso (map snd data) now = Some hs) ->
  exists t,
    cli_startup parse_iso file now clock HabitTracker_init
      = Returns tt t [] /\
    tracker_ok t /\
    (forall nm p cs, (nm, p, cs) ∈ predefined_habits ->
       exists l c, dict_get nm (habits t) = Some l /\
         objs t !! l = Some (mkHabit nm p c cs 0 (date_of <$> last cs))) /\
    (forall data nm, file = Some data -> nm ∈ map fst data ->
       is_Some (dict_get nm (habits t))) /\
    (forall data nm rec, file = Some data -> dict_get nm data = Some rec ->
       nm ∉ sample_names predefined_habits ->
       exists l h, dict_get nm (habits t) = Some l /\
         objs t !! l = Some h /\
         Habit_from_dict parse_iso rec now = Some h) /\
    (forall data nm rec, file = Some data -> dict_get nm data = Some rec ->
       nm ∈ sample_names predefined_habits ->
       exists l h, Habit_from_dict parse_iso rec now = Some h /\
         objs t !! l = Some h /\ orphan t l) /\
    (forall data nm, file = Some data -> nm ∈ map fst data ->
       nm ∈ sample_names predefined_habits -> ~ indexes_agree t).
Proof.
  intros Hfile.
  assert (Hload : exists t1,
            load_from_file parse_iso file now HabitTracker_init
              = Returns tt t1 [] /\
            tracker_ok t1 /\
            (forall data, file = Some data ->
               map fst (habits t1) = map fst data) /\
            (forall data nm rec, file = Some data ->
               dict_get nm data = Some rec ->
               exists l h, dict_get nm (habits t1) = Some l /\
                 objs t1 !! l = Some h /\
                 Habit_from_dict parse_iso rec now = Some h)).
  { destruct file as [data |].
    - destruct (Hfile data eq_refl) as (Hnd & hs & Hall).
      destruct (load_from_file_rebuilds parse_iso HabitTracker_init now
                  data hs Hnd Hall)
        as (t1 & Hrun & Hobjs & Hhabits & Hk & _ & Hok & _).
      exists t1. split; [exact Hrun |]. split; [exact Hok |]. split.
      + intros data' [= <-]. exact Hk.
      + intros data' nm rec [= <-] Hg. rewrite Hobjs, Hhabits.
        destruct (loaded_record parse_iso now data nm rec
                    (objs HabitTracker_init) hs Hall Hg)
          as (l & h & Hl & _ & Ho & Hf).
        exists l, h. repeat split; assumption.
    - exists HabitTracker_init. split; [reflexivity |].
      split; [apply tracker_ok_init |]. split; discriminate. }
  destruct Hload as (t1 & Hrun1 & Hok & Hkeys & Hrecs).
  destruct (install_after_load t1 clock Hok)
    as (t & Hrun & Hok' & Hobj & Hsamples & Hother & Horph).
  assert (Hbound : forall data nm, file = Some data -> nm ∈ map fst data ->
            is_Some (dict_get nm (habits t1))).
  { intros data nm Hf Hin. rewrite <- (Hkeys data Hf) in Hin.
    destruct (dict_get nm (habits t1)) as [l |] eqn:E; [eauto |].
    apply dict_get_None in E. contradiction. }
  exists t. split; [| split; [exact Hok' | split; [exact Hsamples |
    split; [| split; [| split]]]]].
  - unfold cli_startup, mbind, M_bind. rewrite Hrun1, Hrun. reflexivity.
  - intros data nm Hf Hin.
    destruct (decide (nm ∈ sample_names predefined_habits)) as [Hyes | Hno].
    + unfold sample_names in Hyes. apply list_elem_of_fmap in Hyes
        as ([[nm2 p2] cs2] & -> & Hin2).
      destruct (Hsamples nm2 p2 cs2 Hin2) as (l & c & Hg & _). eauto.
    + rewrite (Hother nm Hno). apply (Hbound data nm Hf Hin).
  - intros data nm rec Hf Hg Hno.
    destruct (Hrecs data nm rec Hf Hg) as (l & h & Hl & Ho & Hfd).
    exists l, h. rewrite (Hother nm Hno).
    split; [exact Hl |]. split; [apply Hobj, Ho | exact Hfd].
  - intros data nm rec Hf Hg Hyes.
    destruct (Hrecs data nm rec Hf Hg) as (l & h & Hl & Ho & Hfd).
    exists l, h. split; [exact Hfd |]. split; [apply Hobj, Ho |].
    apply (Horph nm l Hyes Hl).
  - intros data nm Hf Hin Hyes.
    destruct (Hbound data nm Hf Hin) as (l & Hl).
    apply (orphan_indexes_disagree t l (Horph nm l Hyes Hl)).
Qed.

(** A file that holds "Exercise" with one checkoff of 2024, loaded at the
    start: "Exercise" is bound to the sample again, and the Habit of the
    file is left in a bucket. *)
Lemma cli_startup_installs_samples_witness :
  exists t l,
    cli_startup fromisoformat
      (Some [("Exercise"%string,
              mkHabitDict "Exercise" 1 "2023-06-01T08:00:00"
                ["2024-01-05T09:00:00"%string])])
      (mkdatetime 2024 1 6 8 0 0 0)
      (fun _ => mkdatetime 2024 1 6 8 0 0 0) HabitTracker_init
    = Returns tt t [] /\
    objs t !! l =
      Some (mkHabit "Exercise" 1 (mkdatetime 2023 6 1 8 0 0 0)
              [mkdatetime 2024 1 5 9 0 0 0] 0 (Some (mkdate 2024 1 5))) /\
    orphan t l.
Proof.
  destruct (cli_startup_installs_samples fromisoformat
              (Some [("Exercise"%string,
                      mkHabitDict "Exercise" 1 "2023-06-01T08:00:00"
                        ["2024-01-05T09:00:00"%string])])
              (mkdatetime 2024 1 6 8 0 0 0)
              (fun _ => mkdatetime 2024 1 6 8 0 0 0))
    as (t & Hrun & _ & _ & _ & _ & Horph & _).
  - intros data [= <-]. split.
    + repeat constructor. apply not_elem_of_nil.
    + eexists. vm_compute. reflexivity.
  - destruct (Horph _ "Exercise"%string _ eq_refl eq_refl)
      as (l & h & Hfd & Ho & Hor).
    + cbn. apply list_elem_of_further, list_elem_of_here.
    + exists t, l. split; [exact Hrun |]. split; [| exact Hor].
      rewrite Ho. f_equal. vm_compute in Hfd. injection Hfd as <-.
      reflexivity.
Defined.

(** * Struggling habits after add_habit and checkoff_habit *)

Section StruggledAfter.

Lemma run_call_names_match (c : call) (t t' : HabitTracker)
    (out : list string) :
  tracker_ok t -> names_match t ->
  run_call c t = Returns tt t' out -> names_match t'.
Proof.
  intros Hok Hnm Hrun. pose proof Hok as (H1 & H2 & H3 & H4).
  destruct c as [nm p now | nm | nm today now | p]; cbn [run_call] in Hrun.
  - rewrite add_habit_returns in Hrun. injection Hrun as <- _.
    intros nm' l h Hg Ho. cbn [objs habits] in *.
    destruct (decide (nm = nm')) as [<- | Hne].
    + rewrite dict_get_set_eq in Hg. injection Hg as <-.
      rewrite list_lookup_middle in Ho by reflexivity.
      injection Ho as <-. reflexivity.
    + rewrite dict_get_set_ne in Hg by exact Hne.
      destruct (H2 nm' l Hg) as (h0 & _ & Ho0 & _).
      rewrite (lookup_app_l_Some _ _ _ _ Ho0) in Ho. injection Ho as <-.
      apply (Hnm nm' l h0 Hg Ho0).
  - destruct (dict_get nm (habits t)) as [l |] eqn:Hg.
    2:{ rewrite (delete_habit_absent t nm Hg) in Hrun.
        injection Hrun as <- _. exact Hnm. }
    destruct (H2 nm l Hg) as (h & b & Ho & Hbk & Hin).
    destruct (list_remove_Some l b Hin) as (b' & Hr).
    rewrite (delete_habit_present t nm l h b b' Hg Ho Hbk Hr) in Hrun.
    injection Hrun as <- _.
    intros nm' l' h' Hg' Ho'. cbn [objs habits] in *.
    destruct (decide (nm = nm')) as [<- | Hne].
    + rewrite dict_get_pop_eq in Hg' by exact H1. discriminate Hg'.
    + rewrite dict_get_pop_ne in Hg' by exact Hne.
      apply (Hnm nm' l' h' Hg' Ho').
  - destruct (dict_get nm (habits t)) as [l |] eqn:Hg.
    2:{ rewrite (checkoff_habit_absent t nm today now Hg) in Hrun.
        injection Hrun as <- _. exact Hnm. }
    destruct (H2 nm l Hg) as (h & b & Ho & _).
    pose proof (checkoff_state h today now) as Hc.
    rewrite (checkoff_habit_present t nm l h _ today now Hg Ho Hc) in Hrun.
    injection Hrun as <- _.
    intros nm' l' h' Hg' Ho'. cbn [objs habits] in *.
    destruct (decide (l = l')) as [<- | Hne].
    + rewrite list_lookup_insert_eq in Ho' by (eapply lookup_lt_Some, Ho).
      injection Ho' as <-. cbn [name]. apply (Hnm nm' l h Hg' Ho).
    + rewrite list_lookup_insert_ne in Ho' by exact Hne.
      apply (Hnm nm' l' h' Hg' Ho').
  - unfold mbind, M_bind in Hrun.
    rewrite get_habits_by_periodicity_returns in Hrun. cbn in Hrun.
    injection Hrun as <- _.
    destruct (habits_by_periodicity t !! p); exact Hnm.
Qed.

Lemma run_calls_names_match (cs : list call) :
  forall t t' out,
    tracker_ok t -> names_match t ->
    run_calls cs t = Returns tt t' out -> names_match t'.
Proof.
  induction cs as [| c cs IH]; intros t t' out Hok Hnm Hrun.
  - cbn in Hrun. injection Hrun as <- _. exact Hnm.
  - destruct (run_call_ok c t Hok) as (t1 & o1 & H1 & Hok1).
    cbn [run_calls] in Hrun. unfold mbind, M_bind in Hrun.
    rewrite H1 in Hrun.
    destruct (run_calls cs t1) as [[] t2 o2 |] eqn:E; [| discriminate Hrun].
    injection Hrun as <- _.
    apply (IH t1 t2 o2 Hok1); [| exact E].
    apply (run_call_names_match c t t1 o1 Hok Hnm H1).
Qed.

Lemma reachable_names_match (t : HabitTracker) :
  reachable t -> names_match t.
Proof.
  intros (cs & out & Hrun).
  apply (run_calls_names_match cs _ t out tracker_ok_init); [| exact Hrun].
  intros nm l h Hg. discriminate Hg.
Qed.

Lemma habits_struggled_returns (t : HabitTracker) (today : date) :
  tracker_ok t -> valid_date today -> 30 < toordinal today ->
  exists d,
    valid_date d /\ toordinal d = toordinal today - 30 /\
    habits_struggled_last_month today t =
    Returns (map name (List.filter (struggled d) (registered_habits t))) t [].
Proof.
  intros Hok Hv Hord.
  destruct (date_sub_days_spec 30 today Hv ltac:(lia)) as (d & Hsub & Hvd & Hod).
  exists d. split; [exact Hvd |]. split; [lia |].
  unfold habits_struggled_last_month. rewrite Hsub. runT.
  rewrite (struggled_loop_returns d t _ [] (live_registered t Hok)).
  reflexivity.
Qed.

Lemma registered_habit_elem (t : HabitTracker) (h : Habit) :
  tracker_ok t ->
  h ∈ registered_habits t <->
  exists nm l, dict_get nm (habits t) = Some l /\ objs t !! l = Some h.
Proof.
  intros (H1 & _). unfold registered_habits. rewrite list_elem_of_omap. split.
  - intros (l & Hin & Ho). destruct (dict_values_get l _ H1 Hin) as (nm & Hg).
    eauto.
  - intros (nm & l & Hg & Ho). exists l.
    split; [apply (dict_get_Some_value nm l _ Hg) | exact Ho].
Qed.

End StruggledAfter.

(** X17: on a tracker some run has built, a habit that has just been
    added is reported by [habits_struggled_last_month()], on whatever day
    it is asked (from 0001-01-31 on, where [today - 30 days] exists). *)
Theorem added_habit_struggles (t : HabitTracker) (nm : string) (p : Z)
    (now : datetime) (today : date) :
  reachable t -> valid_date today -> 30 < toordinal today ->
  exists t1 names,
    add_habit nm p now t = Returns tt t1 [] /\
    habits_struggled_last_month today t1 = Returns names t1 [] /\
    nm ∈ names.
Proof.
  intros Hreach Hv Hord. pose proof (reachable_ok t Hreach) as Hok.
  destruct (add_habit_ok t nm p now Hok) as (t1 & Hrun & Hok1).
  destruct (habits_struggled_returns t1 today Hok1 Hv Hord)
    as (d & _ & _ & Hs).
  exists t1. eexists. split; [exact Hrun |]. split; [exact Hs |].
  rewrite add_habit_returns in Hrun. injection Hrun as <-.
  apply list_elem_of_In, in_map_iff. exists (Habit_init nm p None now).
  split; [reflexivity |]. apply filter_In. split; [| reflexivity].
  apply list_elem_of_In, (registered_habit_elem _ _ Hok1).
  exists nm, (length (objs t)). cbn [objs habits].
  split; [apply dict_get_set_eq | apply list_lookup_middle; reflexivity].
Qed.

(** "Read" is added to a new tracker; the report of 2023-08-01. *)
Lemma added_habit_struggles_witness :
  exists t1 names,
    add_habit "Read" 1 (mkdatetime 2023 7 1 8 0 0 0) HabitTracker_init
      = Returns tt t1 [] /\
    habits_struggled_last_month (mkdate 2023 8 1) t1 = Returns names t1 [] /\
    "Read"%string ∈ names.
Proof.
  apply (added_habit_struggles HabitTracker_init "Read" 1
           (mkdatetime 2023 7 1 8 0 0 0) (mkdate 2023 8 1)).
  - exists [], []. reflexivity.
  - cbv [valid_date]. cbn. lia.
  - vm_compute. reflexivity.
Defined.

(** X18: on a tracker some run has built, after [checkoff_habit(name)] the
    name is not reported by [habits_struggled_last_month()] on any day up
    to 30 days after the date of the timestamp just recorded. *)
Theorem checked_off_habit_does_not_struggle (t : HabitTracker) (nm : string)
    (today : date) (now : datetime) (day : date) :
  reachable t -> is_Some (dict_get nm (habits t)) ->
  valid_date (date_of now) -> valid_date day -> 30 < toordinal day ->
  days_between day (date_of now) <= 30 ->
  exists t1 names,
    checkoff_habit nm today now t = Returns tt t1 [] /\
    habits_struggled_last_month day t1 = Returns names t1 [] /\
    nm ∉ names.
Proof.
  intros Hreach [l Hg] Hvn Hv Hord Hdays.
  pose proof (reachable_ok t Hreach) as Hok.
  pose proof (reachable_names_match t Hreach) as Hnm.
  pose proof Hok as (H1 & H2 & H3 & H4).
  destruct (H2 nm l Hg) as (h & b & Ho & _).
  pose proof (checkoff_state h today now) as Hc.
  pose proof (checkoff_habit_present t nm l h _ today now Hg Ho Hc) as Hrun.
  set (h1 := mkHabit _ _ _ _ _ _) in *.
  set (t1 := mkHabitTracker _ _ _) in Hrun.
  assert (Hok1 : tracker_ok t1).
  { destruct (checkoff_habit_ok t nm today now Hok) as (t' & o & Hr & Hok').
    rewrite Hrun in Hr. injection Hr as <- _. exact Hok'. }
  assert (Hnm1 : names_match t1)
    by apply (run_call_names_match (CheckoffHabit nm today now) t t1 []
                Hok Hnm Hrun).
  destruct (habits_struggled_returns t1 day Hok1 Hv Hord)
    as (d & Hvd & Hod & Hs).
  exists t1. eexists. split; [exact Hrun |]. split; [exact Hs |].
  intros Hin. apply list_elem_of_In, in_map_iff in Hin as (h' & Hname & Hf).
  apply filter_In in Hf as [Hreg Hstr].
  apply list_elem_of_In, (registered_habit_elem _ _ Hok1) in Hreg
    as (nm' & l' & Hg' & Ho').
  pose proof (Hnm1 nm' l' h' Hg' Ho') as Hn. rewrite Hname in Hn. subst nm'.
  cbn [habits t1] in Hg'. rewrite Hg in Hg'. injection Hg' as <-.
  cbn [objs t1] in Ho'.
  rewrite list_lookup_insert_eq in Ho' by (eapply lookup_lt_Some, Ho).
  injection Ho' as <-.
  unfold struggled, h1 in Hstr. cbn [checkoffs] in Hstr.
  rewrite last_snoc in Hstr.
  rewrite (date_ltb_toordinal _ _ Hvn Hvd) in Hstr.
  apply Z.ltb_lt in Hstr. unfold days_between in Hdays. lia.
Qed.

(** "Read" is checked off on 2023-07-02; the report of 2023-08-01, 30
    days later. *)
Lemma checked_off_habit_does_not_struggle_witness :
  exists t1 names,
    checkoff_habit "Read" (mkdate 2023 7 2) (mkdatetime 2023 7 2 9 0 0 0)
      (mkHabitTracker
         [Habit_init "Read" 1 None (mkdatetime 2023 7 1 8 0 0 0)]
         [("Read"%string, 0%nat)] {[ 1 := [0%nat] ]})
    = Returns tt t1 [] /\
    habits_struggled_last_month (mkdate 2023 8 1) t1 = Returns names t1 [] /\
    "Read"%string ∉ names.
Proof.
  apply (checked_off_habit_does_not_struggle
           (mkHabitTracker
              [Habit_init "Read" 1 None (mkdatetime 2023 7 1 8 0 0 0)]
              [("Read"%string, 0%nat)] {[ 1 := [0%nat] ]})
           "Read" (mkdate 2023 7 2) (mkdatetime 2023 7 2 9 0 0 0)
           (mkdate 2023 8 1)).
  - exists [AddHabit "Read" 1 (mkdatetime 2023 7 1 8 0 0 0)], [].
    vm_compute. reflexivity.
  - eexists. reflexivity.
  - cbv [valid_date]. cbn. lia.
  - cbv [valid_date]. cbn. lia.
  - vm_compute. reflexivity.
  - vm_compute. discriminate.
Defined.

(** * Streaks of a habit that comes from a file *)

Section LoadedStreaks.

Lemma streak_within_history_reloaded (h : Habit) :
  streak_within_history (reloaded h).
Proof.
  unfold streak_within_history, reloaded.
  cbn [checkoffs periodicity streak last_checkoff_date].
  destruct (checkoffs h) as [| c cs] eqn:E; [split; reflexivity |].
  cbn [map]. split.
  - destruct (walk_pairs_best_run (periodicity h) (map date_of cs)
                (date_of c) 1 [] ltac:(lia)) as [H1 _]. lia.
  - assert (Hl : last (c :: cs) = Some (default c (last cs))).
    { destruct cs as [| c' cs']; [reflexivity |]. rewrite last_cons_cons.
      destruct (last (c' :: cs')) eqn:E'; [reflexivity |].
      apply last_None in E'. discriminate E'. }
    rewrite Hl. cbn. f_equal.
    destruct (last cs) as [x |] eqn:E'; cbn.
    + rewrite fmap_last, E'. reflexivity.
    + apply last_None in E'. subst cs. reflexivity.
Qed.

Lemma checkoff_within_history (h : Habit) (today : date) (now : datetime) :
  date_of now = today -> streak_within_history h ->
  exists h', checkoff today now h = Returns tt h' [] /\
             streak_within_history h'.
Proof.
  intros Hday Hinv. rewrite checkoff_state. eexists. split; [reflexivity |].
  unfold streak_within_history in *.
  cbn [checkoffs periodicity streak last_checkoff_date].
  rewrite map_app. cbn [map]. rewrite Hday.
  destruct (map date_of (checkoffs h)) as [| d ds] eqn:Hcs.
  - destruct Hinv as [Hs Hl]. rewrite Hs, Hl. cbn. repeat split; lia.
  - destruct Hinv as (Hs & Hl). rewrite Hl. cbn [app].
    rewrite (walk_pairs_snoc (periodicity h) ds d 1 [] today).
    destruct (walk_pairs (periodicity h) d ds 1 []) as [r cur].
    cbn [snd] in Hs. rewrite last_snoc. cbn [default].
    destruct (Z.ltb_spec (periodicity h) (days_between today (default d (last ds))));
      destruct (Z.leb_spec (days_between today (default d (last ds)))
                  (periodicity h)); try lia; cbn [snd]; split; try lia;
      reflexivity.
Qed.

Lemma checkoff_run_within_history (reads : list (date * datetime)) :
  forall h, Forall same_day reads -> streak_within_history h ->
    exists h', checkoff_run reads h = Returns tt h' [] /\
               streak_within_history h'.
Proof.
  induction reads as [| [today now] reads IH]; intros h Hsame Hinv.
  - exists h. split; [reflexivity | exact Hinv].
  - inversion Hsame as [| ? ? Hd Hrest]; subst.
    destruct (checkoff_within_history h today now Hd Hinv)
      as (h1 & Hrun1 & Hinv1).
    destruct (IH h1 Hrest Hinv1) as (h' & Hrun & Hinv').
    exists h'. split; [| exact Hinv'].
    rewrite (checkoff_run_cons today now reads h h1 Hrun1). exact Hrun.
Qed.

Lemma within_history_le_longest (h : Habit) :
  streak_within_history h ->
  0 <= streak h <= longest_run (periodicity h) (checkoffs h).
Proof.
  unfold streak_within_history. rewrite longest_run_best_run.
  destruct (map date_of (checkoffs h)) as [| d ds].
  - intros [-> _]. lia.
  - intros (Hs & _).
    destruct (walk_pairs_best_run (periodicity h) ds d 1 [] ltac:(lia))
      as [_ H2]. cbn [fold_right] in H2. lia.
Qed.

End LoadedStreaks.

(** X19: a habit that comes back from a file, then checked off any number
    of times, each call reading both clock values on one calendar date,
    never has a current streak above its longest streak, on whatever day
    the two are asked. *)
Theorem reloaded_longest_ge_current (h0 : Habit)
    (reads : list (date * datetime)) (today : date) :
  Forall same_day reads ->
  exists h lg cr,
    checkoff_run reads (reloaded h0) = Returns tt h [] /\
    longest_streak h = Returns lg h [] /\
    current_streak today h = Returns cr h [] /\
    cr <= lg.
Proof.
  intros Hsame.
  destruct (checkoff_run_within_history reads (reloaded h0) Hsame
              (streak_within_history_reloaded h0)) as (h & Hrun & Hinv).
  pose proof (within_history_le_longest h Hinv) as Hle.
  exists h, (longest_run (periodicity h) (checkoffs h)).
  destruct h as [nm p c cs s [l |]]; unfold current_streak; run;
    cbn [periodicity checkoffs streak] in Hle.
  - destruct (days_between today l <=? p); run; eexists;
      (split; [exact Hrun |]);
      (split; [apply longest_streak_returns |]);
      (split; [reflexivity | lia]).
  - eexists. split; [exact Hrun |].
    split; [apply longest_streak_returns |]. split; [reflexivity | lia].
Qed.

(** A habit with a two-day run comes back from the file and is checked
    off the next day. *)
Lemma reloaded_longest_ge_current_witness :
  exists h lg cr,
    checkoff_run [(mkdate 2023 7 3, mkdatetime 2023 7 3 9 0 0 0)]
      (reloaded
         (mkHabit "Read" 1 (mkdatetime 2023 6 1 8 0 0 0)
            [mkdatetime 2023 7 1 9 0 0 0; mkdatetime 2023 7 2 9 0 0 0]
            2 (Some (mkdate 2023 7 2))))
    = Returns tt h [] /\
    longest_streak h = Returns lg h [] /\
    current_streak (mkdate 2023 7 3) h = Returns cr h [] /\
    cr <= lg.
Proof.
  apply (reloaded_longest_ge_current
           (mkHabit "Read" 1 (mkdatetime 2023 6 1 8 0 0 0)
              [mkdatetime 2023 7 1 9 0 0 0; mkdatetime 2023 7 2 9 0 0 0]
              2 (Some (mkdate 2023 7 2)))
           [(mkdate 2023 7 3, mkdatetime 2023 7 3 9 0 0 0)]
           (mkdate 2023 7 3)).
  repeat constructor.
Defined.

(** * The report of struggling habits lists registered names *)

Section StruggledNames.

Lemma registered_names (os : list Habit) (d : list (string * nat)) :
  (forall nm l, dict_get nm d = Some l ->
     exists h, os !! l = Some h /\ name h = nm) ->
  NoDup (map fst d) ->
  map name (omap (fun l => os !! l) (dict_values d)) = map fst d.
Proof.
  induction d as [| [nm l] d IH]; intros Hall Hnd; [reflexivity |].
  cbn [map fst] in Hnd. apply NoDup_cons in Hnd as [Hnm Hnd].
  destruct (Hall nm l) as (h & Ho & Hn).
  { cbn. rewrite String.eqb_refl. reflexivity. }
  cbn. rewrite Ho. cbn. rewrite Hn. f_equal. apply IH; [| exact Hnd].
  intros nm' l' Hg. apply Hall. cbn.
  destruct (String.eqb_spec nm nm') as [<- | _]; [| exact Hg].
  apply dict_get_Some_key in Hg. contradiction.
Qed.

Lemma map_filter_sublist {A B} (f : A -> B) (P : A -> bool) (l : list A) :
  map f (List.filter P l) `sublist_of` map f l.
Proof.
  induction l as [| x l IH]; cbn; [constructor |].
  destruct (P x); cbn; [apply sublist_skip | apply sublist_cons]; exact IH.
Qed.

End StruggledNames.

(** X20: on a tracker some run has built, the names
    [habits_struggled_last_month()] returns are registered names, in the
    order of registration and each at most once: a habit that was deleted
    or replaced is not reported, although a replaced one is still in its
    bucket. *)
Theorem struggled_names_are_registered (t : HabitTracker) (today : date) :
  reachable t -> valid_date today -> 30 < toordinal today ->
  exists names,
    habits_struggled_last_month today t = Returns names t [] /\
    names `sublist_of` map fst (habits t) /\
    NoDup names.
Proof.
  intros Hreach Hv Hord. pose proof (reachable_ok t Hreach) as Hok.
  pose proof (reachable_names_match t Hreach) as Hnm.
  destruct (habits_struggled_returns t today Hok Hv Hord)
    as (d & _ & _ & Hs).
  eexists. split; [exact Hs |].
  destruct Hok as (H1 & H2 & _).
  assert (Hsub : map name (List.filter (struggled d) (registered_habits t))
                 `sublist_of` map fst (habits t)).
  { rewrite <- (registered_names (objs t) (habits t)); [| | exact H1].
    - apply map_filter_sublist.
    - intros nm l Hg. destruct (H2 nm l Hg) as (h & _ & Ho & _).
      exists h. split; [exact Ho | apply (Hnm nm l h Hg Ho)]. }
  split; [exact Hsub |]. apply (sublist_NoDup _ _ H1 Hsub).
Qed.

(** The tracker after adding "a" twice, asked on 2023-08-01: "a" is
    reported once. *)
Lemma struggled_names_are_registered_witness :
  exists names,
    habits_struggled_last_month (mkdate 2023 8 1)
      (mkHabitTracker
         [Habit_init "a" 1 None (mkdatetime 2023 7 1 8 0 0 0);
          Habit_init "a" 1 None (mkdatetime 2023 7 1 8 0 0 1)]
         [("a"%string, 1%nat)] {[ 1 := [0%nat; 1%nat] ]})
    = Returns names
        (mkHabitTracker
           [Habit_init "a" 1 None (mkdatetime 2023 7 1 8 0 0 0);
            Habit_init "a" 1 None (mkdatetime 2023 7 1 8 0 0 1)]
           [("a"%string, 1%nat)] {[ 1 := [0%nat; 1%nat] ]}) [] /\
    NoDup names.
Proof.
  destruct (struggled_names_are_registered
              (mkHabitTracker
                 [Habit_init "a" 1 None (mkdatetime 2023 7 1 8 0 0 0);
                  Habit_init "a" 1 None (mkdatetime 2023 7 1 8 0 0 1)]
                 [("a"%string, 1%nat)] {[ 1 := [0%nat; 1%nat] ]})
              (mkdate 2023 8 1))
    as (names & Hrun & _ & Hnd).
  - exists [AddHabit "a" 1 (mkdatetime 2023 7 1 8 0 0 0);
            AddHabit "a" 1 (mkdatetime 2023 7 1 8 0 0 1)], [].
    vm_compute. reflexivity.
  - cbv [valid_date]. cbn. lia.
  - vm_compute. reflexivity.
  - exists names. split; assumption.
Defined.

(** * A replaced habit stays in its bucket *)

Section Orphans.

Lemma dict_values_set {V} (k : string) (x v : V) (d : list (string * V)) :
  v ∈ dict_values (dict_set k x d) -> v = x \/ v ∈ dict_values d.
Proof.
  unfold dict_values. induction d as [| [k' v'] d IH]; cbn.
  - intros H. apply list_elem_of_singleton in H. left. exact H.
  - destruct (String.eqb k' k); cbn; rewrite !elem_of_cons; [tauto |].
    intros [-> | H]; [tauto |]. destruct (IH H); tauto.
Qed.

Lemma dict_values_pop {V} (k : string) (v : V) (d : list (string * V)) :
  v ∈ dict_values (dict_pop k d) -> v ∈ dict_values d.
Proof.
  unfold dict_values. induction d as [| [k' v'] d IH]; cbn; [trivial |].
  destruct (String.eqb k' k); cbn; rewrite !elem_of_cons; [tauto |].
  intros [-> | H]; [tauto |]. right. apply IH, H.
Qed.

Lemma run_call_orphan (c : call) (t t' : HabitTracker) (out : list string)
    (l : nat) :
  tracker_ok t -> orphan t l ->
  run_call c t = Returns tt t' out -> orphan t' l.
Proof.
  intros Hok [(q & c0 & Hq & Hl) Hout] Hrun.
  pose proof Hok as (H1 & H2 & H3 & H4).
  destruct c as [nm p now | nm | nm today now | p]; cbn [run_call] in Hrun.
  - rewrite add_habit_returns in Hrun. injection Hrun as <- _.
    unfold orphan. cbn [habits habits_by_periodicity]. split.
    + destruct (decide (p = q)) as [<- | Hne].
      * exists p. eexists. split; [apply lookup_insert_eq |].
        rewrite Hq. cbn [default]. apply elem_of_app. left. exact Hl.
      * exists q, c0. rewrite lookup_insert_ne by exact Hne.
        split; assumption.
    + intros Hin. apply dict_values_set in Hin as [-> | Hin];
        [| contradiction].
      destruct (H3 q c0 _ Hq Hl) as (h & Ho & _).
      apply lookup_lt_Some in Ho. lia.
  - destruct (dict_get nm (habits t)) as [l' |] eqn:Hg.
    2:{ rewrite (delete_habit_absent t nm Hg) in Hrun.
        injection Hrun as <- _. split; eauto. }
    destruct (H2 nm l' Hg) as (h & b & Ho & Hbk & Hin).
    destruct (list_remove_Some l' b Hin) as (b' & Hr).
    rewrite (delete_habit_present t nm l' h b b' Hg Ho Hbk Hr) in Hrun.
    injection Hrun as <- _.
    assert (Hne : l <> l').
    { intros ->. apply Hout, (dict_get_Some_value nm l' _ Hg). }
    unfold orphan. cbn [habits habits_by_periodicity]. split.
    + destruct (decide (periodicity h = q)) as [<- | Hpq].
      * exists (periodicity h), b'. split; [apply lookup_insert_eq |].
        rewrite Hbk in Hq. injection Hq as <-.
        apply (list_remove_keeps l' b b' l Hr Hl Hne).
      * exists q, c0. rewrite lookup_insert_ne by exact Hpq.
        split; assumption.
    + intros Hv. apply Hout, (dict_values_pop nm), Hv.
  - destruct (dict_get nm (habits t)) as [l' |] eqn:Hg.
    2:{ rewrite (checkoff_habit_absent t nm today now Hg) in Hrun.
        injection Hrun as <- _. split; eauto. }
    destruct (H2 nm l' Hg) as (h & b & Ho & _).
    pose proof (checkoff_state h today now) as Hc.
    rewrite (checkoff_habit_present t nm l' h _ today now Hg Ho Hc) in Hrun.
    injection Hrun as <- _. split; eauto.
  - unfold mbind, M_bind in Hrun.
    rewrite get_habits_by_periodicity_returns in Hrun. cbn in Hrun.
    injection Hrun as <- _.
    destruct (habits_by_periodicity t !! p) as [b |] eqn:E; [split; eauto |].
    unfold orphan. cbn [habits habits_by_periodicity].
    split; [| exact Hout]. exists q, c0.
    rewrite lookup_insert_ne by congruence. split; assumption.
Qed.

End Orphans.

(** X21: on a tracker some run has built, a Habit that is in a bucket
    while no name is bound to it (as [add_habit] over an existing name
    leaves the replaced Habit) stays so through every further sequence of
    [add_habit], [delete_habit], [checkoff_habit] and
    [get_habits_by_periodicity] calls: no call removes it. *)
Theorem orphan_stays (t : HabitTracker) (l : nat) (cs : list call) :
  reachable t -> orphan t l ->
  exists t' out, run_calls cs t = Returns tt t' out /\ orphan t' l.
Proof.
  intros Hreach. pose proof (reachable_ok t Hreach) as Hok. clear Hreach.
  revert t Hok. induction cs as [| c cs IH]; intros t Hok Horph.
  - exists t, []. split; [reflexivity | exact Horph].
  - destruct (run_call_ok c t Hok) as (t1 & o1 & H1 & Hok1).
    destruct (IH t1 Hok1 (run_call_orphan c t t1 o1 l Hok Horph H1))
      as (t' & o' & Hrun & Horph').
    exists t', (o1 ++ o'). split; [| exact Horph'].
    cbn [run_calls]. unfold mbind, M_bind. rewrite H1, Hrun. reflexivity.
Qed.

(** The tracker after adding "a" twice: deleting "a" leaves the first
    Habit in bucket 1. *)
Lemma orphan_stays_witness :
  exists t' out,
    run_calls [DeleteHabit "a"]
      (mkHabitTracker
         [Habit_init "a" 1 None (mkdatetime 2023 7 1 8 0 0 0);
          Habit_init "a" 1 None (mkdatetime 2023 7 1 8 0 0 1)]
         [("a"%string, 1%nat)] {[ 1 := [0%nat; 1%nat] ]})
    = Returns tt t' out /\ orphan t' 0%nat.
Proof.
  apply (orphan_stays
           (mkHabitTracker
              [Habit_init "a" 1 None (mkdatetime 2023 7 1 8 0 0 0);
               Habit_init "a" 1 None (mkdatetime 2023 7 1 8 0 0 1)]
              [("a"%string, 1%nat)] {[ 1 := [0%nat; 1%nat] ]})
           0%nat [DeleteHabit "a"]).
  - exists [AddHabit "a" 1 (mkdatetime 2023 7 1 8 0 0 0);
            AddHabit "a" 1 (mkdatetime 2023 7 1 8 0 0 1)], [].
    vm_compute. reflexivity.
  - split.
    + exists 1, [0%nat; 1%nat]. split; [reflexivity | apply list_elem_of_here].
    + cbn. intros H. apply list_elem_of_singleton in H. discriminate H.
Defined.
